(** * CV publishing toolkit: exporters and cross-post publisher

    A shallow embedding of the command-line scripts of the site:
    the Markdown exporter, the LinkedIn-text exporter, the tailored PDF
    generator's entry point and the DEV.to cross-post publisher, together
    with the properties their specification states about them.

    JavaScript strings are sequences of UTF-16 code units; they are kept
    as such ([jsstring]), so that [length] is the [.length] of the source.
    Numbers that the scripts compute with are integers far below 2^53 and
    are kept as [Z] (or [N]); [NaN] is [None]. *)

From Stdlib Require Import List String Ascii ZArith NArith Lia Bool.
From Stdlib Require Import Sorted Permutation.
Import ListNotations.

Local Open Scope list_scope.

(* ================================================================= *)
(** ** JavaScript strings *)

Module Js.

Abbreviation codeunit := N.
Abbreviation jsstring := (list N).

(** An ASCII literal of the source, as code units. *)
Fixpoint lit (s : string) : jsstring :=
  match s with
  | EmptyString => []
  | String a rest => N_of_ascii a :: lit rest
  end.
Arguments lit s%_string.

Definition LF : jsstring := [10%N].

Fixpoint eqb (a b : jsstring) : bool :=
  match a, b with
  | [], [] => true
  | x :: a', y :: b' => N.eqb x y && eqb a' b'
  | _, _ => false
  end.

(** [Array.prototype.join]. *)
Fixpoint join (sep : jsstring) (parts : list jsstring) : jsstring :=
  match parts with
  | [] => []
  | [p] => p
  | p :: rest => p ++ sep ++ join sep rest
  end.

(** [String.prototype.repeat]. *)
Fixpoint repeat (s : jsstring) (n : nat) : jsstring :=
  match n with
  | O => []
  | S k => s ++ repeat s k
  end.

(** [String.prototype.startsWith]. *)
Fixpoint startsWith (s prefix : jsstring) : bool :=
  match prefix, s with
  | [], _ => true
  | p :: prefix', c :: s' => N.eqb p c && startsWith s' prefix'
  | _ :: _, [] => false
  end.

(** [String.prototype.includes]: some position of [s] starts with
    [needle]. *)
Fixpoint includes (s needle : jsstring) : bool :=
  startsWith s needle ||
  match s with
  | [] => false
  | _ :: s' => includes s' needle
  end.

(** [Array.prototype.includes] on an array of strings. *)
Definition arrayIncludes (xs : list jsstring) (x : jsstring) : bool :=
  existsb (eqb x) xs.

(** [String.prototype.split] with a one-unit separator: the pieces
    between the occurrences of [sep]; never the empty array. *)
Fixpoint split (sep : codeunit) (s : jsstring) : list jsstring :=
  match s with
  | [] => [[]]
  | c :: s' =>
      if N.eqb c sep then [] :: split sep s'
      else match split sep s' with
           | [] => [[c]]
           | piece :: pieces => (c :: piece) :: pieces
           end
  end.

(** Truthiness of a string: every string but the empty one. *)
Definition truthy (s : jsstring) : bool :=
  match s with [] => false | _ :: _ => true end.

(** Truthiness of an optional (absent, [null] or present) string. *)
Definition truthyOpt (o : option jsstring) : bool :=
  match o with None => false | Some s => truthy s end.

(** [a || b] where [a] is an optional string. *)
Definition orElse (o : option jsstring) (dflt : jsstring) : jsstring :=
  match o with
  | Some ((_ :: _) as s) => s
  | _ => dflt
  end.

(** *** Numbers in strings *)

Definition digitChar (d : N) : codeunit := (48 + d)%N.

Fixpoint decimalFuel (fuel : nat) (n : N) (acc : jsstring) : jsstring :=
  match fuel with
  | O => acc
  | S fuel' =>
      let acc' := digitChar (n mod 10) :: acc in
      if (n / 10 =? 0)%N then acc' else decimalFuel fuel' (n / 10) acc'
  end.

(** The decimal numeral of a natural number ([Number.prototype.toString]
    on a non-negative integer). *)
Definition decimal (n : N) : jsstring :=
  decimalFuel (S (N.to_nat (N.log2 n))) n [].

(** The numeral of an integer, as a template literal prints it. *)
Definition decimalZ (z : Z) : jsstring :=
  match z with
  | Zneg p => lit "-" ++ decimal (Npos p)
  | _ => decimal (Z.to_N z)
  end.

(** [String.prototype.padStart (width, "0")] of a numeral. *)
Definition padStart0 (width : nat) (s : jsstring) : jsstring :=
  List.repeat 48%N (width - List.length s) ++ s.

(** The white space and line terminators that [parseInt] skips. *)
Definition isWhiteSpace (c : codeunit) : bool :=
  existsb (N.eqb c)
    [9; 10; 11; 12; 13; 32; 160; 5760; 8192; 8193; 8194; 8195; 8196; 8197;
     8198; 8199; 8200; 8201; 8202; 8232; 8233; 8239; 8287; 12288; 65279]%N.

Fixpoint trimStart (s : jsstring) : jsstring :=
  match s with
  | c :: s' => if isWhiteSpace c then trimStart s' else s
  | [] => []
  end.

(** The value of a code unit as a digit of the given radix. *)
Definition digitValue (radix : N) (c : codeunit) : option N :=
  let v :=
    if ((48 <=? c) && (c <=? 57))%N then Some (c - 48)%N
    else if ((97 <=? c) && (c <=? 122))%N then Some (c - 87)%N
    else if ((65 <=? c) && (c <=? 90))%N then Some (c - 55)%N
    else None in
  match v with
  | Some d => if (d <? radix)%N then Some d else None
  | None => None
  end.

(** The longest prefix of digits, read as a number; [None] when it is
    empty. *)
Fixpoint parseDigits (radix : N) (acc : option N) (s : jsstring) : option N :=
  match s with
  | [] => acc
  | c :: s' =>
      match digitValue radix c with
      | Some d =>
          parseDigits radix
            (Some (radix * match acc with Some a => a | None => 0 end + d)%N) s'
      | None => acc
      end
  end.

(** [parseInt (s)] with no radix argument; [None] is [NaN]. White space
    is skipped, then a sign is read, then a [0x] or [0X] prefix, which
    makes the digits hexadecimal. *)
Definition parseInt (s : jsstring) : option Z :=
  let s := trimStart s in
  let (sign, s) :=
    match s with
    | c :: s' =>
        if (c =? 45)%N then ((-1)%Z, s')            (* "-" *)
        else if (c =? 43)%N then (1%Z, s')          (* "+" *)
        else (1%Z, s)
    | [] => (1%Z, s)
    end in
  let (radix, s) :=
    match s with
    | c :: x :: s' =>
        if ((c =? 48) && ((x =? 120) || (x =? 88)))%N then (16%N, s')
        else (10%N, s)
    | _ => (10%N, s)
    end in
  match parseDigits radix None s with
  | Some n => Some (sign * Z.of_N n)%Z
  | None => None
  end.

End Js.

Import Js.

(* ================================================================= *)
(** ** The [Date] values the exporter builds *)

Module JsDate.

(** A [Date] made by [new Date (year, monthIndex)] and read back in the
    same local time zone: either the invalid date, or the first day of a
    month, known by its local year and its month index (0 to 11). *)
Inductive t : Type :=
| Invalid
| FirstOf (year : Z) (monthIndex : Z).

(** The months whose first day is within the time range of [Date]
    (100,000,000 days either side of 1970): May -271821 to
    September 275760. *)
Definition inRange (year monthIndex : Z) : bool :=
  ((-271821 * 12 + 4 <=? year * 12 + monthIndex) &&
   (year * 12 + monthIndex <=? 275760 * 12 + 8))%Z.

(** [new Date (year, monthIndex)]: a [NaN] argument gives the invalid
    date, a year from 0 to 99 means 1900 to 1999, and a month index
    outside 0..11 carries into the year. *)
Definition make (year monthIndex : option Z) : t :=
  match year, monthIndex with
  | Some y, Some m =>
      let yr := if ((0 <=? y) && (y <=? 99))%Z then (1900 + y)%Z else y in
      let ym := (yr + m / 12)%Z in
      let mn := (m mod 12)%Z in
      if inRange ym mn then FirstOf ym mn else Invalid
  | _, _ => Invalid
  end.

(** The abbreviated English month names of the [en-US] locale. *)
Definition monthShort (monthIndex : Z) : jsstring :=
  nth (Z.to_nat monthIndex)
    (map lit ["Jan"; "Feb"; "Mar"; "Apr"; "May"; "Jun";
              "Jul"; "Aug"; "Sep"; "Oct"; "Nov"; "Dec"]%string)
    [].

(** [toLocaleDateString ('en-US', { month: 'short', year: 'numeric' })]:
    the month name, a space and the year of the era. *)
Definition toLocaleDateString_en_US_short_numeric (d : t) : jsstring :=
  match d with
  | Invalid => lit "Invalid Date"
  | FirstOf y m =>
      let yearOfEra := if (1 <=? y)%Z then y else (1 - y)%Z in
      monthShort m ++ lit " " ++ decimal (Z.to_N yearOfEra)
  end.

End JsDate.

(* ================================================================= *)
(** ** The CV document ([CVData]) *)

Module Personal.
Record t : Type := mk {
  name : jsstring;
  title : jsstring;
  email : jsstring;
  location : jsstring;
  linkedin : option jsstring;
  github : option jsstring
}.
End Personal.

Module Experience.
Record t : Type := mk {
  id : jsstring;
  title : jsstring;
  company : jsstring;
  location : jsstring;
  startDate : jsstring;
  endDate : option jsstring;        (* [null] for the current position *)
  description : jsstring;
  achievements : list jsstring;
  skills : list jsstring;
  visibility : option (list jsstring)
}.
End Experience.

Module SkillCategory.
Record t : Type := mk {
  category : jsstring;
  skills : list jsstring
}.
End SkillCategory.

Module Skills.
Record t : Type := mk {
  technical : list SkillCategory.t;
  soft : option (list jsstring)
}.
End Skills.

Module Education.
Record t : Type := mk {
  id : jsstring;
  degree : jsstring;
  institution : jsstring;
  location : jsstring;
  startDate : jsstring;
  endDate : option jsstring;
  description : option jsstring;
  visibility : option (list jsstring)
}.
End Education.

Module Project.
Record t : Type := mk {
  id : jsstring;
  name : jsstring;
  description : jsstring;
  url : option jsstring;
  github : option jsstring;
  technologies : list jsstring;
  highlights : list jsstring;
  visibility : option (list jsstring)
}.
End Project.

Module Language.
Record t : Type := mk {
  name : jsstring;
  proficiency : jsstring
}.
End Language.

Module CVData.
Record t : Type := mk {
  personal : Personal.t;
  summary : jsstring;
  experience : list Experience.t;
  skills : Skills.t;
  education : list Education.t;
  projects : option (list Project.t);
  languages : option (list Language.t)
}.
End CVData.

(** [cond && xs.length > 0] on an optional array: the array when it is
    present and not empty. *)
Definition nonEmptyArray {A : Type} (o : option (list A)) : option (list A) :=
  match o with
  | Some ((_ :: _) as xs) => Some xs
  | _ => None
  end.

(* ================================================================= *)
(** ** The Markdown exporter *)

Module Markdown.

Definition formatDate (dateStr : option jsstring) : jsstring :=
  match dateStr with
  | None | Some [] => lit "Present"
  | Some dateStr =>
      let parts := split 45%N dateStr in
      let year := nth 0 parts [] in
      match nth_error parts 1 with
      | None | Some [] => year
      | Some month =>
          let date :=
            JsDate.make (parseInt year)
                        (option_map (fun m => (m - 1)%Z) (parseInt month)) in
          JsDate.toLocaleDateString_en_US_short_numeric date
      end
  end.

Definition isVisible (visibility : option (list jsstring))
                     (includeHidden : bool) : bool :=
  if includeHidden then true
  else match visibility with
       | None => true
       | Some v => arrayIncludes v (lit "all")
       end.

(** The lines pushed for one experience entry. *)
Definition experienceLines (exp : Experience.t) : list jsstring :=
  let dates := formatDate (Some (Experience.startDate exp)) ++ lit " - "
               ++ formatDate (Experience.endDate exp) in
  [ lit "### " ++ Experience.title exp ++ lit " at " ++ Experience.company exp;
    lit "*" ++ Experience.location exp ++ lit " | " ++ dates ++ lit "*";
    [];
    Experience.description exp;
    [] ]
  ++ (match Experience.achievements exp with
      | [] => []
      | achievements =>
          [lit "**Key Achievements:**"]
          ++ map (fun achievement => lit "- " ++ achievement) achievements
          ++ [[]]
      end)
  ++ (match Experience.skills exp with
      | [] => []
      | skills =>
          [lit "**Technologies:** " ++ join (lit ", ") skills; []]
      end).

Definition categoryLines (category : SkillCategory.t) : list jsstring :=
  [ lit "**" ++ SkillCategory.category category ++ lit ":** "
      ++ join (lit ", ") (SkillCategory.skills category);
    [] ].

Definition educationLines (edu : Education.t) : list jsstring :=
  let dates := Education.startDate edu ++ lit " - "
               ++ orElse (Education.endDate edu) (lit "Present") in
  [ lit "### " ++ Education.degree edu;
    lit "*" ++ Education.institution edu ++ lit ", " ++ Education.location edu
      ++ lit " | " ++ dates ++ lit "*" ]
  ++ (match Education.description edu with
      | Some ((_ :: _) as description) => [[]; description]
      | _ => []
      end)
  ++ [[]].

Definition projectLines (proj : Project.t) : list jsstring :=
  [ lit "### " ++ Project.name proj;
    [];
    Project.description proj;
    [] ]
  ++ (match Project.url proj with
      | Some ((_ :: _) as url) => [lit "**URL:** " ++ url]
      | _ => []
      end)
  ++ (match Project.github proj with
      | Some ((_ :: _) as github) => [lit "**GitHub:** " ++ github]
      | _ => []
      end)
  ++ (match Project.highlights proj with
      | [] => []
      | highlights =>
          [[]; lit "**Highlights:**"]
          ++ map (fun highlight => lit "- " ++ highlight) highlights
      end)
  ++ (match Project.technologies proj with
      | [] => []
      | technologies =>
          [[]; lit "**Technologies:** " ++ join (lit ", ") technologies]
      end)
  ++ [[]].

Definition visibleExperience (cv : CVData.t) (includeHidden : bool) :=
  filter (fun exp => isVisible (Experience.visibility exp) includeHidden)
         (CVData.experience cv).

Definition visibleEducation (cv : CVData.t) (includeHidden : bool) :=
  filter (fun edu => isVisible (Education.visibility edu) includeHidden)
         (CVData.education cv).

Definition visibleProjects (projects : list Project.t) (includeHidden : bool) :=
  filter (fun proj => isVisible (Project.visibility proj) includeHidden)
         projects.

(** The lines pushed for the projects, if any is visible. *)
Definition projectsSection (projects : option (list Project.t))
                           (includeHidden : bool) : list jsstring :=
  match nonEmptyArray projects with
  | Some projects =>
      match visibleProjects projects includeHidden with
      | [] => []
      | visible => [lit "## Projects"; []] ++ flat_map projectLines visible
      end
  | None => []
  end.

(** The [lines] array of [exportToMarkdown] when it is joined. *)
Definition exportLines (cv : CVData.t) (includeHidden : bool) : list jsstring :=
  let personal := CVData.personal cv in
  (* Header *)
  [ lit "# " ++ Personal.name personal;
    lit "**" ++ Personal.title personal ++ lit "**";
    [];
    Personal.location personal ++ lit " | " ++ Personal.email personal ]
  ++ (match Personal.linkedin personal with
      | Some ((_ :: _) as linkedin) => [lit "LinkedIn: " ++ linkedin]
      | _ => []
      end)
  ++ (match Personal.github personal with
      | Some ((_ :: _) as github) => [lit "GitHub: " ++ github]
      | _ => []
      end)
  ++ [[]]
  (* Summary *)
  ++ [lit "## Summary"; []; CVData.summary cv; []]
  (* Experience *)
  ++ [lit "## Experience"; []]
  ++ flat_map experienceLines (visibleExperience cv includeHidden)
  (* Skills *)
  ++ [lit "## Skills"; []]
  ++ flat_map categoryLines (Skills.technical (CVData.skills cv))
  ++ (match nonEmptyArray (Skills.soft (CVData.skills cv)) with
      | Some soft => [lit "**Soft Skills:** " ++ join (lit ", ") soft; []]
      | None => []
      end)
  (* Education *)
  ++ [lit "## Education"; []]
  ++ flat_map educationLines (visibleEducation cv includeHidden)
  (* Projects (if any visible) *)
  ++ projectsSection (CVData.projects cv) includeHidden
  (* Languages *)
  ++ (match nonEmptyArray (CVData.languages cv) with
      | Some languages =>
          [lit "## Languages"; []]
          ++ map (fun lang => lit "- **" ++ Language.name lang ++ lit ":** "
                              ++ Language.proficiency lang) languages
          ++ [[]]
      | None => []
      end).

Definition exportToMarkdown (cv : CVData.t) (includeHidden : bool) : jsstring :=
  join LF (exportLines cv includeHidden).

End Markdown.

(* ================================================================= *)
(** ** Values, errors and the process a script runs in *)

Inductive JsError : Type :=
| Error (message : jsstring)        (* [new Error (message)] *)
| TypeError (message : jsstring)    (* raised by the language, in Node's words *)
| HostError (message : jsstring).   (* raised by the runtime or a library *)

(** What comes of an expression that may throw, and its sequencing. *)
Definition andThen {A B} (r : JsError + A) (k : A -> JsError + B)
  : JsError + B :=
  match r with
  | inl e => inl e
  | inr a => k a
  end.

(** The JavaScript values that cross the scripts' interfaces: what a JSON
    text or the YAML of a front matter holds (null, booleans, numbers,
    strings, sequences and mappings), and [undefined].  A number is given
    by the string that the language makes of it ([Number::toString]:
    "42", "0.5", "1e+21", "NaN"), which fixes it up to the sign of zero
    and is all that the scripts observe of a number. *)
#[local] Unset Elimination Schemes.
Inductive JsValue : Type :=
| VUndefined
| VNull
| VBool (b : bool)
| VNumber (shown : jsstring)
| VString (s : jsstring)
| VArray (items : list JsValue)
| VObject (props : list (jsstring * JsValue)).
#[local] Set Elimination Schemes.

(** The own property [key] of an object. *)
Fixpoint lookup (props : list (jsstring * JsValue)) (key : jsstring)
  : option JsValue :=
  match props with
  | [] => None
  | (k, v) :: rest => if Js.eqb k key then Some v else lookup rest key
  end.

(** The properties that [JSON.stringify] writes for an object: those
    whose value is not [undefined], in their order. *)
Definition jsonProps (v : JsValue) : list (jsstring * JsValue) :=
  match v with
  | VObject props =>
      filter (fun kv => match snd kv with VUndefined => false | _ => true end)
             props
  | _ => []
  end.

(** [ToBoolean]: what [if], [!], [||] and [?:] make of a value. *)
Definition truthyValue (v : JsValue) : bool :=
  match v with
  | VUndefined | VNull => false
  | VBool b => b
  | VNumber shown => negb (Js.eqb shown (lit "0") || Js.eqb shown (lit "NaN"))
  | VString s => truthy s
  | VArray _ | VObject _ => true
  end.

(** [value.key], for a name [key] that no built-in prototype has (the
    scripts read no other): the own property of an object, [undefined]
    on a value of another kind, and a [TypeError] on [null] and
    [undefined]. *)
Definition get (value : JsValue) (key : jsstring) : JsError + JsValue :=
  match value with
  | VUndefined =>
      inl (TypeError (lit "Cannot read properties of undefined (reading '"
                      ++ key ++ lit "')"))
  | VNull =>
      inl (TypeError (lit "Cannot read properties of null (reading '"
                      ++ key ++ lit "')"))
  | VObject props =>
      inr (match lookup props key with
           | Some v => v
           | None => VUndefined
           end)
  | _ => inr VUndefined
  end.

(** [value?.key], for such a name. *)
Definition getOptional (value : JsValue) (key : jsstring) : JsValue :=
  match value with
  | VObject props =>
      match lookup props key with
      | Some v => v
      | None => VUndefined
      end
  | _ => VUndefined
  end.

(** The string a template literal makes of a value ([ToString]).  An
    array is joined with ",", its [null] and [undefined] items giving the
    empty string.  An object made by [JSON.parse] or by a YAML parser has
    [Object.prototype.toString] unless a property of its own is named
    [toString]; such a property is not a function, nor is what [valueOf]
    returns a primitive, and the conversion throws. *)
Fixpoint toString (v : JsValue) : JsError + jsstring :=
  match v with
  | VUndefined => inr (lit "undefined")
  | VNull => inr (lit "null")
  | VBool true => inr (lit "true")
  | VBool false => inr (lit "false")
  | VNumber shown => inr shown
  | VString s => inr s
  | VArray items =>
      let fix texts (items : list JsValue) : JsError + list jsstring :=
        match items with
        | [] => inr []
        | item :: rest =>
            andThen (match item with
                     | VUndefined | VNull => inr []
                     | _ => toString item
                     end)
                    (fun text =>
                       andThen (texts rest) (fun more => inr (text :: more)))
        end in
      andThen (texts items) (fun texts => inr (join (lit ",") texts))
  | VObject props =>
      match lookup props (lit "toString") with
      | Some _ => inl (TypeError (lit "Cannot convert object to primitive value"))
      | None => inr (lit "[object Object]")
      end
  end.

(** The strings that [Array.prototype.join] makes of the items. *)
Fixpoint itemTexts (items : list JsValue) : JsError + list jsstring :=
  match items with
  | [] => inr []
  | item :: rest =>
      andThen (match item with
               | VUndefined | VNull => inr []
               | _ => toString item
               end)
              (fun text =>
                 andThen (itemTexts rest) (fun more => inr (text :: more)))
  end.

(** An argument of [console.log] or [console.error]. *)
Inductive LogArg : Type :=
| Text (s : jsstring)
| Caught (e : JsError).

Record RequestInit : Type := {
  method : jsstring;
  headers : list (jsstring * jsstring);
  body : JsValue           (* the value whose JSON text is the body *)
}.

(** What the script does to the outside, in order. *)
Inductive Event : Type :=
| ConsoleLog (args : list LogArg)
| ConsoleError (args : list LogArg)
| StdoutWrite (text : jsstring)
| StderrWrite (text : jsstring)
| ExistsSync (path : jsstring)
| ReadFileSync (path : jsstring)
| Fetch (url : jsstring) (init : RequestInit).

(** The answer to a [fetch]: a rejection, or a response with its [ok]
    flag and what [response.json ()] resolves to or rejects with. *)
Inductive FetchResult : Type :=
| Rejected (e : JsError)
| Response (ok : bool) (json : JsError + JsValue).

(** The outside of one run. *)
Record World : Type := {
  argv : list jsstring;                     (* [process.argv] *)
  env : jsstring -> option jsstring;        (* [process.env] *)
  files : jsstring -> option jsstring;      (* the files, by path *)
  network : jsstring -> RequestInit -> FetchResult;
  timeZone : Z;                             (* minutes east of UTC *)
  clock : Z                                 (* milliseconds since 1970 *)
}.

(** How a run, or a part of it, ends. *)
Inductive Outcome (A : Type) : Type :=
| Returned (a : A)
| Exited (code : Z)              (* [process.exit (code)] *)
| Thrown (e : JsError).
Arguments Returned {A} a.
Arguments Exited {A} code.
Arguments Thrown {A} e.

(** A script: from the outside, the events it causes and how it ends. *)
Definition Script (A : Type) : Type := World -> list Event * Outcome A.

Module Script.

Definition ret {A} (a : A) : Script A := fun _ => ([], Returned a).

Definition bind {A B} (m : Script A) (k : A -> Script B) : Script B :=
  fun w =>
    match m w with
    | (t, Returned a) => let (t', o) := k a w in (t ++ t', o)
    | (t, Exited code) => (t, Exited code)
    | (t, Thrown e) => (t, Thrown e)
    end.

Definition emit (e : Event) : Script unit := fun _ => ([e], Returned tt).

Definition exit {A} (code : Z) : Script A := fun _ => ([], Exited code).

Definition throw {A} (e : JsError) : Script A := fun _ => ([], Thrown e).

(** An expression that prints nothing: its value, or what it throws. *)
Definition lift {A} (r : JsError + A) : Script A :=
  match r with
  | inl e => throw e
  | inr a => ret a
  end.

(** What a [catch] block makes of the run of its [try] block. *)
Definition caught {A} (r : list Event * Outcome A)
                  (handler : JsError -> Script A) (w : World)
  : list Event * Outcome A :=
  match r with
  | (t, Thrown e) => let (t', o) := handler e w in (t ++ t', o)
  | _ => r
  end.

(** [try { m } catch (error) { handler }]: an exit is not caught. *)
Definition tryCatch {A} (m : Script A) (handler : JsError -> Script A)
  : Script A :=
  fun w => caught (m w) handler w.

(** A run that comes after the events [t]. *)
Definition after {A} (t : list Event) (r : list Event * Outcome A)
  : list Event * Outcome A :=
  (t ++ fst r, snd r).

Definition trace {A} (r : list Event * Outcome A) : list Event := fst r.
Definition outcome {A} (r : list Event * Outcome A) : Outcome A := snd r.

End Script.

Declare Scope script_scope.
Delimit Scope script_scope with script.
Notation "x <- m ;; k" := (Script.bind m (fun x => k))
  (at level 61, m at next level, right associativity) : script_scope.
Notation "m ;; k" := (Script.bind m (fun _ => k))
  (at level 61, right associativity) : script_scope.

Module Node.
Local Open Scope script_scope.

Definition console_log (args : list LogArg) : Script unit :=
  Script.emit (ConsoleLog args).

Definition console_error (args : list LogArg) : Script unit :=
  Script.emit (ConsoleError args).

Definition stdout_write (text : jsstring) : Script unit :=
  Script.emit (StdoutWrite text).

Definition stderr_write (text : jsstring) : Script unit :=
  Script.emit (StderrWrite text).

(** [fs.existsSync]. *)
Definition existsSync (path : jsstring) : Script bool :=
  fun w => ([ExistsSync path],
            Returned (match files w path with Some _ => true | None => false end)).

(** [fs.readFileSync (path, 'utf-8')]: throws when there is no file. *)
Definition readFileSync (path : jsstring) : Script jsstring :=
  fun w => ([ReadFileSync path],
            match files w path with
            | Some text => Returned text
            | None => Thrown (HostError (lit "ENOENT"))
            end).

(** [await fetch (url, init)]. *)
Definition fetch (url : jsstring) (init : RequestInit) : Script FetchResult :=
  fun w => ([Fetch url init], Returned (network w url init)).

Definition getenv (name : jsstring) : Script (option jsstring) :=
  fun w => ([], Returned (env w name)).

Definition process_argv : Script (list jsstring) :=
  fun w => ([], Returned (argv w)).

End Node.

(* ================================================================= *)
(** ** The cross-post publisher ([publish-to-devto.ts]) *)

(** Pictographs of the messages, as UTF-16. *)
Definition CROSS_MARK : jsstring := [10060%N].             (* U+274C *)
Definition WARNING_SIGN : jsstring := [9888%N; 65039%N].   (* U+26A0 U+FE0F *)
Definition MEMO : jsstring := [55357%N; 56541%N].          (* U+1F4DD *)
Definition CHECK_MARK : jsstring := [9989%N].              (* U+2705 *)

Section Publisher.
Local Open Scope script_scope.
Import Node.

(** The directory of the script, and the library functions it calls. *)
Variable dirname : jsstring.                                 (* [__dirname] *)
Variable path_join : list jsstring -> jsstring.              (* [path.join] *)
(** [matter] is gray-matter: it throws on a front matter that it cannot
    parse, and gives the front matter as it stands in the file, with no
    schema applied, and the text after it.  The values of other kinds
    that YAML can give (a time stamp gives a [Date], [!!binary] a
    [Buffer]) are outside this model. *)
Variable matter : jsstring -> JsError + (JsValue * jsstring).
Variable JSON_stringify_2 : JsValue -> jsstring.  (* [JSON.stringify (v, null, 2)] *)

Definition DEVTO_API_URL : jsstring := lit "https://dev.to/api/articles".
Definition SITE_URL : jsstring := lit "https://camarneiro.com".

Definition postPath (slug : jsstring) : jsstring :=
  path_join [dirname; lit ".."; lit "src"; lit "content"; lit "blog";
             slug ++ lit ".md"].

(** [frontmatter.crosspost?.devTo?.published]. *)
Definition crosspostPublished (frontmatter : JsValue) : JsError + JsValue :=
  andThen (get frontmatter (lit "crosspost")) (fun crosspost =>
  inr (getOptional (getOptional crosspost (lit "devTo")) (lit "published"))).

(** [`${frontmatter.crosspost.devTo.url}`]. *)
Definition crosspostUrl (frontmatter : JsValue) : JsError + jsstring :=
  andThen (get frontmatter (lit "crosspost")) (fun crosspost =>
  andThen (get crosspost (lit "devTo")) (fun devTo =>
  andThen (get devTo (lit "url")) toString)).

(** [tags?.slice (0, 4)]: the first four items of an array, the first
    four code units of a string, [undefined] for [null] and [undefined];
    a value of another kind has no function of that name. *)
Definition slice_0_4 (tags : JsValue) : JsError + JsValue :=
  match tags with
  | VUndefined | VNull => inr VUndefined
  | VArray items => inr (VArray (firstn 4 items))
  | VString s => inr (VString (firstn 4 s))
  | _ => inl (TypeError (lit "frontmatter.tags?.slice is not a function"))
  end.

(** [tags?.join (', ')]: only an array has a function of that name. *)
Definition join_comma (tags : JsValue) : JsError + JsValue :=
  match tags with
  | VUndefined | VNull => inr VUndefined
  | VArray items =>
      andThen (itemTexts items) (fun texts =>
      inr (VString (join (lit ", ") texts)))
  | _ => inl (TypeError (lit "article.tags?.join is not a function"))
  end.

(** [a || b]. *)
Definition orValue (a b : JsValue) : JsValue :=
  if truthyValue a then a else b.

(** The lines that follow the check (lines 67-70): the note on a post
    that is already published. *)
Definition notice (frontmatter : JsValue) : Script unit :=
  console_log
    [Text (WARNING_SIGN ++ lit "  This post is already published to DEV.to")] ;;
  url <- Script.lift (crosspostUrl frontmatter) ;;
  console_log [Text (lit "   URL: " ++ url)] ;;
  console_log [Text (lit "   To update, use the update command instead.")] ;;
  Script.ret tt.

(** Lines 73-88: the article, and the four lines that announce it.  What
    is kept for the request is the article and the text of the canonical
    URL. *)
Definition announce (frontmatter : JsValue) (content slug : jsstring)
  : Script (jsstring * JsValue) :=
  (* Prepare the article for DEV.to *)
  canonical <- Script.lift (get frontmatter (lit "canonicalUrl")) ;;
  let canonicalUrl :=
    orValue canonical (VString (SITE_URL ++ lit "/blog/" ++ slug)) in
  title <- Script.lift (get frontmatter (lit "title")) ;;
  draft <- Script.lift (get frontmatter (lit "draft")) ;;
  tags <- Script.lift (andThen (get frontmatter (lit "tags")) slice_0_4) ;;
  description <- Script.lift (get frontmatter (lit "description")) ;;
  let published := negb (truthyValue draft) in
  let article :=
    VObject
      [ (lit "title", title);
        (lit "body_markdown", VString content);
        (lit "published", VBool published);
        (lit "tags", tags);          (* DEV.to allows max 4 tags *)
        (lit "canonical_url", canonicalUrl);
        (lit "description", description) ] in
  titleText <- Script.lift (toString title) ;;
  console_log
    [Text (MEMO ++ lit " Publishing " ++ [34%N] ++ titleText ++ [34%N]
           ++ lit " to DEV.to...")] ;;
  canonicalText <- Script.lift (toString canonicalUrl) ;;
  console_log [Text (lit "   Canonical URL: " ++ canonicalText)] ;;
  joined <- Script.lift (join_comma tags) ;;
  tagsText <- Script.lift (toString (orValue joined (VString (lit "none")))) ;;
  console_log [Text (lit "   Tags: " ++ tagsText)] ;;
  console_log
    [Text (lit "   Status: "
           ++ (if published then lit "Published" else lit "Draft"))] ;;
  Script.ret (canonicalText, article).

Definition requestInit (apiKey : jsstring) (article : JsValue) : RequestInit :=
  {| method := lit "POST";
     headers := [ (lit "Content-Type", lit "application/json");
                  (lit "api-key", apiKey) ];
     body := VObject [ (lit "article", article) ] |}.

(** [await response.json ()]. *)
Definition response_json (json : JsError + JsValue) : Script JsValue :=
  Script.lift json.

(** [`${result.key}`]: reading a property of [null] throws, and so may
    the conversion of the property to a string. *)
Definition property (result : JsValue) (key : jsstring) : Script jsstring :=
  Script.lift (andThen (get result key) toString).

(** The [try] block after [await fetch (...)]. *)
Definition afterFetch (canonicalUrl : jsstring) (response : FetchResult)
  : Script unit :=
  match response with
  | Rejected e => Script.throw e
  | Response ok json =>
      if negb ok then
        error <- response_json json ;;
        Script.throw
          (Error (lit "DEV.to API error: " ++ JSON_stringify_2 error))
      else
        result <- response_json json ;;
        console_log
          [Text (CHECK_MARK ++ lit " Successfully published to DEV.to!")] ;;
        id <- property result (lit "id") ;;
        console_log [Text (lit "   ID: " ++ id)] ;;
        url <- property result (lit "url") ;;
        console_log [Text (lit "   URL: " ++ url)] ;;
        console_log [Text []] ;;
        console_log [Text (lit "Next steps:")] ;;
        console_log
          [Text (lit "1. Update your blog post frontmatter with:")] ;;
        console_log [Text []] ;;
        console_log [Text (lit "crosspost:")] ;;
        console_log [Text (lit "  devTo:")] ;;
        console_log [Text (lit "    published: true")] ;;
        console_log [Text (lit "    id: " ++ id)] ;;
        console_log [Text (lit "    url: " ++ url)] ;;
        console_log [Text []] ;;
        console_log
          [Text (lit "2. For Medium, manually import from:")] ;;
        console_log [Text (lit "   " ++ canonicalUrl)] ;;
        console_log
          [Text (lit "   Go to: https://medium.com/p/import")]
  end.

(** The [catch] block. *)
Definition onError (error : JsError) : Script unit :=
  console_error
    [Text (CROSS_MARK ++ lit " Error publishing to DEV.to:"); Caught error] ;;
  Script.exit 1.

Definition publishToDevTo (slug : jsstring) : Script unit :=
  DEVTO_API_KEY <- getenv (lit "DEVTO_API_KEY") ;;
  match DEVTO_API_KEY with
  | None | Some [] =>
      console_error
        [Text (CROSS_MARK ++
               lit " Error: DEVTO_API_KEY environment variable is required")] ;;
      console_log
        [Text (lit "Get your API key from https://dev.to/settings/extensions")] ;;
      Script.exit 1
  | Some DEVTO_API_KEY =>
      (* Read the blog post *)
      let postPath := postPath slug in
      found <- existsSync postPath ;;
      if negb found then
        console_error
          [Text (CROSS_MARK ++ lit " Error: Post not found at " ++ postPath)] ;;
        Script.exit 1
      else
        fileContent <- readFileSync postPath ;;
        parsed <- Script.lift (matter fileContent) ;;
        let (frontmatter, content) := parsed in
        (* Check if already published *)
        published <- Script.lift (crosspostPublished frontmatter) ;;
        if truthyValue published then notice frontmatter
        else
          prepared <- announce frontmatter content slug ;;
          let (canonicalUrl, article) := prepared in
          Script.tryCatch
            (response <- fetch DEVTO_API_URL (requestInit DEVTO_API_KEY article) ;;
             afterFetch canonicalUrl response)
            onError
  end.

(** The script: the slug is [process.argv[2]]. *)
Definition publishMain : Script unit :=
  argv <- process_argv ;;
  match nth_error argv 2 with
  | None | Some [] =>
      console_error [Text (lit "Usage: npm run publish:devto <post-slug>")] ;;
      console_error [Text (lit "Example: npm run publish:devto hello-world")] ;;
      Script.exit 1
  | Some slug => publishToDevTo slug
  end.

End Publisher.

(* ================================================================= *)
(** ** The LinkedIn-text exporter *)

Module LinkedIn.
Local Open Scope script_scope.
Import Node.

Definition BULLET : jsstring := [8226%N].                (* U+2022 *)
Definition DOUBLE_LINE : jsstring := [9552%N].           (* U+2550 *)
Definition LIGHT_LINE : jsstring := [9472%N].            (* U+2500 *)
Definition E_MAIL : jsstring := [55357%N; 56551%N].      (* U+1F4E7 *)
Definition LAPTOP : jsstring := [55357%N; 56507%N].      (* U+1F4BB *)
Definition LIGHT_BULB : jsstring := [55357%N; 56481%N].  (* U+1F4A1 *)

Definition isVisible (visibility : option (list jsstring)) : bool :=
  match visibility with
  | None => true
  | Some v => arrayIncludes v (lit "all")
  end.

Definition truncateWithWarning (text : jsstring) (limit : Z) (label : jsstring)
  : Script jsstring :=
  let length := Z.of_nat (List.length text) in
  if (length <=? limit)%Z then Script.ret text
  else
    console_error
      [Text (LF ++ WARNING_SIGN ++ lit "  Warning: " ++ label ++ lit " exceeds "
             ++ decimalZ limit ++ lit " characters (" ++ decimalZ length
             ++ lit " chars)")] ;;
    console_error
      [Text (lit "   Consider shortening by " ++ decimalZ (length - limit)
             ++ lit " characters" ++ LF)] ;;
    Script.ret text.

Definition headlineText (cv : CVData.t) : jsstring :=
  Personal.title (CVData.personal cv)
  ++ lit " | React, Next.js, TypeScript | Building high-performance web applications".

Definition generateHeadline (cv : CVData.t) : Script jsstring :=
  truncateWithWarning (headlineText cv) 220 (lit "Headline").

(** One line of the "Core Expertise" list: the first [count] skills of
    the category named [category], when there is one. *)
Definition expertiseLine (cv : CVData.t) (category : string) (label : string)
                         (count : nat) : list jsstring :=
  match find (fun c => Js.eqb (SkillCategory.category c) (lit category))
             (Skills.technical (CVData.skills cv)) with
  | Some found =>
      [BULLET ++ lit " " ++ lit label ++ lit ": "
       ++ join (lit ", ") (firstn count (SkillCategory.skills found))]
  | None => []
  end.

Definition aboutText (cv : CVData.t) : jsstring :=
  join LF
    ([CVData.summary cv; []; lit "Core Expertise:"]
     (* Add key skills grouped *)
     ++ expertiseLine cv "Frontend Engineering" "Frontend" 6
     ++ expertiseLine cv "Testing & Quality" "Testing" 5
     ++ expertiseLine cv "Architecture & Performance" "Architecture" 5
     ++ expertiseLine cv "Leadership & Collaboration" "Leadership" 4
     ++ [[]; E_MAIL ++ lit " " ++ Personal.email (CVData.personal cv)]
     ++ (match Personal.github (CVData.personal cv) with
         | Some ((_ :: _) as github) => [LAPTOP ++ lit " " ++ github]
         | _ => []
         end)).

Definition generateAbout (cv : CVData.t) : Script jsstring :=
  truncateWithWarning (aboutText cv) 2600 (lit "About section").

Section Experience.
Variable toUpperCase : jsstring -> jsstring.   (* [String.prototype.toUpperCase] *)

(** The role description of one entry, before the length check. *)
Definition roleText (exp : Experience.t) : jsstring :=
  join LF
    ([Experience.description exp; []]
     ++ (match Experience.achievements exp with
         | [] => []
         | achievements =>
             [lit "Key Achievements:"]
             ++ map (fun achievement => BULLET ++ lit " " ++ achievement)
                    achievements
         end)
     ++ (match Experience.skills exp with
         | [] => []
         | skills => [[]; lit "Technologies: " ++ join (lit ", ") skills]
         end)).

(** The lines pushed for one entry. *)
Definition experienceLines (exp : Experience.t) : Script (list jsstring) :=
  truncated <- truncateWithWarning (roleText exp) 2000
                 (Experience.company exp ++ lit " - " ++ Experience.title exp) ;;
  Script.ret
    [ Js.repeat DOUBLE_LINE 50;
      toUpperCase (Experience.title exp);
      Experience.company exp ++ lit " " ++ BULLET ++ lit " "
        ++ Experience.location exp;
      Js.repeat LIGHT_LINE 50;
      [];
      truncated;
      [] ].

(** The loop over the visible entries, with the lines so far. *)
Fixpoint experienceLoop (entries : list Experience.t) (lines : list jsstring)
  : Script (list jsstring) :=
  match entries with
  | [] => Script.ret lines
  | exp :: rest =>
      pushed <- experienceLines exp ;;
      experienceLoop rest (lines ++ pushed)
  end.

Definition generateExperience (cv : CVData.t) : Script jsstring :=
  let visibleExperience :=
    filter (fun exp => isVisible (Experience.visibility exp))
           (CVData.experience cv) in
  lines <- experienceLoop visibleExperience [] ;;
  Script.ret (join LF lines).
End Experience.

(** The order of strings that [Array.prototype.sort] uses by default:
    code unit by code unit. *)
Fixpoint leb (a b : jsstring) : bool :=
  match a, b with
  | [], _ => true
  | _ :: _, [] => false
  | x :: a', y :: b' =>
      if (x <? y)%N then true
      else if (y <? x)%N then false
      else leb a' b'
  end.

Fixpoint insertSorted (s : jsstring) (sorted : list jsstring) : list jsstring :=
  match sorted with
  | [] => [s]
  | t :: rest => if leb s t then s :: sorted else t :: insertSorted s rest
  end.

(** [xs.sort ()] on strings. *)
Definition sort (xs : list jsstring) : list jsstring :=
  fold_right insertSorted [] xs.

(** [[...new Set (xs)]]: the first occurrence of each string, in order. *)
Fixpoint unique (seen xs : list jsstring) : list jsstring :=
  match xs with
  | [] => []
  | x :: rest =>
      if arrayIncludes seen x then unique seen rest
      else x :: unique (x :: seen) rest
  end.

Definition generateSkills (cv : CVData.t) : jsstring :=
  let allSkills := flat_map SkillCategory.skills
                            (Skills.technical (CVData.skills cv)) in
  (* Remove duplicates and sort *)
  let uniqueSkills := sort (unique [] allSkills) in
  join LF
    [ lit "SKILLS FOR LINKEDIN";
      Js.repeat DOUBLE_LINE 50;
      lit "Copy these to your LinkedIn Skills section:";
      [];
      join LF uniqueSkills ].

Definition educationLines (edu : Education.t) : list jsstring :=
  [ [];
    Education.degree edu;
    Education.institution edu;
    Education.startDate edu ++ lit " - "
      ++ orElse (Education.endDate edu) (lit "Present") ]
  ++ (match Education.description edu with
      | Some ((_ :: _) as description) => [description]
      | _ => []
      end).

Definition generateEducation (cv : CVData.t) : jsstring :=
  let visibleEducation :=
    filter (fun edu => isVisible (Education.visibility edu))
           (CVData.education cv) in
  join LF
    ([lit "EDUCATION"; Js.repeat DOUBLE_LINE 50]
     ++ flat_map educationLines visibleEducation).

End LinkedIn.

(* ================================================================= *)
(** ** The scripts' entry points *)

Section Scripts.
Local Open Scope script_scope.
Import Node.

Variable dirname : jsstring.                            (* [__dirname] *)
Variable path_join : list jsstring -> jsstring.         (* [path.join] *)
Variable path_resolve : jsstring -> jsstring.           (* [path.resolve] *)
Variable JSON_parse : jsstring -> JsError + CVData.t.   (* [JSON.parse], typed *)
Variable toUpperCase : jsstring -> jsstring.
Variable toLowerCase : jsstring -> jsstring.

Definition CV_JSON_PATH : jsstring :=
  path_join [dirname; lit ".."; lit "src"; lit "data"; lit "cv.json"].

(** [JSON.parse (fs.readFileSync (CV_JSON_PATH, 'utf-8'))]. *)
Definition readCV : Script CVData.t :=
  text <- readFileSync CV_JSON_PATH ;;
  match JSON_parse text with
  | inl e => Script.throw e
  | inr cvData => Script.ret cvData
  end.

(** *** Markdown export *)

Definition markdownMain : Script unit :=
  argv <- process_argv ;;
  let args := skipn 2 argv in
  let includeHidden := arrayIncludes args (lit "--include-hidden") in
  found <- existsSync CV_JSON_PATH ;;
  (if negb found then
     stderr_write (lit "Error: CV JSON not found at " ++ CV_JSON_PATH ++ LF) ;;
     Script.exit 1
   else Script.ret tt) ;;
  cvData <- readCV ;;
  let markdown := Markdown.exportToMarkdown cvData includeHidden in
  stdout_write markdown.

(** *** LinkedIn export *)

Definition BANNER_TOP : jsstring :=
  [9556%N] ++ Js.repeat LinkedIn.DOUBLE_LINE 50 ++ [9559%N].
Definition BANNER_MIDDLE : jsstring :=
  [9553%N] ++ lit "           LINKEDIN CV EXPORT                     " ++ [9553%N].
Definition BANNER_BOTTOM : jsstring :=
  [9562%N] ++ Js.repeat LinkedIn.DOUBLE_LINE 50 ++ [9565%N].

(** [!section || section === a || ...]. *)
Definition wanted (section : option jsstring) (names : list string) : bool :=
  match section with
  | None | Some [] => true
  | Some s => existsb (fun n => Js.eqb s (lit n)) names
  end.

(** What [main] prints once the document is read. *)
Definition linkedinReport (section : option jsstring) (cvData : CVData.t)
  : Script unit :=
  console_log [Text BANNER_TOP] ;;
  console_log [Text BANNER_MIDDLE] ;;
  console_log [Text BANNER_BOTTOM] ;;
  console_log [Text []] ;;
  (if wanted section ["headline"]%string then
     console_log [Text (lit "HEADLINE (220 chars max)")] ;;
     console_log [Text (Js.repeat LinkedIn.DOUBLE_LINE 50)] ;;
     headline <- LinkedIn.generateHeadline cvData ;;
     console_log [Text headline] ;;
     console_log [Text []]
   else Script.ret tt) ;;
  (if wanted section ["summary"; "about"]%string then
     console_log [Text (lit "ABOUT / SUMMARY (2,600 chars max)")] ;;
     console_log [Text (Js.repeat LinkedIn.DOUBLE_LINE 50)] ;;
     about <- LinkedIn.generateAbout cvData ;;
     console_log [Text about] ;;
     console_log [Text []]
   else Script.ret tt) ;;
  (if wanted section ["experience"]%string then
     console_log [Text (lit "EXPERIENCE (2,000 chars per role)")] ;;
     experience <- LinkedIn.generateExperience toUpperCase cvData ;;
     console_log [Text experience]
   else Script.ret tt) ;;
  (if wanted section ["skills"]%string then
     console_log [Text (LinkedIn.generateSkills cvData)] ;;
     console_log [Text []]
   else Script.ret tt) ;;
  (if wanted section ["education"]%string then
     console_log [Text (LinkedIn.generateEducation cvData)] ;;
     console_log [Text []]
   else Script.ret tt) ;;
  console_log [Text []] ;;
  console_log [Text (Js.repeat LinkedIn.DOUBLE_LINE 50)] ;;
  console_log [Text (LinkedIn.LIGHT_BULB ++ lit " Tip: Use specific sections with:")] ;;
  console_log [Text (lit "   npm run cv:linkedin headline")] ;;
  console_log [Text (lit "   npm run cv:linkedin about")] ;;
  console_log [Text (lit "   npm run cv:linkedin experience")] ;;
  console_log [Text (lit "   npm run cv:linkedin skills")] ;;
  console_log [Text (lit "   npm run cv:linkedin education")].

Definition linkedinMain : Script unit :=
  argv <- process_argv ;;
  let args := skipn 2 argv in
  let section := option_map toLowerCase (nth_error args 0) in
  found <- existsSync CV_JSON_PATH ;;
  (if negb found then
     console_error [Text (lit "Error: CV JSON not found at"); Text CV_JSON_PATH] ;;
     Script.exit 1
   else Script.ret tt) ;;
  cvData <- readCV ;;
  linkedinReport section cvData.

(** *** Tailored PDF generation ([generate-tailored-pdf.ts]) *)

(** The rest of [generatePDF] once the input file is known to exist:
    reading it, the conversion to HTML and the browser run. *)
Variable renderPDF : jsstring -> jsstring -> Script unit.

(** The pictographs of this script's messages, as its source holds
    them. *)
Definition PAGE_SIGN : jsstring := [63743%N; 252%N; 236%N; 209%N].
Definition ERROR_SIGN : jsstring := [8218%N; 249%N; 229%N].

Definition generatePDF (inputPath outputPath : jsstring) : Script unit :=
  console_log [Text (PAGE_SIGN ++ lit " Generating tailored CV PDF...")] ;;
  console_log [Text (lit "   Input: " ++ inputPath)] ;;
  found <- existsSync inputPath ;;
  (if negb found then
     console_error [Text (ERROR_SIGN ++ lit " Error: File not found: " ++ inputPath)] ;;
     Script.exit 1
   else Script.ret tt) ;;
  renderPDF inputPath outputPath.

Definition USAGE : jsstring :=
  join LF (map lit
    [ "";
      "Tailored CV PDF Generator";
      "";
      "Usage:";
      "  npm run cv:pdf:tailored <markdown-file> [output-file]";
      "";
      "Workflow:";
      "  1. Export your CV to markdown:";
      "     npm run cv:markdown > tailored-cv.md";
      "";
      "  2. Edit the markdown file to tailor it for a specific job";
      "     (use an LLM or edit manually)";
      "";
      "  3. Generate the PDF:";
      "     npm run cv:pdf:tailored tailored-cv.md";
      "";
      "Examples:";
      "  npm run cv:pdf:tailored tailored-cv.md";
      "  npm run cv:pdf:tailored tailored-cv.md my-cv-for-google.pdf";
      "    " ]%string).

(** [inputPath.replace (/\.md$/, '.pdf')]. *)
Fixpoint replaceMdSuffix (path : jsstring) : jsstring :=
  match path with
  | [] => []
  | c :: rest =>
      if Js.eqb path (lit ".md") then lit ".pdf" else c :: replaceMdSuffix rest
  end.

Definition tailoredMain : Script unit :=
  argv <- process_argv ;;
  let args := skipn 2 argv in
  match args with
  | [] =>
      console_log [Text USAGE] ;;
      Script.exit 0
  | first :: _ =>
      let inputPath := path_resolve first in
      let outputPath :=
        match nth_error args 1 with
        | Some ((_ :: _) as second) => path_resolve second
        | _ => replaceMdSuffix inputPath
        end in
      generatePDF inputPath outputPath
  end.

End Scripts.

(* ================================================================= *)
(** ** Looking for a browser ([findChromePath]) *)

(** [String.prototype.trim]. *)
Definition trim (s : jsstring) : jsstring :=
  rev (trimStart (rev (trimStart s))).

Module Chrome.
Local Open Scope script_scope.
Import Node.

(** [paths[platform] || []] on the table of candidate paths. *)
Fixpoint platformPaths (paths : list (jsstring * list jsstring))
                       (platform : jsstring) : list jsstring :=
  match paths with
  | [] => []
  | (name, candidates) :: rest =>
      if Js.eqb name platform then candidates else platformPaths rest platform
  end.

(** The loop over the candidates: the first one that is not empty and
    exists. *)
Fixpoint firstExisting (candidates : list jsstring) : Script (option jsstring) :=
  match candidates with
  | [] => Script.ret None
  | chromePath :: rest =>
      if truthy chromePath then
        found <- existsSync chromePath ;;
        if found then Script.ret (Some chromePath) else firstExisting rest
      else firstExisting rest
  end.

(** The body that both copies of [findChromePath] share, once the
    environment variable has been looked at: the table of paths, the
    [which] command and the message of the error are theirs.
    [execSync] is [child_process.execSync] with the [utf-8] encoding: the
    output of the command, or the error it throws. *)
Definition search (paths : list (jsstring * list jsstring))
                  (command message : jsstring)
                  (platform : jsstring)
                  (execSync : jsstring -> JsError + jsstring)
  : Script jsstring :=
  found <- firstExisting (platformPaths paths platform) ;;
  match found with
  | Some chromePath => Script.ret chromePath
  | None =>
      let viaWhich :=
        if Js.eqb platform (lit "win32") then None
        else match execSync command with
             | inr output =>
                 match trim output with
                 | [] => None
                 | result => Some result
                 end
             | inl _ => None
             end in
      match viaWhich with
      | Some result => Script.ret result
      | None => Script.throw (Error message)
      end
  end.

End Chrome.

Definition BACKSLASH : jsstring := [92%N].

(** *** The copy of [generate-tailored-pdf.ts] *)

Module TailoredPdf.
Local Open Scope script_scope.
Import Node.

Definition paths : list (jsstring * list jsstring) :=
  [ (lit "darwin",
     [ lit "/Applications/Google Chrome.app/Contents/MacOS/Google Chrome";
       lit "/Applications/Chromium.app/Contents/MacOS/Chromium" ]);
    (lit "linux",
     [ lit "/usr/bin/google-chrome";
       lit "/usr/bin/google-chrome-stable";
       lit "/usr/bin/chromium";
       lit "/usr/bin/chromium-browser" ]);
    (lit "win32",
     [ lit "C:" ++ BACKSLASH ++ lit "Program Files" ++ BACKSLASH ++ lit "Google"
       ++ BACKSLASH ++ lit "Chrome" ++ BACKSLASH ++ lit "Application"
       ++ BACKSLASH ++ lit "chrome.exe";
       lit "C:" ++ BACKSLASH ++ lit "Program Files (x86)" ++ BACKSLASH
       ++ lit "Google" ++ BACKSLASH ++ lit "Chrome" ++ BACKSLASH
       ++ lit "Application" ++ BACKSLASH ++ lit "chrome.exe" ]) ].

Definition findChromePath (platform : jsstring)
                          (execSync : jsstring -> JsError + jsstring)
  : Script jsstring :=
  CHROME_PATH <- getenv (lit "CHROME_PATH") ;;
  match CHROME_PATH with
  | Some ((_ :: _) as chromePath) => Script.ret chromePath
  | _ =>
      Chrome.search paths
        (lit "which google-chrome || which chromium")
        (lit "Chrome not found. Set CHROME_PATH environment variable.")
        platform execSync
  end.

End TailoredPdf.

(* ================================================================= *)
(** ** The PDF generator of the CV page ([generate-pdf.ts]) *)

Module GeneratePdf.
Local Open Scope script_scope.
Import Node.

(** The table of paths: its last Windows entry is made with
    [process.env.LOCALAPPDATA], which may be [undefined]. *)
Definition paths (LOCALAPPDATA : option jsstring)
  : list (jsstring * list jsstring) :=
  [ (lit "darwin",
     [ lit "/Applications/Google Chrome.app/Contents/MacOS/Google Chrome";
       lit "/Applications/Chromium.app/Contents/MacOS/Chromium";
       lit "/Applications/Google Chrome Canary.app/Contents/MacOS/Google Chrome Canary" ]);
    (lit "linux",
     [ lit "/usr/bin/google-chrome";
       lit "/usr/bin/google-chrome-stable";
       lit "/usr/bin/chromium";
       lit "/usr/bin/chromium-browser";
       lit "/snap/bin/chromium" ]);
    (lit "win32",
     [ lit "C:" ++ BACKSLASH ++ lit "Program Files" ++ BACKSLASH ++ lit "Google"
       ++ BACKSLASH ++ lit "Chrome" ++ BACKSLASH ++ lit "Application"
       ++ BACKSLASH ++ lit "chrome.exe";
       lit "C:" ++ BACKSLASH ++ lit "Program Files (x86)" ++ BACKSLASH
       ++ lit "Google" ++ BACKSLASH ++ lit "Chrome" ++ BACKSLASH
       ++ lit "Application" ++ BACKSLASH ++ lit "chrome.exe";
       match LOCALAPPDATA with Some dir => dir | None => lit "undefined" end
       ++ BACKSLASH ++ lit "Google" ++ BACKSLASH ++ lit "Chrome" ++ BACKSLASH
       ++ lit "Application" ++ BACKSLASH ++ lit "chrome.exe" ]) ].

Definition findChromePath (platform : jsstring)
                          (execSync : jsstring -> JsError + jsstring)
  : Script jsstring :=
  (* Check environment variable first (for CI) *)
  CHROME_PATH <- getenv (lit "CHROME_PATH") ;;
  match CHROME_PATH with
  | Some ((_ :: _) as chromePath) => Script.ret chromePath
  | _ =>
      LOCALAPPDATA <- getenv (lit "LOCALAPPDATA") ;;
      Chrome.search (paths LOCALAPPDATA)
        (lit "which google-chrome || which chromium || which chromium-browser")
        (lit "Chrome/Chromium not found. Please install Chrome or set CHROME_PATH environment variable.")
        platform execSync
  end.

Section Generate.
Variable dirname : jsstring.                        (* [__dirname] *)
Variable path_join : list jsstring -> jsstring.     (* [path.join] *)
Variable platform : jsstring.                       (* [process.platform] *)
Variable execSync : jsstring -> JsError + jsstring.
(** The rest of [generatePDF] once the browser is found: the browser
    run, with the path of the executable. *)
Variable printPage : jsstring -> Script unit.

Definition DIST_DIR : jsstring := path_join [dirname; lit ".."; lit "dist"].
Definition CV_HTML_PATH : jsstring := path_join [DIST_DIR; lit "cv"; lit "index.html"].

Definition PAGE_FACING_UP : jsstring := [55357%N; 56516%N].   (* U+1F4C4 *)

Definition generatePDF : Script unit :=
  console_log [Text (PAGE_FACING_UP ++ lit " Generating CV PDF...")] ;;
  (* Verify the CV HTML exists *)
  found <- existsSync CV_HTML_PATH ;;
  (if negb found then
     console_error
       [Text (CROSS_MARK ++ lit " Error: CV HTML not found. Run " ++ [34%N]
              ++ lit "npm run build" ++ [34%N] ++ lit " first.")] ;;
     console_error [Text (lit "   Expected: " ++ CV_HTML_PATH)] ;;
     Script.exit 1
   else Script.ret tt) ;;
  chromePath <- findChromePath platform execSync ;;
  console_log [Text (lit "   Using Chrome: " ++ chromePath)] ;;
  printPage chromePath.

End Generate.

(** *** The merge of the skill categories for the PDF *)

(** A category as it is read from the page: the text of its heading and
    the texts of its skills. *)
Module Category.
Record t : Type := mk {
  name : jsstring;
  skills : list jsstring
}.
End Category.

(** [categories.filter (c => names.includes (c.name)).flatMap (c => c.skills)]. *)
Definition skillsOf (names : list string) (categories : list Category.t)
  : list jsstring :=
  flat_map Category.skills
    (filter (fun c => arrayIncludes (map lit names) (Category.name c)) categories).

(** [if (skills.length) mergedCategories.push ({ name, skills })]. *)
Definition pushIfAny (name : string) (skills : list jsstring) : list Category.t :=
  match skills with
  | [] => []
  | _ :: _ => [Category.mk (lit name) skills]
  end.

(** The [mergedCategories] array that [generatePDF] builds in the page. *)
Definition mergedCategories (categories : list Category.t) : list Category.t :=
  (* Frontend + State Management + Architecture *)
  pushIfAny "Frontend"
    (skillsOf ["Frontend Engineering"; "State Management & Data";
               "Architecture & Performance"]%string categories)
  (* Testing *)
  ++ pushIfAny "Testing"
       (match find (fun c => Js.eqb (Category.name c) (lit "Testing & Quality"))
                   categories with
        | Some c => Category.skills c
        | None => []
        end)
  (* DevOps + Cloud *)
  ++ pushIfAny "DevOps & Cloud"
       (skillsOf ["DevOps & Tools"; "Cloud & Monitoring"]%string categories)
  (* Leadership + Emerging Tech *)
  ++ pushIfAny "Leadership & Other"
       (skillsOf ["Leadership & Collaboration"; "Emerging Tech"]%string categories).

End GeneratePdf.

(* ================================================================= *)
(** * The vocabulary of the statements *)

(** An entry is shown by default when it has no visibility field or
    its visibility list holds ["all"]. *)
Definition shownByDefault (visibility : option (list jsstring)) : Prop :=
  visibility = None \/ exists v, visibility = Some v /\ In (lit "all") v.

Definition shownByDefaultb (visibility : option (list jsstring)) : bool :=
  match visibility with
  | None => true
  | Some v => existsb (Js.eqb (lit "all")) v
  end.

(** The document without the entries that are not shown by default. *)
Definition withoutHidden (cv : CVData.t) : CVData.t :=
  CVData.mk
    (CVData.personal cv)
    (CVData.summary cv)
    (filter (fun exp => shownByDefaultb (Experience.visibility exp))
            (CVData.experience cv))
    (CVData.skills cv)
    (filter (fun edu => shownByDefaultb (Education.visibility edu))
            (CVData.education cv))
    (option_map (filter (fun proj => shownByDefaultb (Project.visibility proj)))
                (CVData.projects cv))
    (CVData.languages cv).

(** [block] is a run of consecutive lines of [lines]. *)
Definition holdsBlock (lines block : list jsstring) : Prop :=
  exists before after, lines = before ++ block ++ after.

(** The events of a trace that are network calls, file accesses and
    error messages. *)
Definition isNetworkCall (e : Event) : bool :=
  match e with Fetch _ _ => true | _ => false end.

Definition isFileAccess (e : Event) : bool :=
  match e with ExistsSync _ | ReadFileSync _ => true | _ => false end.

Definition isErrorMessage (e : Event) : bool :=
  match e with ConsoleError _ | StderrWrite _ => true | _ => false end.

Definition networkCalls (trace : list Event) : list Event :=
  filter isNetworkCall trace.

(** The run printed an error message and the process left by
    [process.exit] with a non-zero status. *)
Definition reportsFailure {A} (run : list Event * Outcome A) : bool :=
  existsb isErrorMessage (Script.trace run)
  && match Script.outcome run with
     | Exited code => negb (code =? 0)%Z
     | _ => false
     end.

(** The run reported a failure, having made no network call and touched
    no file. *)
Definition failsBeforeIO {A} (run : list Event * Outcome A) : bool :=
  reportsFailure run
  && forallb (fun e => negb (isNetworkCall e || isFileAccess e))
             (Script.trace run).

Definition API_KEY : jsstring := lit "DEVTO_API_KEY".

(** The warning that [truncateWithWarning] prints for a text over the
    limit. *)
Definition warning (text : jsstring) (limit : Z) (label : jsstring)
  : list Event :=
  [ ConsoleError
      [Text (LF ++ WARNING_SIGN ++ lit "  Warning: " ++ label ++ lit " exceeds "
             ++ decimalZ limit ++ lit " characters ("
             ++ decimalZ (Z.of_nat (List.length text)) ++ lit " chars)")];
    ConsoleError
      [Text (lit "   Consider shortening by "
             ++ decimalZ (Z.of_nat (List.length text) - limit)
             ++ lit " characters" ++ LF)] ].

(** A date written [YYYY-MM]: the year on four digits, the month on
    two. *)
Definition yearMonth (year month : N) : jsstring :=
  padStart0 4 (decimal year) ++ lit "-" ++ padStart0 2 (decimal month).

Definition isDigit (c : codeunit) : bool := ((48 <=? c) && (c <=? 57))%N.

(** The number that a string of decimal digits writes, after [acc]. *)
Definition digitsValue (s : jsstring) (acc : N) : N :=
  fold_left (fun a c => (10 * a + (c - 48))%N) s acc.

(** The fields of a front matter that the publisher reads, with the
    types that the content schema of the site gives them; an optional
    field may be absent. *)
Module DevTo.
Record t : Type := mk {
  published : option bool;
  url : option jsstring
}.
End DevTo.

Module Crosspost.
Record t : Type := mk {
  devTo : option DevTo.t
}.
End Crosspost.

Module Frontmatter.
Record t : Type := mk {
  title : jsstring;
  description : jsstring;
  tags : option (list jsstring);
  draft : option bool;
  canonicalUrl : option jsstring;
  crosspost : option Crosspost.t
}.
End Frontmatter.

(** A front matter has the shape of the schema: it is an object whose
    properties of these names are absent or of these types, whatever
    other properties it has. *)
Definition devToShaped (value : JsValue) (devTo : DevTo.t) : Prop :=
  exists props,
    value = VObject props /\
    lookup props (lit "published") = option_map VBool (DevTo.published devTo) /\
    lookup props (lit "url") = option_map VString (DevTo.url devTo).

Definition crosspostShaped (value : JsValue) (crosspost : Crosspost.t) : Prop :=
  exists props,
    value = VObject props /\
    match Crosspost.devTo crosspost with
    | None => lookup props (lit "devTo") = None
    | Some devTo =>
        exists v, lookup props (lit "devTo") = Some v /\ devToShaped v devTo
    end.

Definition shaped (value : JsValue) (frontmatter : Frontmatter.t) : Prop :=
  exists props,
    value = VObject props /\
    lookup props (lit "title") = Some (VString (Frontmatter.title frontmatter)) /\
    lookup props (lit "description")
    = Some (VString (Frontmatter.description frontmatter)) /\
    lookup props (lit "tags")
    = option_map (fun tags => VArray (map VString tags))
                 (Frontmatter.tags frontmatter) /\
    lookup props (lit "draft") = option_map VBool (Frontmatter.draft frontmatter) /\
    lookup props (lit "canonicalUrl")
    = option_map VString (Frontmatter.canonicalUrl frontmatter) /\
    match Frontmatter.crosspost frontmatter with
    | None => lookup props (lit "crosspost") = None
    | Some crosspost =>
        exists v, lookup props (lit "crosspost") = Some v /\
                  crosspostShaped v crosspost
    end.

(** The canonical URL and the article of a post whose front matter has
    the shape of the schema, as the article API is to receive them. *)
Definition schemaCanonical (frontmatter : Frontmatter.t) (slug : jsstring)
  : jsstring :=
  orElse (Frontmatter.canonicalUrl frontmatter)
         (lit "https://camarneiro.com" ++ lit "/blog/" ++ slug).

Definition schemaArticle (frontmatter : Frontmatter.t) (content slug : jsstring)
  : JsValue :=
  VObject
    [ (lit "title", VString (Frontmatter.title frontmatter));
      (lit "body_markdown", VString content);
      (lit "published",
       VBool (negb (match Frontmatter.draft frontmatter with
                    | Some draft => draft
                    | None => false
                    end)));
      (lit "tags",
       match Frontmatter.tags frontmatter with
       | Some tags => VArray (map VString (firstn 4 tags))
       | None => VUndefined
       end);
      (lit "canonical_url", VString (schemaCanonical frontmatter slug));
      (lit "description", VString (Frontmatter.description frontmatter)) ].

(** The post is marked as published on DEV.to. *)
Definition markedPublished (frontmatter : Frontmatter.t) : bool :=
  match Frontmatter.crosspost frontmatter with
  | Some crosspost =>
      match Crosspost.devTo crosspost with
      | Some devTo =>
          match DevTo.published devTo with
          | Some published => published
          | None => false
          end
      | None => false
      end
  | None => false
  end.

(** A value that a template literal can print. *)
Definition printable (value : JsValue) : bool :=
  match toString value with
  | inr _ => true
  | inl _ => false
  end.

(** The answers of the article API after which the publisher returns
    normally: a response that is [ok], whose body parses to a value other
    than [null], and whose [id] and [url] can be printed. *)
Definition accepted (answer : FetchResult) : bool :=
  match answer with
  | Response true (inr result) =>
      match get result (lit "id"), get result (lit "url") with
      | inr id, inr url => printable id && printable url
      | _, _ => false
      end
  | _ => false
  end.

(** The events of a trace other than the network calls: what is printed
    and which files are touched. *)
Definition besidesNetwork (trace : list Event) : list Event :=
  filter (fun e => negb (isNetworkCall e)) trace.

(** A file is present in a world. *)
Definition present (w : World) (path : jsstring) : bool :=
  match files w path with Some _ => true | None => false end.

(** What justifies [p] as the path of the browser: it is the value of
    [CHROME_PATH], or a candidate of the platform that exists, or what
    the [which] command printed, without the white space around it, on a
    platform other than Windows.  It is never the empty string. *)
Definition foundBy (candidates : list jsstring) (command platform : jsstring)
                   (execSync : jsstring -> JsError + jsstring) (w : World)
                   (p : jsstring) : Prop :=
  p <> [] /\
  (env w (lit "CHROME_PATH") = Some p \/
   (In p candidates /\ present w p = true) \/
   (platform <> lit "win32" /\
    exists output, execSync command = inr output /\ trim output = p)).

(** The [which] command is not run, fails, or prints white space only. *)
Definition whichFindsNothing (command platform : jsstring)
                             (execSync : jsstring -> JsError + jsstring) : Prop :=
  platform = lit "win32" \/
  (exists e, execSync command = inl e) \/
  (exists output, execSync command = inr output /\ trim output = []).

(** The groups of the PDF, in the order of the page, the categories
    that are merged into them, and the one category that is taken alone. *)
Definition GROUPS : list jsstring :=
  map lit ["Frontend"; "Testing"; "DevOps & Cloud"; "Leadership & Other"]%string.

Definition MERGED : list jsstring :=
  map lit ["Frontend Engineering"; "State Management & Data";
           "Architecture & Performance";
           "DevOps & Tools"; "Cloud & Monitoring";
           "Leadership & Collaboration"; "Emerging Tech"]%string.

Definition TESTING : jsstring := lit "Testing & Quality".

Definition isTesting (c : GeneratePdf.Category.t) : bool :=
  Js.eqb (GeneratePdf.Category.name c) TESTING.

(** A part of a script that does nothing to the outside but print with
    [console.log], and that returns or throws. *)
Definition isConsoleLog (e : Event) : bool :=
  match e with ConsoleLog _ => true | _ => false end.

Definition onlyPrints {A} (m : Script A) : Prop :=
  forall w,
    forallb isConsoleLog (Script.trace (m w)) = true /\
    forall code, Script.outcome (m w) <> Exited code.

(** A script that does the same in every world: it reads nothing of the
    outside. *)
Definition worldIndependent {A} (m : Script A) : Prop :=
  forall w1 w2, m w1 = m w2.

(** The text written to the standard output, in order. *)
Definition stdoutTexts (trace : list Event) : list jsstring :=
  flat_map (fun e => match e with
                     | StdoutWrite text => [text]
                     | ConsoleLog [Text text] => [text]
                     | _ => []
                     end) trace.

(* ================================================================= *)
(** * Sample documents, posts and runs *)

Module Sample.

Definition lead : Experience.t :=
  Experience.mk (lit "exp-1") (lit "Lead Engineer") (lit "Acme") (lit "Porto")
    (lit "2020-03") None (lit "Led the web team.")
    [lit "Shipped the new storefront"; lit "Cut build times by half"]
    [lit "React"; lit "TypeScript"] None.

Definition consultant : Experience.t :=
  Experience.mk (lit "exp-2") (lit "Consultant") (lit "Initech") (lit "Faro")
    (lit "2018") (Some (lit "2020-02")) (lit "Advised clients.")
    [] [] (Some [lit "senior"]).

Definition degree : Education.t :=
  Education.mk (lit "edu-1") (lit "MSc Computer Science") (lit "IST")
    (lit "Lisbon") (lit "2010") (Some (lit "2015")) (Some (lit "Thesis on parsers"))
    (Some [lit "all"]).

Definition tool : Project.t :=
  Project.mk (lit "proj-1") (lit "Tool") (lit "A small tool")
    (Some (lit "https://tool.example")) None [lit "Go"] [lit "Fast"]
    (Some [lit "frontend"]).

Definition cv : CVData.t :=
  CVData.mk
    (Personal.mk (lit "Ann Lee") (lit "Staff Engineer") (lit "ann@example.org")
                 (lit "Lisbon") (Some (lit "linkedin.com/in/ann")) None)
    (lit "Engineer who ships.")
    [lead; consultant]
    (Skills.mk [ SkillCategory.mk (lit "Frontend Engineering")
                                  [lit "React"; lit "CSS"; lit "React"] ]
               (Some [lit "Mentoring"]))
    [degree]
    (Some [tool])
    (Some [Language.mk (lit "English") (lit "Fluent")]).

(** Stand-ins for the library functions. *)
Definition dirname : jsstring := lit "/site/scripts".
Definition path_join (parts : list jsstring) : jsstring := join (lit "/") parts.
Definition path_resolve (path : jsstring) : jsstring := lit "/site/" ++ path.
Definition JSON_stringify_2 (v : JsValue) : jsstring :=
  match toString v with
  | inr text => text
  | inl _ => lit "{}"
  end.
Definition toUpperCase (s : jsstring) : jsstring :=
  map (fun c => if ((97 <=? c) && (c <=? 122))%N then (c - 32)%N else c) s.
Definition toLowerCase (s : jsstring) : jsstring :=
  map (fun c => if ((65 <=? c) && (c <=? 90))%N then (c + 32)%N else c) s.
Definition JSON_parse (text : jsstring) : JsError + CVData.t :=
  if Js.eqb text (lit "cv") then inr cv
  else inl (HostError (lit "Unexpected token")).
Definition renderPDF (inputPath outputPath : jsstring) : Script unit :=
  Script.ret tt.

(** The front matter of a post that was cross-posted, and of one that was
    not; each has a [publishedAt], here a quoted string, which the
    publisher does not read. *)
Definition postedFrontmatter : JsValue :=
  VObject
    [ (lit "title", VString (lit "Hello"));
      (lit "description", VString (lit "A first post"));
      (lit "publishedAt", VString (lit "2024-01-15"));
      (lit "tags", VArray (map VString [lit "a"; lit "b"; lit "c"; lit "d"; lit "e"]));
      (lit "draft", VBool false);
      (lit "crosspost",
       VObject
         [ (lit "devTo",
            VObject
              [ (lit "published", VBool true);
                (lit "id", VNumber (lit "7"));
                (lit "url", VString (lit "https://dev.to/ann/hello")) ]) ]) ].

Definition freshFrontmatter : JsValue :=
  VObject
    [ (lit "title", VString (lit "Hello"));
      (lit "description", VString (lit "A first post"));
      (lit "publishedAt", VString (lit "2024-01-15"));
      (lit "tags", VArray (map VString [lit "a"; lit "b"; lit "c"; lit "d"; lit "e"])) ].

(** A post whose [canonicalUrl] is the empty string. *)
Definition blankFrontmatter : JsValue :=
  VObject
    [ (lit "title", VString (lit "Hello"));
      (lit "description", VString (lit "A first post"));
      (lit "draft", VBool true);
      (lit "canonicalUrl", VString (lit "")) ].

(** Front matters that are not of the shape of the schema: [tags] is one
    string ([tags: javascript]), not a list; there is no title; and a
    post marked as published whose [url] is a mapping with a key
    [toString]. *)
Definition looseFrontmatter : JsValue :=
  VObject
    [ (lit "title", VString (lit "Hello"));
      (lit "description", VString (lit "A first post"));
      (lit "tags", VString (lit "javascript")) ].

Definition untitledFrontmatter : JsValue :=
  VObject [ (lit "description", VString (lit "A first post")) ].

Definition oddFrontmatter : JsValue :=
  VObject
    [ (lit "title", VString (lit "Hello"));
      (lit "description", VString (lit "A first post"));
      (lit "crosspost",
       VObject
         [ (lit "devTo",
            VObject
              [ (lit "published", VBool true);
                (lit "url", VObject [ (lit "toString", VNumber (lit "1")) ]) ]) ]) ].

(** The views of the first three by the schema. *)
Definition posted : Frontmatter.t :=
  Frontmatter.mk (lit "Hello") (lit "A first post")
    (Some [lit "a"; lit "b"; lit "c"; lit "d"; lit "e"]) (Some false) None
    (Some (Crosspost.mk
             (Some (DevTo.mk (Some true) (Some (lit "https://dev.to/ann/hello")))))).

Definition fresh : Frontmatter.t :=
  Frontmatter.mk (lit "Hello") (lit "A first post")
    (Some [lit "a"; lit "b"; lit "c"; lit "d"; lit "e"]) None None None.

Definition blank : Frontmatter.t :=
  Frontmatter.mk (lit "Hello") (lit "A first post") None (Some true)
    (Some (lit "")) None.

(** A stand-in for gray-matter: the front matter is picked by the first
    word of the file, which is kept whole as the content; a file that
    starts with "broken" cannot be parsed. *)
Definition matter (text : jsstring) : JsError + (JsValue * jsstring) :=
  if startsWith text (lit "broken") then
    inl (HostError (lit "YAMLException: bad indentation of a mapping entry"))
  else
    inr (if startsWith text (lit "posted") then postedFrontmatter
         else if startsWith text (lit "blank") then blankFrontmatter
         else if startsWith text (lit "loose") then looseFrontmatter
         else if startsWith text (lit "untitled") then untitledFrontmatter
         else if startsWith text (lit "odd") then oddFrontmatter
         else freshFrontmatter,
         text).

Definition slug : jsstring := lit "hello".
Definition postFile : jsstring := postPath dirname path_join slug.
Definition cvFile : jsstring := CV_JSON_PATH dirname path_join.

(** A world with the given API key, files and answer of the network. *)
Definition world (key : option jsstring) (entries : list (jsstring * jsstring))
                 (answer : FetchResult) (args : list jsstring) : World :=
  {| argv := [lit "node"; lit "script"] ++ args;
     env := fun name => if Js.eqb name API_KEY then key else None;
     files := fun path =>
                option_map snd (find (fun entry => Js.eqb (fst entry) path) entries);
     network := fun _ _ => answer;
     timeZone := 60%Z;
     clock := 0%Z |}.

Definition created : FetchResult :=
  Response true (inr (VObject [ (lit "id", VNumber (lit "42"));
                                (lit "url", VString (lit "https://dev.to/ann/hello")) ])).

Definition refused : FetchResult :=
  Response false (inr (VObject [ (lit "error", VString (lit "unauthorized")) ])).

(** Two worlds that share the CV file and the options, and differ in
    the rest. *)
Definition here : World :=
  world (Some (lit "secret")) [(cvFile, lit "cv")] created
        [lit "Experience"; lit "--include-hidden"].

Definition elsewhere : World :=
  {| argv := [lit "/usr/bin/node"; lit "export.ts"; lit "Experience";
              lit "--include-hidden"; lit "--verbose"];
     env := fun _ => None;
     files := fun path => if Js.eqb path cvFile then Some (lit "cv")
                          else Some (lit "other");
     network := fun _ _ => refused;
     timeZone := (-480)%Z;
     clock := 1700000000000%Z |}.

(** A world with no file at all, and one where the API refuses. *)
Definition empty : World :=
  world (Some (lit "secret")) [] created [lit "cv.md"].

Definition refusing : World :=
  world (Some (lit "secret")) [(postFile, lit "fresh: hello")] refused [slug].

End Sample.

(* ================================================================= *)
(** * Properties *)

(** ** The definitions on sample inputs *)

Example formatDate_samples :
  Markdown.formatDate None = lit "Present" /\
  Markdown.formatDate (Some (lit "2020-03")) = lit "Mar 2020" /\
  Markdown.formatDate (Some (lit "2023-12-25")) = lit "Dec 2023" /\
  Markdown.formatDate (Some (lit "2018")) = lit "2018" /\
  Markdown.formatDate (Some (lit "2018-")) = lit "2018" /\
  Markdown.formatDate (Some (lit "soon-ish")) = lit "Invalid Date".
Proof. repeat split; reflexivity. Qed.

Example parseInt_samples :
  parseInt (lit "2023") = Some 2023%Z /\
  parseInt (lit "  03rd") = Some 3%Z /\
  parseInt (lit "-7") = Some (-7)%Z /\
  parseInt (lit "0x1f") = Some 31%Z /\
  parseInt (lit "") = None /\
  parseInt (lit "Q3") = None.
Proof. repeat split; reflexivity. Qed.

Example split_samples :
  Js.split 45%N (lit "2023-01") = [lit "2023"; lit "01"] /\
  Js.split 45%N (lit "a--b-") = [lit "a"; lit ""; lit "b"; lit ""] /\
  Js.split 45%N (lit "") = [lit ""].
Proof. repeat split; reflexivity. Qed.

Example exportToMarkdown_sample :
  Markdown.exportToMarkdown Sample.cv false = lit
"# Ann Lee
**Staff Engineer**

Lisbon | ann@example.org
LinkedIn: linkedin.com/in/ann

## Summary

Engineer who ships.

## Experience

### Lead Engineer at Acme
*Porto | Mar 2020 - Present*

Led the web team.

**Key Achievements:**
- Shipped the new storefront
- Cut build times by half

**Technologies:** React, TypeScript

## Skills

**Frontend Engineering:** React, CSS, React

**Soft Skills:** Mentoring

## Education

### MSc Computer Science
*IST, Lisbon | 2010 - 2015*

Thesis on parsers

## Languages

- **English:** Fluent
".
Proof. vm_compute. reflexivity. Qed.

Example generateSkills_sample :
  LinkedIn.generateSkills Sample.cv =
  join LF [ lit "SKILLS FOR LINKEDIN";
            Js.repeat LinkedIn.DOUBLE_LINE 50;
            lit "Copy these to your LinkedIn Skills section:";
            [];
            lit "CSS";
            lit "React" ].
Proof. vm_compute. reflexivity. Qed.

Example toString_samples :
  toString (VNumber (lit "1e+21")) = inr (lit "1e+21") /\
  toString (VArray [VNumber (lit "1"); VNull; VArray [VString (lit "a"); VBool true]])
  = inr (lit "1,,a,true") /\
  toString (VObject [(lit "valueOf", VNumber (lit "1"))])
  = inr (lit "[object Object]") /\
  toString (VObject [(lit "toString", VNumber (lit "1"))])
  = inl (TypeError (lit "Cannot convert object to primitive value")) /\
  toString (VArray [VString (lit "a"); VObject [(lit "toString", VNull)]])
  = inl (TypeError (lit "Cannot convert object to primitive value")).
Proof. repeat split; reflexivity. Qed.

Example get_samples :
  get VNull (lit "id")
  = inl (TypeError (lit "Cannot read properties of null (reading 'id')")) /\
  get (VString (lit "javascript")) (lit "title") = inr VUndefined /\
  get (VObject [(lit "id", VNumber (lit "42"))]) (lit "id")
  = inr (VNumber (lit "42")) /\
  slice_0_4 (VString (lit "javascript")) = inr (VString (lit "java")) /\
  join_comma (VString (lit "java"))
  = inl (TypeError (lit "article.tags?.join is not a function")) /\
  join_comma (VArray [VString (lit "a"); VNull; VNumber (lit "2")])
  = inr (VString (lit "a, , 2")) /\
  truthyValue (VNumber (lit "0")) = false /\
  truthyValue (VString (lit "false")) = true.
Proof. repeat split; reflexivity. Qed.

Example publish_refused_sample :
  let run := publishToDevTo Sample.dirname Sample.path_join Sample.matter
               Sample.JSON_stringify_2 Sample.slug Sample.refusing in
  map (fun e => match e with
                | ConsoleLog _ => lit "log"
                | ConsoleError _ => lit "error"
                | StdoutWrite _ | StderrWrite _ => lit "write"
                | ExistsSync _ => lit "exists"
                | ReadFileSync _ => lit "read"
                | Fetch _ _ => lit "fetch"
                end) (Script.trace run)
  = map lit ["exists"; "read"; "log"; "log"; "log"; "log"; "fetch"; "error"]%string
  /\ Script.outcome run = Exited 1%Z.
Proof. vm_compute. split; reflexivity. Qed.

(** ** Strings *)

Section StringFacts.

Lemma eqb_eq (a b : jsstring) : Js.eqb a b = true <-> a = b.
Proof.
  revert b; induction a as [|x a IH]; intros [|y b]; simpl;
    try (split; [discriminate | congruence]); try tauto.
  rewrite andb_true_iff, N.eqb_eq, IH.
  split; [intros [-> ->]; reflexivity | intros E; injection E; auto].
Qed.

Lemma eqb_refl (a : jsstring) : Js.eqb a a = true.
Proof. apply eqb_eq; reflexivity. Qed.

Lemma arrayIncludes_In (xs : list jsstring) (x : jsstring) :
  arrayIncludes xs x = true <-> In x xs.
Proof.
  unfold arrayIncludes. rewrite existsb_exists. split.
  - intros (y & Hy & E). apply eqb_eq in E. subst; assumption.
  - intros H. exists x. split; [assumption | apply eqb_refl].
Qed.

Lemma startsWith_app (needle rest : jsstring) :
  startsWith (needle ++ rest) needle = true.
Proof.
  induction needle as [|c needle IH]; simpl.
  - destruct rest; reflexivity.
  - rewrite N.eqb_refl. exact IH.
Qed.

Lemma startsWith_inv (s needle : jsstring) :
  startsWith s needle = true -> exists rest, s = needle ++ rest.
Proof.
  revert s; induction needle as [|c needle IH]; intros s H.
  - exists s; reflexivity.
  - destruct s as [|d s]; simpl in H; [discriminate|].
    apply andb_true_iff in H as [E H]. apply N.eqb_eq in E. subst d.
    destruct (IH _ H) as [rest ->]. exists rest; reflexivity.
Qed.

Lemma includes_unfold (s needle : jsstring) :
  includes s needle =
  startsWith s needle ||
  match s with [] => false | _ :: s' => includes s' needle end.
Proof. destruct s; reflexivity. Qed.

Lemma includes_cons (c : codeunit) (s needle : jsstring) :
  includes (c :: s) needle = startsWith (c :: s) needle || includes s needle.
Proof. reflexivity. Qed.

(** [includes] finds exactly the contiguous occurrences. *)
Lemma includes_iff (s needle : jsstring) :
  includes s needle = true <-> exists pre post, s = pre ++ needle ++ post.
Proof.
  split.
  - induction s as [|c s IH]; rewrite includes_unfold; intros H;
      apply orb_true_iff in H as [H|H]; try discriminate.
    + apply startsWith_inv in H as [rest E]. exists [], rest. exact E.
    + apply startsWith_inv in H as [rest E]. exists [], rest. exact E.
    + destruct (IH H) as (pre & post & ->). exists (c :: pre), post.
      reflexivity.
  - intros (pre & post & ->). induction pre as [|c pre IH].
    + rewrite includes_unfold. simpl app. rewrite startsWith_app. reflexivity.
    + simpl app. rewrite includes_cons, IH. apply orb_true_r.
Qed.

Lemma includes_refl (s : jsstring) : includes s s = true.
Proof. apply includes_iff. exists [], []. rewrite app_nil_r. reflexivity. Qed.

Lemma includes_trans (s t needle : jsstring) :
  includes s t = true -> includes t needle = true -> includes s needle = true.
Proof.
  rewrite !includes_iff. intros (p & q & ->) (p' & q' & ->).
  exists (p ++ p'), (q' ++ q). rewrite <- !app_assoc. reflexivity.
Qed.

Lemma includes_app_l (a b needle : jsstring) :
  includes a needle = true -> includes (a ++ b) needle = true.
Proof.
  rewrite !includes_iff. intros (p & q & ->).
  exists p, (q ++ b). rewrite <- !app_assoc. reflexivity.
Qed.

Lemma includes_app_r (a b needle : jsstring) :
  includes b needle = true -> includes (a ++ b) needle = true.
Proof.
  rewrite !includes_iff. intros (p & q & ->).
  exists (a ++ p), q. rewrite <- !app_assoc. reflexivity.
Qed.

(** A joined text holds each of its lines. *)
Lemma includes_join (sep line : jsstring) (lines : list jsstring) :
  In line lines -> includes (join sep lines) line = true.
Proof.
  induction lines as [|l lines IH]; [contradiction|].
  intros [->|H].
  - destruct lines; simpl; [apply includes_refl|].
    apply includes_app_l, includes_refl.
  - destruct lines as [|l' lines]; [contradiction|].
    change (join sep (l :: l' :: lines))
      with (l ++ sep ++ join sep (l' :: lines)).
    apply includes_app_r, includes_app_r, IH, H.
Qed.

Lemma includes_line (sep line needle : jsstring) (lines : list jsstring) :
  In line lines -> includes line needle = true ->
  includes (join sep lines) needle = true.
Proof.
  intros H Hn. eapply includes_trans; [apply includes_join; exact H | exact Hn].
Qed.

End StringFacts.

(** ** Numerals *)

Section NumeralFacts.

Lemma isDigit_iff c : isDigit c = true <-> (48 <= c <= 57)%N.
Proof.
  unfold isDigit. rewrite andb_true_iff, !N.leb_le. tauto.
Qed.

Lemma isDigit_cases c :
  isDigit c = true ->
  In c [48; 49; 50; 51; 52; 53; 54; 55; 56; 57]%N.
Proof.
  rewrite isDigit_iff. intros H. simpl.
  assert (c = 48 \/ c = 49 \/ c = 50 \/ c = 51 \/ c = 52 \/ c = 53 \/
          c = 54 \/ c = 55 \/ c = 56 \/ c = 57)%N by lia.
  intuition auto.
Qed.

Lemma digitChar_isDigit d : (d < 10)%N -> isDigit (digitChar d) = true.
Proof. intros H. apply isDigit_iff. unfold digitChar. lia. Qed.

Lemma decimalFuel_digits fuel :
  forall n acc,
    Forall (fun c => isDigit c = true) acc ->
    Forall (fun c => isDigit c = true) (decimalFuel fuel n acc).
Proof.
  induction fuel as [|fuel IH]; intros n acc H; simpl; [exact H|].
  assert (Hd : isDigit (digitChar (n mod 10)) = true)
    by (apply digitChar_isDigit, N.mod_lt; discriminate).
  destruct (n / 10 =? 0)%N; [|apply IH]; constructor; assumption.
Qed.

Lemma decimalFuel_nonempty fuel n acc : decimalFuel (S fuel) n acc <> [].
Proof.
  cbn [decimalFuel]. destruct (n / 10 =? 0)%N; [discriminate|].
  generalize (n / 10)%N as q.
  assert (G : forall f q acc', acc' <> [] -> decimalFuel f q acc' <> []).
  { induction f as [|f IH]; intros q acc' H; simpl; [exact H|].
    destruct (q / 10 =? 0)%N; [discriminate | apply IH; discriminate]. }
  intros q. apply G. discriminate.
Qed.

(** Reading back the digits that [decimalFuel] writes. *)
Lemma decimalFuel_value fuel :
  forall n acc,
    (n < 2 ^ N.of_nat fuel)%N ->
    digitsValue (decimalFuel fuel n acc) 0 = digitsValue acc n.
Proof.
  unfold digitsValue.
  induction fuel as [|fuel IH]; intros n acc H.
  - simpl in H. assert (n = 0%N) by lia. subst. reflexivity.
  - cbn [decimalFuel].
    assert (Hstep : (10 * (n / 10) + (digitChar (n mod 10) - 48) = n)%N).
    { unfold digitChar. rewrite (N.add_comm 48), N.add_sub.
      symmetry. apply N.div_mod. discriminate. }
    destruct (n / 10 =? 0)%N eqn:E.
    + apply N.eqb_eq in E. cbn [fold_left]. rewrite E in Hstep.
      rewrite N.mul_0_r in *. rewrite Hstep. reflexivity.
    + rewrite IH.
      * cbn [fold_left]. rewrite Hstep. reflexivity.
      * rewrite Nat2N.inj_succ, N.pow_succ_r' in H.
        apply N.Div0.div_lt_upper_bound. lia.
Qed.

Lemma decimal_digits n : Forall (fun c => isDigit c = true) (decimal n).
Proof. apply decimalFuel_digits. constructor. Qed.

Lemma decimal_nonempty n : decimal n <> [].
Proof. apply decimalFuel_nonempty. Qed.

Lemma decimal_value n : digitsValue (decimal n) 0 = n.
Proof.
  unfold decimal. rewrite decimalFuel_value; [reflexivity|].
  rewrite Nat2N.inj_succ, N2Nat.id, N.pow_succ_r'.
  destruct n as [|p]; [reflexivity|].
  pose proof (N.log2_spec (N.pos p) eq_refl) as L.
  rewrite N.pow_succ_r' in L. lia.
Qed.

Lemma padStart0_digits width s :
  Forall (fun c => isDigit c = true) s ->
  Forall (fun c => isDigit c = true) (padStart0 width s).
Proof.
  intros H. unfold padStart0. apply Forall_app. split; [|exact H].
  apply Forall_forall. intros c Hc. apply repeat_spec in Hc. subst. reflexivity.
Qed.

Lemma padStart0_nonempty width s : s <> [] -> padStart0 width s <> [].
Proof.
  unfold padStart0. intros H E. apply app_eq_nil in E as [_ E]. auto.
Qed.

Lemma padStart0_value width s :
  digitsValue (padStart0 width s) 0 = digitsValue s 0.
Proof.
  unfold padStart0, digitsValue. rewrite fold_left_app. f_equal.
  induction (width - List.length s)%nat as [|k IH]; [reflexivity | exact IH].
Qed.

Lemma parseDigits_value s :
  Forall (fun c => isDigit c = true) s ->
  forall a, parseDigits 10 (Some a) s = Some (digitsValue s a).
Proof.
  induction 1 as [|c s Hc _ IH]; intros a; [reflexivity|].
  cbn [parseDigits digitsValue fold_left].
  unfold digitValue. fold (isDigit c). rewrite Hc.
  apply isDigit_iff in Hc.
  replace (c - 48 <? 10)%N with true by (symmetry; apply N.ltb_lt; lia).
  apply IH.
Qed.

Lemma digit_not_space c : isDigit c = true -> isWhiteSpace c = false.
Proof.
  intros H. apply isDigit_cases in H. simpl in H.
  destruct H as [<-|[<-|[<-|[<-|[<-|[<-|[<-|[<-|[<-|[<-|[]]]]]]]]]]];
    reflexivity.
Qed.

(** [parseInt] on a string of decimal digits. *)
Lemma parseInt_digits s :
  Forall (fun c => isDigit c = true) s -> s <> [] ->
  parseInt s = Some (Z.of_N (digitsValue s 0)).
Proof.
  intros H Hne. destruct s as [|c s]; [contradiction|].
  inversion H as [|? ? Hc Hs]; subst.
  assert (P : parseDigits 10 None (c :: s) = Some (digitsValue (c :: s) 0)).
  { rewrite <- (parseDigits_value (c :: s) H 0). cbn [parseDigits].
    unfold digitValue. fold (isDigit c). rewrite Hc.
    apply isDigit_iff in Hc.
    replace (c - 48 <? 10)%N with true by (symmetry; apply N.ltb_lt; lia).
    reflexivity. }
  unfold parseInt. cbn [trimStart]. rewrite (digit_not_space c Hc).
  pose proof Hc as Hc'. apply isDigit_iff in Hc'.
  replace (c =? 45)%N with false by (symmetry; apply N.eqb_neq; lia).
  replace (c =? 43)%N with false by (symmetry; apply N.eqb_neq; lia).
  destruct s as [|x s].
  - rewrite P. f_equal. lia.
  - inversion Hs as [|? ? Hx _]; subst. apply isDigit_iff in Hx.
    replace (x =? 120)%N with false by (symmetry; apply N.eqb_neq; lia).
    replace (x =? 88)%N with false by (symmetry; apply N.eqb_neq; lia).
    rewrite andb_false_r. rewrite P. f_equal. lia.
Qed.

Lemma parseInt_padded width n :
  parseInt (padStart0 width (decimal n)) = Some (Z.of_N n).
Proof.
  rewrite parseInt_digits.
  - rewrite padStart0_value, decimal_value. reflexivity.
  - apply padStart0_digits, decimal_digits.
  - apply padStart0_nonempty, decimal_nonempty.
Qed.

Lemma split_without_separator (sep : codeunit) (s : jsstring) :
  ~ In sep s -> Js.split sep s = [s].
Proof.
  induction s as [|c s IH]; intros H; [reflexivity|].
  cbn [Js.split].
  destruct (N.eqb_spec c sep) as [->|_]; [exfalso; apply H; left; reflexivity|].
  rewrite IH by (intros H'; apply H; right; exact H'). reflexivity.
Qed.

Lemma split_at_separator (sep : codeunit) (a b : jsstring) :
  ~ In sep a -> Js.split sep (a ++ sep :: b) = a :: Js.split sep b.
Proof.
  induction a as [|c a IH]; intros H.
  - cbn [app Js.split]. rewrite N.eqb_refl. reflexivity.
  - cbn [app Js.split].
    destruct (N.eqb_spec c sep) as [->|_]; [exfalso; apply H; left; reflexivity|].
    rewrite IH by (intros H'; apply H; right; exact H'). reflexivity.
Qed.

Lemma digits_without_hyphen s :
  Forall (fun c => isDigit c = true) s -> ~ In 45%N s.
Proof.
  intros H Hin. rewrite Forall_forall in H. apply H in Hin. discriminate.
Qed.

Lemma split_parts_without_separator (sep : codeunit) (s : jsstring) :
  forall part, In part (Js.split sep s) -> ~ In sep part.
Proof.
  induction s as [|c s IH]; intros part H.
  - destruct H as [<-|[]]. intros [].
  - cbn [Js.split] in H. destruct (N.eqb_spec c sep) as [->|Hc].
    + destruct H as [<-|H]; [intros [] | apply IH; exact H].
    + destruct (Js.split sep s) as [|piece pieces] eqn:E.
      * destruct H as [<-|[]]. intros [E'|[]]. auto.
      * destruct H as [<-|H].
        -- intros [E'|H']; [auto|]. apply (IH piece); [left; reflexivity | exact H'].
        -- apply IH. right. exact H.
Qed.

Lemma trimStart_suffix (s : jsstring) c : In c (trimStart s) -> In c s.
Proof.
  induction s as [|d s IH]; [auto|]. cbn [trimStart].
  destruct (isWhiteSpace d); [intros H; right; apply IH; exact H | auto].
Qed.

(** With no "-" in the string, [parseInt] gives no negative number. *)
Lemma parseInt_nonneg (s : jsstring) z :
  ~ In 45%N s -> parseInt s = Some z -> (0 <= z)%Z.
Proof.
  intros Hno. unfold parseInt.
  assert (Ht : ~ In 45%N (trimStart s))
    by (intros H; apply Hno, trimStart_suffix, H).
  destruct (trimStart s) as [|c t]; [discriminate|].
  replace (c =? 45)%N with false
    by (symmetry; apply N.eqb_neq; intros ->; apply Ht; left; reflexivity).
  assert (G : forall radix rest,
             match parseDigits radix None rest with
             | Some n => Some (1 * Z.of_N n)%Z
             | None => None
             end = Some z -> (0 <= z)%Z).
  { intros radix rest. destruct (parseDigits radix None rest); [|discriminate].
    intros E. assert (z = (1 * Z.of_N n)%Z) by congruence. lia. }
  destruct (c =? 43)%N.
  - destruct t as [|c1 [|c2 t']]; try apply G.
    destruct ((c1 =? 48) && ((c2 =? 120) || (c2 =? 88)))%N; apply G.
  - destruct t as [|c2 t']; try apply G.
    destruct ((c =? 48) && ((c2 =? 120) || (c2 =? 88)))%N; apply G.
Qed.

End NumeralFacts.

(** ** The date formatter of the Markdown export *)

Section DateFacts.
Import Markdown.

Lemma formatDate_nonempty (dateStr : jsstring) :
  dateStr <> [] ->
  formatDate (Some dateStr)
  = match nth_error (Js.split 45%N dateStr) 1 with
    | None | Some [] => nth 0 (Js.split 45%N dateStr) []
    | Some month =>
        JsDate.toLocaleDateString_en_US_short_numeric
          (JsDate.make (parseInt (nth 0 (Js.split 45%N dateStr) []))
                       (option_map (fun m => (m - 1)%Z) (parseInt month)))
    end.
Proof. destruct dateStr; [contradiction | reflexivity]. Qed.

Lemma formatDate_parts (year month : jsstring) :
  year <> [] -> month <> [] -> ~ In 45%N year -> ~ In 45%N month ->
  formatDate (Some (year ++ 45%N :: month))
  = JsDate.toLocaleDateString_en_US_short_numeric
      (JsDate.make (parseInt year)
                   (option_map (fun m => (m - 1)%Z) (parseInt month))).
Proof.
  intros Hy Hm Hny Hnm.
  rewrite formatDate_nonempty by (destruct year; [contradiction | discriminate]).
  rewrite (split_at_separator 45%N year month Hny).
  rewrite (split_without_separator 45%N month Hnm).
  destruct month as [|d month]; [contradiction | reflexivity].
Qed.

Lemma make_year_month (y m : N) :
  (100 <= y <= 9999)%N -> (1 <= m <= 12)%N ->
  JsDate.make (Some (Z.of_N y)) (Some (Z.of_N m - 1)%Z)
  = JsDate.FirstOf (Z.of_N y) (Z.of_N m - 1).
Proof.
  intros Hy Hm. unfold JsDate.make, JsDate.inRange.
  replace (Z.of_N y <=? 99)%Z with false by (symmetry; apply Z.leb_gt; lia).
  rewrite andb_false_r.
  rewrite (Z.div_small (Z.of_N m - 1) 12) by lia.
  rewrite (Z.mod_small (Z.of_N m - 1) 12) by lia.
  rewrite Z.add_0_r.
  replace (_ <=? _)%Z with true by (symmetry; apply Z.leb_le; lia).
  replace (_ <=? _)%Z with true by (symmetry; apply Z.leb_le; lia).
  reflexivity.
Qed.

(** X2. Whatever the string, the formatter gives its part before the first
    "-", or "Invalid Date", or a month of a year from 99 on: [Date] is
    never asked for a year before our era. *)
Lemma formatDate_shape (dateStr : jsstring) :
  dateStr <> [] ->
  formatDate (Some dateStr) = nth 0 (Js.split 45%N dateStr) [] \/
  formatDate (Some dateStr) = lit "Invalid Date" \/
  exists y m,
    (99 <= y)%Z /\ (0 <= m <= 11)%Z /\
    formatDate (Some dateStr)
    = JsDate.monthShort m ++ lit " " ++ decimal (Z.to_N y).
Proof.
  intros Hne. rewrite (formatDate_nonempty dateStr Hne).
  pose proof (split_parts_without_separator 45%N dateStr) as Hparts.
  destruct (Js.split 45%N dateStr) as [|year [|month rest]];
    try (left; reflexivity).
  cbn [nth_error nth]. destruct month as [|d month]; [left; reflexivity|].
  right.
  assert (Hy : ~ In 45%N year) by (apply Hparts; left; reflexivity).
  assert (Hm : ~ In 45%N (d :: month))
    by (apply Hparts; right; left; reflexivity).
  destruct (parseInt year) as [y|] eqn:Ey; [|left; reflexivity].
  destruct (parseInt (d :: month)) as [m|] eqn:Em; [|left; reflexivity].
  apply (parseInt_nonneg year y Hy) in Ey.
  apply (parseInt_nonneg (d :: month) m Hm) in Em.
  cbn [option_map]. unfold JsDate.make.
  set (yr := if ((0 <=? y) && (y <=? 99))%Z then (1900 + y)%Z else y).
  assert (Hyr : (100 <= yr)%Z).
  { subst yr. destruct (Z.leb_spec 0 y); destruct (Z.leb_spec y 99);
      cbn [andb]; lia. }
  cbv zeta. destruct (JsDate.inRange _ _); [|left; reflexivity].
  right. exists (yr + (m - 1) / 12)%Z, ((m - 1) mod 12)%Z.
  assert (Hd : (-1 <= (m - 1) / 12)%Z)
    by (apply Z.div_le_lower_bound; lia).
  pose proof (Z.mod_pos_bound (m - 1) 12 ltac:(lia)) as Hmod.
  split; [lia|]. split; [lia|].
  unfold JsDate.toLocaleDateString_en_US_short_numeric.
  replace (1 <=? yr + (m - 1) / 12)%Z with true
    by (symmetry; apply Z.leb_le; lia).
  reflexivity.
Qed.

(** C10, as amended. The date formatter maps [null] to "Present"; a
    date written YYYY-MM, with a year from 0100 to 9999 and a month from
    01 to 12, to the abbreviated English name of the month, a space and
    the year; and a string that is not empty and has no "-" to
    itself. *)
Theorem formatDate_cases (y m : N) (s : jsstring) :
  formatDate None = lit "Present" /\
  ((100 <= y <= 9999)%N -> (1 <= m <= 12)%N ->
   formatDate (Some (yearMonth y m))
   = nth (N.to_nat (m - 1))
         (map lit ["Jan"; "Feb"; "Mar"; "Apr"; "May"; "Jun";
                   "Jul"; "Aug"; "Sep"; "Oct"; "Nov"; "Dec"]%string) []
     ++ lit " " ++ decimal y) /\
  (s <> [] -> ~ In 45%N s -> formatDate (Some s) = s).
Proof.
  split; [reflexivity|]. split.
  - intros Hy Hm. unfold yearMonth.
    change (lit "-" ++ padStart0 2 (decimal m))
      with (45%N :: padStart0 2 (decimal m)).
    rewrite formatDate_parts.
    + rewrite !parseInt_padded. cbn [option_map].
      rewrite (make_year_month y m Hy Hm).
      unfold JsDate.toLocaleDateString_en_US_short_numeric, JsDate.monthShort.
      replace (1 <=? Z.of_N y)%Z with true by (symmetry; apply Z.leb_le; lia).
      rewrite N2Z.id.
      replace (Z.to_nat (Z.of_N m - 1)) with (N.to_nat (m - 1)) by lia.
      reflexivity.
    + apply padStart0_nonempty, decimal_nonempty.
    + apply padStart0_nonempty, decimal_nonempty.
    + apply digits_without_hyphen, padStart0_digits, decimal_digits.
    + apply digits_without_hyphen, padStart0_digits, decimal_digits.
  - intros Hne Hno. rewrite (formatDate_nonempty s Hne).
    rewrite (split_without_separator 45%N s Hno). reflexivity.
Qed.

Lemma formatDate_cases_witness :
  (100 <= 2023 <= 9999)%N /\ (1 <= 1 <= 12)%N /\
  lit "2023" <> [] /\ ~ In 45%N (lit "2023") /\
  formatDate None = lit "Present" /\
  formatDate (Some (lit "2023-01")) = lit "Jan 2023" /\
  formatDate (Some (lit "2023")) = lit "2023".
Proof.
  assert (Hy : (100 <= 2023 <= 9999)%N) by lia.
  assert (Hm : (1 <= 1 <= 12)%N) by lia.
  assert (Hs : lit "2023" <> []) by discriminate.
  assert (Hn : ~ In 45%N (lit "2023"))
    by (simpl; intros [E|[E|[E|[E|[]]]]]; discriminate).
  destruct (formatDate_cases 2023 1 (lit "2023")) as (H1 & H2 & H3).
  split; [exact Hy|]. split; [exact Hm|]. split; [exact Hs|].
  split; [exact Hn|]. split; [exact H1|].
  split; [exact (H2 Hy Hm) | exact (H3 Hs Hn)].
Defined.

(** C10 as it is stated fails on the empty string, which has no "-"
    and is mapped to "Present", and on the years 0000 to 0099, which
    [Date] reads as 1900 to 1999; and two digits that are not a month of
    the year carry into the year. *)
Lemma formatDate_counterexample :
  ~ In 45%N (lit "") /\
  formatDate (Some (lit "")) = lit "Present" /\
  formatDate (Some (lit "")) <> lit "" /\
  yearMonth 99 1 = lit "0099-01" /\
  formatDate (Some (lit "0099-01")) = lit "Jan 1999" /\
  formatDate (Some (lit "2023-00")) = lit "Dec 2022" /\
  formatDate (Some (lit "2023-13")) = lit "Jan 2024".
Proof.
  split; [intros []|]. repeat split; try reflexivity; discriminate.
Qed.

End DateFacts.

(** ** The Markdown export *)

Section MarkdownFacts.
Import Markdown.

Lemma isVisible_default (visibility : option (list jsstring)) :
  isVisible visibility false = true <->
  visibility = None \/ exists v, visibility = Some v /\ In (lit "all") v.
Proof.
  destruct visibility as [v|]; simpl.
  - rewrite arrayIncludes_In. split.
    + intros H. right. exists v. auto.
    + intros [E | (v' & E & H)]; [discriminate|]. injection E as ->. exact H.
  - split; auto.
Qed.

Lemma experience_lines_exported cv includeHidden exp line :
  In exp (visibleExperience cv includeHidden) ->
  In line (experienceLines exp) ->
  In line (exportLines cv includeHidden).
Proof.
  intros Hexp Hline.
  assert (H : In line (flat_map experienceLines
                         (visibleExperience cv includeHidden)))
    by (apply in_flat_map; exists exp; auto).
  unfold exportLines. rewrite !in_app_iff. tauto.
Qed.

Lemma heading_in_experienceLines exp :
  In (lit "### " ++ Experience.title exp ++ lit " at " ++ Experience.company exp)
     (experienceLines exp).
Proof. unfold experienceLines. left. reflexivity. Qed.

Lemma achievement_in_experienceLines exp achievement :
  In achievement (Experience.achievements exp) ->
  In (lit "- " ++ achievement) (experienceLines exp).
Proof.
  intros H. unfold experienceLines.
  destruct (Experience.achievements exp) as [|a rest] eqn:E; [contradiction|].
  rewrite !in_app_iff. right. left. right. left.
  apply (in_map (fun achievement => lit "- " ++ achievement)). exact H.
Qed.

(** C1. Whatever the include-hidden flag, the Markdown text holds,
    unit for unit, the title, the company and each achievement of every
    experience entry that the export takes as visible. *)
Theorem markdown_keeps_visible_experience
    (cv : CVData.t) (includeHidden : bool) (exp : Experience.t) :
  In exp (CVData.experience cv) ->
  isVisible (Experience.visibility exp) includeHidden = true ->
  let markdown := exportToMarkdown cv includeHidden in
  includes markdown (Experience.title exp) = true /\
  includes markdown (Experience.company exp) = true /\
  forall achievement,
    In achievement (Experience.achievements exp) ->
    includes markdown achievement = true.
Proof.
  intros Hin Hvis markdown.
  assert (Hexp : In exp (visibleExperience cv includeHidden))
    by (apply filter_In; auto).
  pose proof (experience_lines_exported _ _ _ _ Hexp
                (heading_in_experienceLines exp)) as Hhead.
  repeat split.
  - eapply includes_line; [exact Hhead|].
    apply includes_app_r, includes_app_l, includes_refl.
  - eapply includes_line; [exact Hhead|].
    apply includes_app_r, includes_app_r, includes_app_r, includes_refl.
  - intros achievement Ha.
    eapply includes_line.
    + eapply experience_lines_exported;
        [exact Hexp | apply achievement_in_experienceLines; exact Ha].
    + apply includes_app_r, includes_refl.
Qed.

Lemma markdown_keeps_visible_experience_witness :
  In Sample.lead (CVData.experience Sample.cv) /\
  isVisible (Experience.visibility Sample.lead) false = true /\
  includes (exportToMarkdown Sample.cv false) (lit "Lead Engineer") = true /\
  includes (exportToMarkdown Sample.cv false) (lit "Acme") = true /\
  forall achievement,
    In achievement [lit "Shipped the new storefront";
                    lit "Cut build times by half"] ->
    includes (exportToMarkdown Sample.cv false) achievement = true.
Proof.
  split; [left; reflexivity|]. split; [reflexivity|].
  apply (markdown_keeps_visible_experience Sample.cv false Sample.lead);
    [left; reflexivity | reflexivity].
Defined.

(** *** Which entries are exported *)

Lemma shownByDefaultb_iff visibility :
  shownByDefaultb visibility = true <-> shownByDefault visibility.
Proof. apply isVisible_default. Qed.

Lemma filter_all {A} (f : A -> bool) (l : list A) :
  (forall x, f x = true) -> filter f l = l.
Proof.
  intros H. induction l as [|x l IH]; simpl; [reflexivity|].
  rewrite H, IH. reflexivity.
Qed.

Lemma holdsBlock_app_l lines rest block :
  holdsBlock lines block -> holdsBlock (lines ++ rest) block.
Proof.
  intros (b & a & ->). exists b, (a ++ rest). rewrite <- !app_assoc. reflexivity.
Qed.

Lemma holdsBlock_app_r lines rest block :
  holdsBlock rest block -> holdsBlock (lines ++ rest) block.
Proof.
  intros (b & a & ->). exists (lines ++ b), a. rewrite <- !app_assoc. reflexivity.
Qed.

Lemma holdsBlock_flat_map {A} (f : A -> list jsstring) (l : list A) (x : A) :
  In x l -> holdsBlock (flat_map f l) (f x).
Proof.
  intros H. apply in_split in H as (l1 & l2 & ->).
  exists (flat_map f l1), (flat_map f l2).
  rewrite flat_map_app. reflexivity.
Qed.

Ltac find_block H :=
  solve [ exact H
        | apply holdsBlock_app_l; find_block H
        | apply holdsBlock_app_r; find_block H ].

Lemma visibleProjects_hidden projects :
  visibleProjects projects true = projects.
Proof. apply filter_all. reflexivity. Qed.

Lemma experience_block cv includeHidden exp :
  In exp (CVData.experience cv) ->
  isVisible (Experience.visibility exp) includeHidden = true ->
  holdsBlock (exportLines cv includeHidden) (experienceLines exp).
Proof.
  intros Hin Hvis.
  assert (H : In exp (visibleExperience cv includeHidden))
    by (apply filter_In; auto).
  apply (holdsBlock_flat_map experienceLines) in H.
  unfold exportLines. find_block H.
Qed.

Lemma education_block cv includeHidden edu :
  In edu (CVData.education cv) ->
  isVisible (Education.visibility edu) includeHidden = true ->
  holdsBlock (exportLines cv includeHidden) (educationLines edu).
Proof.
  intros Hin Hvis.
  assert (H : In edu (visibleEducation cv includeHidden))
    by (apply filter_In; auto).
  apply (holdsBlock_flat_map educationLines) in H.
  unfold exportLines. find_block H.
Qed.

Lemma project_block cv includeHidden projects proj :
  CVData.projects cv = Some projects -> In proj projects ->
  isVisible (Project.visibility proj) includeHidden = true ->
  holdsBlock (exportLines cv includeHidden) (projectLines proj).
Proof.
  intros E Hin Hvis.
  assert (H : In proj (visibleProjects projects includeHidden))
    by (apply filter_In; auto).
  unfold exportLines, projectsSection. rewrite E.
  destruct projects as [|p ps]; [contradiction|].
  unfold nonEmptyArray.
  destruct (visibleProjects (p :: ps) includeHidden) as [|v vs] eqn:Ev;
    [contradiction|].
  apply (holdsBlock_flat_map projectLines) in H.
  find_block H.
Qed.

Lemma visibleExperience_default cv :
  visibleExperience (withoutHidden cv) true = visibleExperience cv false.
Proof. unfold visibleExperience. apply filter_all. reflexivity. Qed.

Lemma visibleEducation_default cv :
  visibleEducation (withoutHidden cv) true = visibleEducation cv false.
Proof. unfold visibleEducation. apply filter_all. reflexivity. Qed.

Lemma projectsSection_default cv :
  projectsSection (CVData.projects (withoutHidden cv)) true
  = projectsSection (CVData.projects cv) false.
Proof.
  unfold projectsSection. simpl CVData.projects.
  destruct (CVData.projects cv) as [[|p ps]|]; try reflexivity.
  unfold option_map.
  change (filter (fun proj => shownByDefaultb (Project.visibility proj)) (p :: ps))
    with (visibleProjects (p :: ps) false).
  simpl nonEmptyArray at 2. cbv iota.
  destruct (visibleProjects (p :: ps) false) as [|v vs]; [reflexivity|].
  simpl nonEmptyArray. cbv iota. rewrite visibleProjects_hidden. reflexivity.
Qed.

Lemma exportLines_default cv :
  exportLines cv false = exportLines (withoutHidden cv) true.
Proof.
  unfold exportLines.
  rewrite visibleExperience_default, visibleEducation_default,
    projectsSection_default.
  reflexivity.
Qed.

Lemma join_app sep (a b : list jsstring) :
  a <> [] -> b <> [] -> join sep (a ++ b) = join sep a ++ sep ++ join sep b.
Proof.
  intros Ha Hb. induction a as [|x a IH]; [contradiction|].
  destruct a as [|y a].
  - destruct b as [|z b]; [contradiction|]. reflexivity.
  - change (join sep ((x :: y :: a) ++ b))
      with (x ++ sep ++ join sep ((y :: a) ++ b)).
    rewrite IH by discriminate.
    change (join sep (x :: y :: a)) with (x ++ sep ++ join sep (y :: a)).
    rewrite <- !app_assoc. reflexivity.
Qed.

(** A joined text holds the joined text of each run of its lines. *)
Lemma includes_block sep lines block :
  holdsBlock lines block -> includes (join sep lines) (join sep block) = true.
Proof.
  intros (before & after & ->).
  destruct block as [|l block].
  - apply includes_iff. exists [], (join sep (before ++ [] ++ after)). reflexivity.
  - assert (H : includes (join sep ((l :: block) ++ after))
                         (join sep (l :: block)) = true).
    { destruct after as [|a after].
      - rewrite app_nil_r. apply includes_refl.
      - rewrite join_app by discriminate. apply includes_app_l, includes_refl. }
    destruct before as [|b before]; [exact H|].
    rewrite join_app; [|discriminate|discriminate].
    apply includes_app_r, includes_app_r, H.
Qed.

Lemma holdsBlock_prefix lines first rest :
  holdsBlock lines (first ++ rest) -> holdsBlock lines first.
Proof.
  intros (before & after & ->). exists before, (rest ++ after).
  rewrite <- !app_assoc. reflexivity.
Qed.

Lemma passes_isVisible visibility includeHidden :
  includeHidden = true \/ shownByDefault visibility ->
  isVisible visibility includeHidden = true.
Proof.
  intros [->|H]; [reflexivity|].
  destruct includeHidden; [reflexivity | apply isVisible_default; exact H].
Qed.

(** C5. The Markdown text holds the opening lines of an entry, one after
    the other, for every experience, education and project entry when the
    include-hidden flag is set, and without the flag for every entry that
    has no visibility field or whose visibility list holds ["all"].
    Without the flag nothing else of the entries is exported: the text is
    the one of the document cut down to these entries. *)
Theorem markdown_visibility (cv : CVData.t) :
  (forall includeHidden exp,
      In exp (CVData.experience cv) ->
      includeHidden = true \/ shownByDefault (Experience.visibility exp) ->
      includes (exportToMarkdown cv includeHidden)
        (join LF
           [ lit "### " ++ Experience.title exp ++ lit " at "
               ++ Experience.company exp;
             lit "*" ++ Experience.location exp ++ lit " | "
               ++ formatDate (Some (Experience.startDate exp)) ++ lit " - "
               ++ formatDate (Experience.endDate exp) ++ lit "*";
             [];
             Experience.description exp;
             [] ]) = true) /\
  (forall includeHidden edu,
      In edu (CVData.education cv) ->
      includeHidden = true \/ shownByDefault (Education.visibility edu) ->
      includes (exportToMarkdown cv includeHidden)
        (join LF
           [ lit "### " ++ Education.degree edu;
             lit "*" ++ Education.institution edu ++ lit ", "
               ++ Education.location edu ++ lit " | "
               ++ Education.startDate edu ++ lit " - "
               ++ orElse (Education.endDate edu) (lit "Present") ++ lit "*" ])
      = true) /\
  (forall includeHidden projects proj,
      CVData.projects cv = Some projects -> In proj projects ->
      includeHidden = true \/ shownByDefault (Project.visibility proj) ->
      includes (exportToMarkdown cv includeHidden)
        (join LF
           [ lit "### " ++ Project.name proj;
             [];
             Project.description proj;
             [] ]) = true) /\
  exportToMarkdown cv false = exportToMarkdown (withoutHidden cv) true /\
  (forall exp, In exp (CVData.experience (withoutHidden cv)) <->
               In exp (CVData.experience cv) /\
               shownByDefault (Experience.visibility exp)) /\
  (forall edu, In edu (CVData.education (withoutHidden cv)) <->
               In edu (CVData.education cv) /\
               shownByDefault (Education.visibility edu)) /\
  (forall proj, (exists kept, CVData.projects (withoutHidden cv) = Some kept /\
                              In proj kept) <->
                (exists projects, CVData.projects cv = Some projects /\
                                  In proj projects) /\
                shownByDefault (Project.visibility proj)).
Proof.
  split; [|split; [|split; [|split]]].
  - intros includeHidden exp Hin Hshown.
    apply includes_block.
    pose proof (experience_block cv includeHidden exp Hin
                  (passes_isVisible _ _ Hshown)) as H.
    unfold experienceLines in H. cbv zeta in H. rewrite <- !app_assoc in H.
    exact (holdsBlock_prefix _ _ _ H).
  - intros includeHidden edu Hin Hshown.
    apply includes_block.
    pose proof (education_block cv includeHidden edu Hin
                  (passes_isVisible _ _ Hshown)) as H.
    unfold educationLines in H. cbv zeta in H. rewrite <- !app_assoc in H.
    exact (holdsBlock_prefix _ _ _ H).
  - intros includeHidden projects proj E Hin Hshown.
    apply includes_block.
    eapply holdsBlock_prefix.
    apply (project_block cv includeHidden projects proj E Hin).
    apply passes_isVisible. exact Hshown.
  - unfold exportToMarkdown. rewrite exportLines_default. reflexivity.
  - split; [intros exp; simpl; rewrite filter_In, shownByDefaultb_iff; tauto|].
    split; [intros edu; simpl; rewrite filter_In, shownByDefaultb_iff; tauto|].
    intros proj. simpl. split.
    + intros (kept & E & H).
      destruct (CVData.projects cv) as [projects|]; [|discriminate].
      injection E as <-. apply filter_In in H as [H Hs].
      split; [exists projects; auto | apply shownByDefaultb_iff; exact Hs].
    + intros [(projects & E & H) Hs]. rewrite E. simpl.
      eexists; split; [reflexivity|].
      apply filter_In. split; [exact H | apply shownByDefaultb_iff; exact Hs].
Qed.

Lemma markdown_visibility_witness :
  (In Sample.consultant (CVData.experience Sample.cv) /\
   In Sample.degree (CVData.education Sample.cv) /\
   CVData.projects Sample.cv = Some [Sample.tool]) /\
  includes (Markdown.exportToMarkdown Sample.cv true)
    (lit "### Consultant at Initech
*Faro | 2018 - Feb 2020*

Advised clients.
") = true /\
  includes (Markdown.exportToMarkdown Sample.cv false)
    (lit "### MSc Computer Science
*IST, Lisbon | 2010 - 2015*") = true /\
  includes (Markdown.exportToMarkdown Sample.cv true)
    (lit "### Tool

A small tool
") = true /\
  includes (Markdown.exportToMarkdown Sample.cv false) (lit "Consultant") = false /\
  Markdown.exportToMarkdown Sample.cv false
  = Markdown.exportToMarkdown (withoutHidden Sample.cv) true /\
  CVData.experience (withoutHidden Sample.cv) = [Sample.lead] /\
  CVData.projects (withoutHidden Sample.cv) = Some [].
Proof.
  destruct (markdown_visibility Sample.cv)
    as (Hexp & Hedu & Hproj & Hdefault & _).
  split; [split; [right; left; reflexivity | split; [left|]; reflexivity]|].
  split; [exact (Hexp true Sample.consultant (or_intror (or_introl eq_refl))
                   (or_introl eq_refl))|].
  split; [refine (Hedu false Sample.degree (or_introl eq_refl) (or_intror _));
          right; eexists; split; [reflexivity | left; reflexivity]|].
  split; [exact (Hproj true [Sample.tool] Sample.tool eq_refl
                   (or_introl eq_refl) (or_introl eq_refl))|].
  split; [reflexivity|].
  split; [exact Hdefault|].
  split; reflexivity.
Defined.

End MarkdownFacts.

(** ** Running a script *)

Section ScriptFacts.
Import Node.

Lemma after_after {A} t t' (r : list Event * Outcome A) :
  Script.after t (Script.after t' r) = Script.after (t ++ t') r.
Proof. unfold Script.after; simpl. rewrite app_assoc. reflexivity. Qed.

Lemma bind_ret {A B} (a : A) (k : A -> Script B) w :
  Script.bind (Script.ret a) k w = k a w.
Proof. unfold Script.bind, Script.ret. destruct (k a w); reflexivity. Qed.

Lemma bind_exit {A B} code (k : A -> Script B) w :
  Script.bind (Script.exit code) k w = ([], Exited code).
Proof. reflexivity. Qed.

Lemma bind_throw {A B} e (k : A -> Script B) w :
  Script.bind (Script.throw e) k w = ([], Thrown e).
Proof. reflexivity. Qed.

Lemma bind_emit {B} e (k : unit -> Script B) w :
  Script.bind (Script.emit e) k w = Script.after [e] (k tt w).
Proof. unfold Script.bind, Script.emit, Script.after. destruct (k tt w); reflexivity. Qed.

Lemma bind_console_log {B} args (k : unit -> Script B) w :
  Script.bind (console_log args) k w = Script.after [ConsoleLog args] (k tt w).
Proof. apply bind_emit. Qed.

Lemma bind_console_error {B} args (k : unit -> Script B) w :
  Script.bind (console_error args) k w = Script.after [ConsoleError args] (k tt w).
Proof. apply bind_emit. Qed.

Lemma bind_stderr_write {B} text (k : unit -> Script B) w :
  Script.bind (stderr_write text) k w = Script.after [StderrWrite text] (k tt w).
Proof. apply bind_emit. Qed.

Lemma bind_getenv {B} name (k : option jsstring -> Script B) w :
  Script.bind (getenv name) k w = k (env w name) w.
Proof. unfold Script.bind, getenv. destruct (k (env w name) w); reflexivity. Qed.

Lemma bind_process_argv {B} (k : list jsstring -> Script B) w :
  Script.bind process_argv k w = k (argv w) w.
Proof. unfold Script.bind, process_argv. destruct (k (argv w) w); reflexivity. Qed.

Lemma bind_existsSync {B} path (k : bool -> Script B) w :
  Script.bind (existsSync path) k w =
  Script.after [ExistsSync path]
    (k (match files w path with Some _ => true | None => false end) w).
Proof.
  unfold Script.bind, existsSync, Script.after.
  match goal with |- context [k ?b w] => destruct (k b w) end. reflexivity.
Qed.

Lemma bind_readFileSync {B} path text (k : jsstring -> Script B) w :
  files w path = Some text ->
  Script.bind (readFileSync path) k w =
  Script.after [ReadFileSync path] (k text w).
Proof.
  intros H. unfold Script.bind, readFileSync, Script.after. rewrite H.
  destruct (k text w); reflexivity.
Qed.

Lemma bind_fetch {B} url init (k : FetchResult -> Script B) w :
  Script.bind (fetch url init) k w =
  Script.after [Fetch url init] (k (network w url init) w).
Proof.
  unfold Script.bind, fetch, Script.after.
  match goal with |- context [k ?b w] => destruct (k b w) end. reflexivity.
Qed.

Lemma bind_assoc {A B C} (m : Script A) (k : A -> Script B) (h : B -> Script C) w :
  Script.bind (Script.bind m k) h w
  = Script.bind m (fun a => Script.bind (k a) h) w.
Proof.
  unfold Script.bind. destruct (m w) as [t [a|code|e]]; try reflexivity.
  destruct (k a w) as [t' [b|code|e]]; try reflexivity.
  destruct (h b w) as [t'' o]. rewrite app_assoc. reflexivity.
Qed.

Lemma caught_after {A} t (r : list Event * Outcome A) handler w :
  Script.caught (Script.after t r) handler w
  = Script.after t (Script.caught r handler w).
Proof.
  destruct r as [t0 [a|code|e]]; try reflexivity.
  unfold Script.after, Script.caught; simpl. destruct (handler e w).
  simpl. rewrite app_assoc. reflexivity.
Qed.

Lemma bind_lift {A B} (r : JsError + A) (k : A -> Script B) w :
  Script.bind (Script.lift r) k w =
  match r with
  | inl e => ([], Thrown e)
  | inr a => k a w
  end.
Proof. destruct r; [reflexivity | apply bind_ret]. Qed.

Lemma bind_returned {A B} (m : Script A) (k : A -> Script B) w t a :
  m w = (t, Returned a) -> Script.bind m k w = Script.after t (k a w).
Proof.
  intros H. unfold Script.bind, Script.after. rewrite H.
  destruct (k a w); reflexivity.
Qed.

Lemma bind_thrown {A B} (m : Script A) (k : A -> Script B) w t e :
  m w = (t, Thrown e) -> Script.bind m k w = (t, Thrown e).
Proof. intros H. unfold Script.bind. rewrite H. reflexivity. Qed.

Lemma independent_ret {A} (a : A) : worldIndependent (Script.ret a).
Proof. intros w1 w2; reflexivity. Qed.

Lemma independent_emit e : worldIndependent (Script.emit e).
Proof. intros w1 w2; reflexivity. Qed.

Lemma independent_bind {A B} (m : Script A) (k : A -> Script B) :
  worldIndependent m -> (forall a, worldIndependent (k a)) ->
  worldIndependent (Script.bind m k).
Proof.
  intros Hm Hk w1 w2. unfold Script.bind. rewrite (Hm w1 w2).
  destruct (m w2) as [t [a|code|e]]; try reflexivity.
  rewrite (Hk a w1 w2). reflexivity.
Qed.

Lemma independent_lift {A} (r : JsError + A) : worldIndependent (Script.lift r).
Proof. intros w1 w2; destruct r; reflexivity. Qed.

Lemma onlyPrints_ret {A} (a : A) : onlyPrints (Script.ret a).
Proof. intros w; split; [reflexivity | discriminate]. Qed.

Lemma onlyPrints_lift {A} (r : JsError + A) : onlyPrints (Script.lift r).
Proof. intros w; destruct r; (split; [reflexivity | discriminate]). Qed.

Lemma onlyPrints_console_log args : onlyPrints (Node.console_log args).
Proof. intros w; split; [reflexivity | discriminate]. Qed.

Lemma onlyPrints_bind {A B} (m : Script A) (k : A -> Script B) :
  onlyPrints m -> (forall a, onlyPrints (k a)) -> onlyPrints (Script.bind m k).
Proof.
  intros Hm Hk w. destruct (Hm w) as [Ht Ho].
  unfold Script.bind, Script.trace, Script.outcome in *.
  destruct (m w) as [t [a|code|e]]; cbn [fst snd] in *.
  - destruct (Hk a w) as [Ht' Ho'].
    unfold Script.trace, Script.outcome in *.
    destruct (k a w) as [t' o]; cbn [fst snd] in *.
    split; [rewrite forallb_app, Ht, Ht'; reflexivity | exact Ho'].
  - exfalso. exact (Ho code eq_refl).
  - split; [exact Ht | discriminate].
Qed.

End ScriptFacts.

(** ** The cross-post publisher *)

Section PublisherFacts.

Variable dirname : jsstring.
Variable path_join : list jsstring -> jsstring.
Variable matter : jsstring -> JsError + (JsValue * jsstring).
Variable JSON_stringify_2 : JsValue -> jsstring.

Local Abbreviation publish :=
  (publishToDevTo dirname path_join matter JSON_stringify_2).
Local Abbreviation pathOf := (postPath dirname path_join).

Ltac run_step :=
  first [ rewrite bind_getenv | rewrite bind_process_argv
        | rewrite bind_console_log | rewrite bind_console_error
        | rewrite bind_stderr_write | rewrite bind_emit
        | rewrite bind_existsSync | rewrite bind_fetch
        | rewrite bind_ret | rewrite bind_exit | rewrite bind_throw ];
  cbv beta iota.

Lemma publish_without_key slug w :
  truthyOpt (env w API_KEY) = false ->
  publish slug w =
  ([ ConsoleError
       [Text (CROSS_MARK ++
              lit " Error: DEVTO_API_KEY environment variable is required")];
     ConsoleLog
       [Text (lit "Get your API key from https://dev.to/settings/extensions")] ],
   Exited 1%Z).
Proof.
  intros H. unfold publishToDevTo. fold API_KEY. run_step.
  destruct (env w API_KEY) as [[|c k]|]; try discriminate;
    repeat run_step; reflexivity.
Qed.

Lemma publish_without_file slug w c k :
  env w API_KEY = Some (c :: k) ->
  files w (pathOf slug) = None ->
  publish slug w =
  ([ ExistsSync (pathOf slug);
     ConsoleError
       [Text (CROSS_MARK ++ lit " Error: Post not found at " ++ pathOf slug)] ],
   Exited 1%Z).
Proof.
  intros Hk Hf. unfold publishToDevTo. fold API_KEY. run_step.
  rewrite Hk. cbv beta iota. run_step. rewrite Hf. cbn [negb].
  repeat run_step. reflexivity.
Qed.

(** *** The parts that only print *)

Ltac only_prints :=
  repeat first
    [ apply onlyPrints_ret
    | apply onlyPrints_lift
    | apply onlyPrints_console_log
    | apply onlyPrints_bind
    | match goal with |- forall _, _ => intro end
    | progress cbv zeta ].

Lemma onlyPrints_notice frontmatter : onlyPrints (notice frontmatter).
Proof. unfold notice. only_prints. Qed.

Lemma onlyPrints_announce frontmatter content slug :
  onlyPrints (announce frontmatter content slug).
Proof. unfold announce. only_prints. Qed.

Ltac same_in_every_world :=
  repeat first
    [ apply independent_ret
    | apply independent_lift
    | apply independent_emit
    | apply independent_bind
    | match goal with |- forall _, _ => intro end
    | progress cbv zeta ].

Lemma independent_notice frontmatter : worldIndependent (notice frontmatter).
Proof. unfold notice, Node.console_log. same_in_every_world. Qed.

Lemma independent_announce frontmatter content slug :
  worldIndependent (announce frontmatter content slug).
Proof. unfold announce, Node.console_log. same_in_every_world. Qed.

(** What [announce] returns, when it returns. *)
Lemma announce_returned frontmatter content slug w logs canonicalText article :
  announce frontmatter content slug w = (logs, Returned (canonicalText, article)) ->
  exists canonical title draft tags description joined,
    get frontmatter (lit "canonicalUrl") = inr canonical /\
    get frontmatter (lit "title") = inr title /\
    get frontmatter (lit "draft") = inr draft /\
    andThen (get frontmatter (lit "tags")) slice_0_4 = inr tags /\
    get frontmatter (lit "description") = inr description /\
    join_comma tags = inr joined /\
    toString (orValue canonical (VString (SITE_URL ++ lit "/blog/" ++ slug)))
    = inr canonicalText /\
    article
    = VObject
        [ (lit "title", title);
          (lit "body_markdown", VString content);
          (lit "published", VBool (negb (truthyValue draft)));
          (lit "tags", tags);
          (lit "canonical_url",
           orValue canonical (VString (SITE_URL ++ lit "/blog/" ++ slug)));
          (lit "description", description) ].
Proof.
  unfold announce. intros H.
  repeat
    (first [ rewrite bind_lift in H | rewrite bind_console_log in H ];
     cbv beta zeta in H;
     try match type of H with
         | context [match ?r with inl _ => _ | inr _ => _ end] =>
             destruct r eqn:?;
             [unfold Script.after in H; cbn [fst snd app] in H; discriminate H|]
         end).
  unfold Script.after, Script.ret in H. cbn [fst snd app] in H.
  injection H as _ <- <-.
  do 6 eexists. repeat split; eassumption.
Qed.

(** *** A front matter of the shape of the schema *)

Lemma shaped_published frontmatter f :
  shaped frontmatter f ->
  exists published,
    crosspostPublished frontmatter = inr published /\
    truthyValue published = markedPublished f.
Proof.
  intros (props & -> & _ & _ & _ & _ & _ & Hx).
  unfold crosspostPublished, markedPublished, get.
  destruct (Frontmatter.crosspost f) as [crosspost|].
  - destruct Hx as (v & -> & cprops & -> & Hd). cbn [andThen getOptional].
    destruct (Crosspost.devTo crosspost) as [devTo|].
    + destruct Hd as (dv & -> & dprops & -> & Hp & _). cbn [getOptional].
      rewrite Hp. destruct (DevTo.published devTo) as [published|];
        eexists; split; reflexivity.
    + rewrite Hd. eexists; split; reflexivity.
  - rewrite Hx. eexists; split; reflexivity.
Qed.

Lemma shaped_url frontmatter f :
  shaped frontmatter f -> markedPublished f = true ->
  exists url, crosspostUrl frontmatter = inr url.
Proof.
  intros (props & -> & _ & _ & _ & _ & _ & Hx).
  unfold crosspostUrl, markedPublished, get.
  destruct (Frontmatter.crosspost f) as [crosspost|]; [|discriminate].
  destruct Hx as (v & -> & cprops & -> & Hd). cbn [andThen].
  destruct (Crosspost.devTo crosspost) as [devTo|]; [|discriminate].
  destruct Hd as (dv & -> & dprops & -> & _ & Hu). cbn [andThen].
  rewrite Hu. intros _.
  destruct (DevTo.url devTo); eexists; reflexivity.
Qed.

Lemma itemTexts_strings l : itemTexts (map VString l) = inr l.
Proof.
  induction l as [|s l IH]; [reflexivity|].
  cbn [map itemTexts toString andThen]. rewrite IH. reflexivity.
Qed.

(** On such a front matter [announce] prints its four lines and returns
    the article of the schema. *)
Lemma announce_shaped frontmatter f content slug w :
  shaped frontmatter f ->
  announce frontmatter content slug w =
  ([ ConsoleLog
       [Text (MEMO ++ lit " Publishing " ++ [34%N]
              ++ Frontmatter.title f ++ [34%N] ++ lit " to DEV.to...")];
     ConsoleLog [Text (lit "   Canonical URL: " ++ schemaCanonical f slug)];
     ConsoleLog
       [Text (lit "   Tags: " ++
              orElse (option_map (fun tags => join (lit ", ") (firstn 4 tags))
                                 (Frontmatter.tags f))
                     (lit "none"))];
     ConsoleLog
       [Text (lit "   Status: " ++
              (if negb (match Frontmatter.draft f with
                        | Some draft => draft
                        | None => false
                        end)
               then lit "Published" else lit "Draft"))] ],
   Returned (schemaCanonical f slug, schemaArticle f content slug)).
Proof.
  intros (props & -> & Ht & Hd & Htags & Hdraft & Hc & _).
  unfold announce, get, schemaArticle, schemaCanonical, SITE_URL.
  rewrite Ht, Hd, Htags, Hdraft, Hc.
  rewrite !bind_lift. cbv beta zeta.
  assert (Etags :
    forall tags,
      join_comma (VArray (map VString tags))
      = inr (VString (join (lit ", ") tags))).
  { intros tags. unfold join_comma. rewrite itemTexts_strings. reflexivity. }
  destruct (Frontmatter.tags f) as [tags|];
    destruct (Frontmatter.draft f) as [[|]|];
    destruct (Frontmatter.canonicalUrl f) as [[|u url]|];
    cbn [option_map andThen slice_0_4 orValue truthyValue truthy toString
         negb orElse];
    rewrite ?firstn_map, ?Etags;
    repeat (rewrite ?bind_lift, ?bind_console_log, ?bind_ret; cbv beta zeta iota);
    try (destruct (join (lit ", ") (firstn 4 tags)) as [|j js]);
    cbn [join_comma option_map andThen slice_0_4 orValue truthyValue truthy
         toString negb orElse];
    repeat (rewrite ?bind_lift, ?bind_console_log, ?bind_ret; cbv beta zeta iota);
    rewrite ?after_after; reflexivity.
Qed.

(** *** The run, case by case *)

(** The run once the post is read. *)
Lemma publish_reads slug w c k text :
  env w API_KEY = Some (c :: k) ->
  files w (pathOf slug) = Some text ->
  publish slug w =
  Script.after [ExistsSync (pathOf slug); ReadFileSync (pathOf slug)]
    (match matter text with
     | inl e => ([], Thrown e)
     | inr (frontmatter, content) =>
         match crosspostPublished frontmatter with
         | inl e => ([], Thrown e)
         | inr published =>
             if truthyValue published then notice frontmatter w
             else
               match announce frontmatter content slug w with
               | (logs, Returned (canonicalUrl, article)) =>
                   let init := requestInit (c :: k) article in
                   Script.after (logs ++ [Fetch DEVTO_API_URL init])
                     (Script.caught
                        (afterFetch JSON_stringify_2 canonicalUrl
                                    (network w DEVTO_API_URL init) w)
                        onError w)
               | (logs, Exited code) => (logs, Exited code)
               | (logs, Thrown e) => (logs, Thrown e)
               end
         end
     end).
Proof.
  intros Hk Hf. unfold publishToDevTo. fold API_KEY. run_step.
  rewrite Hk. cbv beta iota. run_step. rewrite Hf. cbn [negb].
  rewrite (bind_readFileSync _ _ _ _ Hf). cbv beta.
  rewrite after_after. cbn [app]. f_equal.
  rewrite bind_lift. destruct (matter text) as [e|[frontmatter content]];
    [reflexivity|].
  rewrite bind_lift. destruct (crosspostPublished frontmatter) as [e|published];
    [reflexivity|].
  destruct (truthyValue published); [reflexivity|].
  destruct (announce frontmatter content slug w)
    as [logs [[canonicalUrl article]|code|e]] eqn:Ha.
  - rewrite (bind_returned _ _ _ _ _ Ha). cbv zeta.
    unfold Script.tryCatch. rewrite bind_fetch, caught_after, after_after.
    reflexivity.
  - unfold Script.bind. rewrite Ha. reflexivity.
  - unfold Script.bind. rewrite Ha. reflexivity.
Qed.

(** Nothing after the response calls the network or touches a file. *)
Lemma afterFetch_quiet canonicalUrl response w :
  let rest := Script.caught
                (afterFetch JSON_stringify_2 canonicalUrl response w)
                onError w in
  networkCalls (Script.trace rest) = [] /\
  filter isFileAccess (Script.trace rest) = [].
Proof.
  unfold afterFetch, response_json, property.
  destruct response as [e|[|] [e|result]]; try (split; reflexivity).
  cbn [negb Script.lift]. rewrite bind_ret, bind_console_log, bind_lift.
  destruct (andThen (get result (lit "id")) toString) as [e|id];
    [split; reflexivity|].
  rewrite bind_console_log, bind_lift.
  destruct (andThen (get result (lit "url")) toString) as [e|url];
    split; reflexivity.
Qed.

(** A rejected request, or a response that is not [ok], ends the run
    with an error message and exit status 1. *)
Lemma afterFetch_failure canonicalUrl response w :
  match response with
  | Rejected _ | Response false _ => True
  | Response true _ => False
  end ->
  exists error,
    Script.caught (afterFetch JSON_stringify_2 canonicalUrl response w) onError w
    = ([ConsoleError [Text (CROSS_MARK ++ lit " Error publishing to DEV.to:");
                      Caught error]],
       Exited 1%Z).
Proof.
  destruct response as [e|[|] [e|v]]; intros H; try contradiction;
    eexists; reflexivity.
Qed.

Lemma afterFetch_any_world canonicalUrl response w1 w2 :
  Script.caught (afterFetch JSON_stringify_2 canonicalUrl response w1) onError w1
  = Script.caught (afterFetch JSON_stringify_2 canonicalUrl response w2) onError w2.
Proof.
  unfold afterFetch, response_json, property.
  destruct response as [e|[|] [e|result]]; try reflexivity.
  cbn [negb Script.lift]. rewrite !bind_ret, !bind_console_log, !bind_lift.
  destruct (andThen (get result (lit "id")) toString) as [e|id];
    [reflexivity|].
  rewrite !bind_console_log, !bind_lift.
  destruct (andThen (get result (lit "url")) toString) as [e|url];
    reflexivity.
Qed.

Lemma publishMain_run w :
  publishMain dirname path_join matter JSON_stringify_2 w =
  match nth_error (argv w) 2 with
  | None | Some [] =>
      ([ ConsoleError [Text (lit "Usage: npm run publish:devto <post-slug>")];
         ConsoleError [Text (lit "Example: npm run publish:devto hello-world")] ],
       Exited 1%Z)
  | Some slug => publish slug w
  end.
Proof.
  unfold publishMain. run_step.
  destruct (nth_error (argv w) 2) as [[|c slug]|]; reflexivity.
Qed.

Lemma in_networkCalls e trace :
  In e trace -> isNetworkCall e = true -> In e (networkCalls trace).
Proof. intros; apply filter_In; auto. Qed.

Lemma networkCalls_app t t' :
  networkCalls (t ++ t') = networkCalls t ++ networkCalls t'.
Proof. apply filter_app. Qed.

Lemma networkCalls_logs logs :
  forallb isConsoleLog logs = true -> networkCalls logs = [].
Proof.
  induction logs as [|e logs IH]; [reflexivity|].
  cbn [forallb]. intros H. apply andb_true_iff in H as [He H].
  destruct e; try discriminate He. cbn. apply IH, H.
Qed.

Lemma fileAccess_logs logs :
  forallb isConsoleLog logs = true -> filter isFileAccess logs = [].
Proof.
  induction logs as [|e logs IH]; [reflexivity|].
  cbn [forallb]. intros H. apply andb_true_iff in H as [He H].
  destruct e; try discriminate He. cbn. apply IH, H.
Qed.

(** Every run is of one of four kinds: it stops for want of the key; it
    stops for want of the file; it reads the file and ends, by a return
    or by an error thrown, having printed only; or it reads the file,
    prints, makes its request and handles the answer. *)
Lemma publish_cases slug w :
  (truthyOpt (env w API_KEY) = false /\
   publish slug w
   = ([ ConsoleError
          [Text (CROSS_MARK ++
                 lit " Error: DEVTO_API_KEY environment variable is required")];
        ConsoleLog
          [Text (lit "Get your API key from https://dev.to/settings/extensions")] ],
      Exited 1%Z)) \/
  (files w (pathOf slug) = None /\
   publish slug w
   = ([ ExistsSync (pathOf slug);
        ConsoleError
          [Text (CROSS_MARK ++ lit " Error: Post not found at " ++ pathOf slug)] ],
      Exited 1%Z)) \/
  (exists text logs outcome,
      files w (pathOf slug) = Some text /\
      forallb isConsoleLog logs = true /\
      (forall code, outcome <> Exited code) /\
      publish slug w
      = ([ExistsSync (pathOf slug); ReadFileSync (pathOf slug)] ++ logs,
         outcome)) \/
  (exists key text frontmatter content logs canonicalUrl article,
      env w API_KEY = Some key /\
      files w (pathOf slug) = Some text /\
      matter text = inr (frontmatter, content) /\
      announce frontmatter content slug w
      = (logs, Returned (canonicalUrl, article)) /\
      forallb isConsoleLog logs = true /\
      publish slug w
      = Script.after
          ([ExistsSync (pathOf slug); ReadFileSync (pathOf slug)] ++ logs
           ++ [Fetch DEVTO_API_URL (requestInit key article)])
          (Script.caught
             (afterFetch JSON_stringify_2 canonicalUrl
                (network w DEVTO_API_URL (requestInit key article)) w)
             onError w)).
Proof.
  destruct (env w API_KEY) as [[|c k]|] eqn:Hk;
    try (left; split; [reflexivity|];
         apply publish_without_key; rewrite Hk; reflexivity).
  right.
  destruct (files w (pathOf slug)) as [text|] eqn:Hf;
    [|left; split; [reflexivity|];
      exact (publish_without_file slug w c k Hk Hf)].
  right. rewrite (publish_reads slug w c k text Hk Hf).
  destruct (matter text) as [e|[frontmatter content]] eqn:Hm.
  { left. exists text, [], (Thrown e).
    repeat split; try reflexivity; discriminate. }
  destruct (crosspostPublished frontmatter) as [e|published].
  { left. exists text, [], (Thrown e).
    repeat split; try reflexivity; discriminate. }
  destruct (truthyValue published).
  { left. destruct (onlyPrints_notice frontmatter w) as [Ht Ho].
    exists text, (Script.trace (notice frontmatter w)),
      (Script.outcome (notice frontmatter w)).
    split; [reflexivity|]. split; [exact Ht|]. split; [exact Ho|].
    destruct (notice frontmatter w); reflexivity. }
  destruct (onlyPrints_announce frontmatter content slug w) as [Ht Ho].
  destruct (announce frontmatter content slug w)
    as [logs [[canonicalUrl article]|code|e]] eqn:Ha.
  - right. exists (c :: k), text, frontmatter, content, logs, canonicalUrl, article.
    cbv zeta. rewrite after_after.
    repeat split; try reflexivity; try exact Hm; try exact Ha. exact Ht.
  - exfalso. exact (Ho code eq_refl).
  - left. exists text, logs, (Thrown e).
    split; [reflexivity|]. split; [exact Ht|]. split; [discriminate|].
    unfold Script.after. cbn [fst snd]. reflexivity.
Qed.

Lemma get_getOptional value key x :
  get value key = inr x -> getOptional value key = x.
Proof.
  destruct value; simpl; intros H; try discriminate H;
    injection H as <-; reflexivity.
Qed.

Lemma inr_injective {A B} (x y : B) : @inr A B x = inr y -> x = y.
Proof. congruence. Qed.

Lemma lookup_head k v rest : lookup ((k, v) :: rest) k = Some v.
Proof. cbn [lookup]. rewrite eqb_refl. reflexivity. Qed.

Lemma jsonProps_drop k rest :
  filter (fun kv : jsstring * JsValue =>
            match snd kv with VUndefined => false | _ => true end)
         ((k, VUndefined) :: rest)
  = filter (fun kv : jsstring * JsValue =>
              match snd kv with VUndefined => false | _ => true end)
           rest.
Proof. reflexivity. Qed.

Lemma jsonProps_keep k items rest :
  filter (fun kv : jsstring * JsValue =>
            match snd kv with VUndefined => false | _ => true end)
         ((k, VArray items) :: rest)
  = (k, VArray items)
    :: filter (fun kv : jsstring * JsValue =>
                 match snd kv with VUndefined => false | _ => true end)
              rest.
Proof. reflexivity. Qed.

Lemma lookup_jsonProps_skip key k v rest :
  Js.eqb k key = false ->
  lookup (filter (fun kv : jsstring * JsValue =>
                    match snd kv with VUndefined => false | _ => true end)
                 ((k, v) :: rest)) key
  = lookup (filter (fun kv : jsstring * JsValue =>
                      match snd kv with VUndefined => false | _ => true end)
                   rest) key.
Proof.
  intros H. cbn [filter snd]. destruct v; cbn [lookup]; rewrite ?H; reflexivity.
Qed.

(** C2, as amended. A post whose front matter has
    [crosspost.devTo.published] true (or any other value that counts as
    true) is not submitted again: the run makes no network call at all.
    With the API key set it prints its note and returns normally whenever
    [crosspost.devTo.url] can be printed (a string, a number, nothing at
    all); when it cannot, the run ends with the error of the conversion,
    thrown after the first line of the note. *)
Theorem published_post_not_resubmitted
    slug w text frontmatter content crosspost devTo published url :
  files w (pathOf slug) = Some text ->
  matter text = inr (frontmatter, content) ->
  get frontmatter (lit "crosspost") = inr crosspost ->
  get crosspost (lit "devTo") = inr devTo ->
  get devTo (lit "published") = inr published ->
  truthyValue published = true ->
  get devTo (lit "url") = inr url ->
  networkCalls (Script.trace (publish slug w)) = [] /\
  (truthyOpt (env w API_KEY) = true ->
   match toString url with
   | inr text =>
       publish slug w =
       ([ ExistsSync (pathOf slug);
          ReadFileSync (pathOf slug);
          ConsoleLog
            [Text (WARNING_SIGN
                   ++ lit "  This post is already published to DEV.to")];
          ConsoleLog [Text (lit "   URL: " ++ text)];
          ConsoleLog
            [Text (lit "   To update, use the update command instead.")] ],
        Returned tt)
   | inl e =>
       publish slug w =
       ([ ExistsSync (pathOf slug);
          ReadFileSync (pathOf slug);
          ConsoleLog
            [Text (WARNING_SIGN
                   ++ lit "  This post is already published to DEV.to")] ],
        Thrown e)
   end).
Proof.
  intros Hf Hm Hc Hd Hp Ht Hu.
  assert (Eguard : crosspostPublished frontmatter = inr published).
  { unfold crosspostPublished. rewrite Hc. cbn [andThen].
    rewrite (get_getOptional _ _ _ Hd), (get_getOptional _ _ _ Hp).
    reflexivity. }
  assert (Eurl : crosspostUrl frontmatter = toString url).
  { unfold crosspostUrl. rewrite Hc. cbn [andThen]. rewrite Hd. cbn [andThen].
    rewrite Hu. reflexivity. }
  destruct (env w API_KEY) as [[|c k]|] eqn:Hk;
    try (rewrite publish_without_key by (rewrite Hk; reflexivity);
         split; [reflexivity | discriminate]).
  rewrite (publish_reads slug w c k text Hk Hf), Hm, Eguard, Ht.
  unfold notice. rewrite bind_console_log, bind_lift, Eurl.
  destruct (toString url) as [e|shown].
  - split; [reflexivity|]. intros _. reflexivity.
  - rewrite bind_console_log, bind_console_log.
    split; [reflexivity|]. intros _. reflexivity.
Qed.

(** C3. With no API key in the environment, the publisher prints an
    error and exits with a non-zero status before any network call and
    before any access to the post file; so does the whole script,
    whatever its arguments. *)
Theorem missing_api_key_fails_first slug w :
  truthyOpt (env w API_KEY) = false ->
  failsBeforeIO (publish slug w) = true /\
  failsBeforeIO (publishMain dirname path_join matter JSON_stringify_2 w) = true /\
  (exists message rest,
      Script.trace (publish slug w) = ConsoleError message :: rest) /\
  Script.outcome (publish slug w) = Exited 1%Z.
Proof.
  intros H.
  assert (E : forall slug, failsBeforeIO (publish slug w) = true)
    by (intros s; rewrite publish_without_key by exact H; reflexivity).
  split; [apply E|]. split.
  - rewrite publishMain_run.
    destruct (nth_error (argv w) 2) as [[|c s]|]; try reflexivity. apply E.
  - rewrite publish_without_key by exact H.
    split; [do 2 eexists|]; reflexivity.
Qed.

(** The network calls of a run on a front matter of the shape of the
    schema that reaches the request. *)
Lemma publish_submits_once slug w c k text frontmatter content f :
  env w API_KEY = Some (c :: k) ->
  files w (pathOf slug) = Some text ->
  matter text = inr (frontmatter, content) ->
  shaped frontmatter f ->
  markedPublished f = false ->
  publish slug w =
  Script.after
    ([ExistsSync (pathOf slug); ReadFileSync (pathOf slug)]
     ++ Script.trace (announce frontmatter content slug w)
     ++ [Fetch DEVTO_API_URL
           (requestInit (c :: k) (schemaArticle f content slug))])
    (Script.caught
       (afterFetch JSON_stringify_2 (schemaCanonical f slug)
          (network w DEVTO_API_URL
             (requestInit (c :: k) (schemaArticle f content slug))) w)
       onError w).
Proof.
  intros Hk Hf Hm Hs Hp.
  rewrite (publish_reads slug w c k text Hk Hf), Hm.
  destruct (shaped_published frontmatter f Hs) as (published & -> & ->).
  rewrite Hp, (announce_shaped frontmatter f content slug w Hs).
  cbv zeta. rewrite after_after. reflexivity.
Qed.

(** C4, as amended. For a post whose front matter has the shape of the
    schema and that is not already marked as cross-posted, and with the
    API key set, the publisher makes exactly one network call: a POST to
    the article API whose [article] object has the six fields below, in
    this order. *)
Theorem publish_posts_article_once slug w key text value content frontmatter :
  env w API_KEY = Some key ->
  key <> [] ->
  files w (pathOf slug) = Some text ->
  matter text = inr (value, content) ->
  shaped value frontmatter ->
  markedPublished frontmatter = false ->
  networkCalls (Script.trace (publish slug w)) =
  [ Fetch (lit "https://dev.to/api/articles")
      {| method := lit "POST";
         headers := [ (lit "Content-Type", lit "application/json");
                      (lit "api-key", key) ];
         body :=
           VObject
             [ (lit "article",
                VObject
                  [ (lit "title", VString (Frontmatter.title frontmatter));
                    (lit "body_markdown", VString content);
                    (lit "published",
                     VBool (negb (match Frontmatter.draft frontmatter with
                                  | Some draft => draft
                                  | None => false
                                  end)));
                    (lit "tags",
                     match Frontmatter.tags frontmatter with
                     | Some tags => VArray (map VString (firstn 4 tags))
                     | None => VUndefined
                     end);
                    (lit "canonical_url",
                     VString
                       (match Frontmatter.canonicalUrl frontmatter with
                        | Some (c :: url) => c :: url
                        | _ => lit "https://camarneiro.com" ++ lit "/blog/" ++ slug
                        end));
                    (lit "description",
                     VString (Frontmatter.description frontmatter)) ]) ] |} ].
Proof.
  intros Hk Hne Hf Hm Hs Hp.
  destruct key as [|c k]; [contradiction|].
  rewrite (publish_submits_once slug w c k text value content frontmatter
             Hk Hf Hm Hs Hp).
  destruct (onlyPrints_announce value content slug w) as [Hlogs _].
  unfold Script.after, Script.trace in *. cbn [fst].
  rewrite !networkCalls_app, (networkCalls_logs _ Hlogs).
  pose proof (afterFetch_quiet
                (schemaCanonical frontmatter slug)
                (network w DEVTO_API_URL
                   (requestInit (c :: k) (schemaArticle frontmatter content slug)))
                w) as [Hq _].
  cbv zeta in Hq. unfold Script.trace in Hq. rewrite Hq.
  unfold requestInit, schemaArticle, schemaCanonical, orElse, DEVTO_API_URL.
  destruct (Frontmatter.tags frontmatter);
    destruct (Frontmatter.canonicalUrl frontmatter) as [[|u url]|];
    reflexivity.
Qed.

(** C9. Every article that a run submits has at most four tags: a
    request is only made when the [tags] of the front matter are a list
    or are missing; in the JSON text the [tags] field holds the first
    four items of the list, and it is absent when the front matter has no
    tags. *)
Theorem submitted_article_has_at_most_four_tags slug w url init :
  In (Fetch url init) (Script.trace (publish slug w)) ->
  exists text frontmatter content article tags,
    files w (pathOf slug) = Some text /\
    matter text = inr (frontmatter, content) /\
    body init = VObject [ (lit "article", article) ] /\
    get frontmatter (lit "tags") = inr tags /\
    match tags with
    | VArray items =>
        lookup (jsonProps article) (lit "tags") = Some (VArray (firstn 4 items))
    | VUndefined | VNull =>
        lookup (jsonProps article) (lit "tags") = None
    | _ => False
    end /\
    forall items,
      lookup (jsonProps article) (lit "tags") = Some (VArray items) ->
      (List.length items <= 4)%nat.
Proof.
  intros Hin. apply in_networkCalls in Hin; [|reflexivity].
  destruct (publish_cases slug w)
    as [[_ E]|[[_ E]|[(text & logs & o & _ & Hlogs & _ & E)
       |(key & text & frontmatter & content & logs & canonicalUrl & article
         & _ & Hf & Hm & Ha & Hlogs & E)]]];
    rewrite E in Hin.
  1,2: contradiction.
  - unfold Script.trace in Hin. cbn [fst] in Hin.
    rewrite networkCalls_app, (networkCalls_logs _ Hlogs) in Hin.
    contradiction.
  - unfold Script.after, Script.trace in Hin. cbn [fst] in Hin.
    rewrite !networkCalls_app, (networkCalls_logs _ Hlogs) in Hin.
    pose proof (afterFetch_quiet canonicalUrl
                  (network w DEVTO_API_URL (requestInit key article)) w)
      as [Hq _].
    cbv zeta in Hq. unfold Script.trace in Hq. rewrite Hq in Hin.
    destruct Hin as [Ei|[]]. injection Ei as _ <-.
    apply announce_returned in Ha
      as (canonical & title & draft & sliced & description & joined
          & _ & _ & _ & Hs & _ & Hj & _ & ->).
    destruct (get frontmatter (lit "tags")) as [e|tags] eqn:Ht;
      [discriminate Hs|].
    cbn [andThen] in Hs.
    exists text, frontmatter, content,
      (VObject
         [ (lit "title", title);
           (lit "body_markdown", VString content);
           (lit "published", VBool (negb (truthyValue draft)));
           (lit "tags", sliced);
           (lit "canonical_url",
            orValue canonical (VString (SITE_URL ++ lit "/blog/" ++ slug)));
           (lit "description", description) ]),
      tags.
    split; [exact Hf|]. split; [exact Hm|]. split; [reflexivity|].
    split; [exact Ht|].
    unfold jsonProps.
    rewrite !lookup_jsonProps_skip by reflexivity.
    destruct tags; cbn [slice_0_4] in Hs; try discriminate Hs;
      apply inr_injective in Hs; subst sliced; try discriminate Hj.
    + rewrite !jsonProps_drop, !lookup_jsonProps_skip by reflexivity.
      split; [reflexivity|]. intros items H. discriminate H.
    + rewrite !jsonProps_drop, !lookup_jsonProps_skip by reflexivity.
      split; [reflexivity|]. intros items H. discriminate H.
    + rewrite !jsonProps_keep, !lookup_head.
      split; [reflexivity|]. intros items' H.
      assert (E' : items' = firstn 4 items) by congruence.
      rewrite E', length_firstn. apply Nat.le_min_l.
Qed.

End PublisherFacts.

(** *** The publisher on the sample posts *)

Lemma fresh_shaped : shaped Sample.freshFrontmatter Sample.fresh.
Proof. eexists. repeat split; reflexivity. Qed.

Lemma blank_shaped : shaped Sample.blankFrontmatter Sample.blank.
Proof. eexists. repeat split; reflexivity. Qed.

Lemma posted_shaped : shaped Sample.postedFrontmatter Sample.posted.
Proof.
  eexists. repeat split; try reflexivity.
  eexists. split; [reflexivity|].
  eexists. split; [reflexivity|].
  eexists. split; [reflexivity|].
  eexists. repeat split; reflexivity.
Qed.

Lemma published_post_not_resubmitted_witness :
  let w := Sample.world (Some (lit "secret"))
             [(Sample.postFile, lit "posted: hello")] Sample.created
             [Sample.slug] in
  let run := publishToDevTo Sample.dirname Sample.path_join Sample.matter
               Sample.JSON_stringify_2 Sample.slug w in
  let devTo :=
    VObject [ (lit "published", VBool true);
              (lit "id", VNumber (lit "7"));
              (lit "url", VString (lit "https://dev.to/ann/hello")) ] in
  (files w Sample.postFile = Some (lit "posted: hello") /\
   get devTo (lit "published") = inr (VBool true) /\
   truthyOpt (env w API_KEY) = true) /\
  networkCalls (Script.trace run) = [] /\
  Script.outcome run = Returned tt.
Proof.
  intros w run devTo. split; [repeat split|].
  destruct (published_post_not_resubmitted
              Sample.dirname Sample.path_join Sample.matter
              Sample.JSON_stringify_2
              Sample.slug w (lit "posted: hello")
              Sample.postedFrontmatter (lit "posted: hello")
              (VObject [(lit "devTo", devTo)]) devTo (VBool true)
              (VString (lit "https://dev.to/ann/hello"))
              eq_refl eq_refl eq_refl eq_refl eq_refl eq_refl eq_refl)
    as [Hnone Hends].
  split; [exact Hnone|].
  specialize (Hends eq_refl). cbn [toString] in Hends.
  unfold run. rewrite Hends. reflexivity.
Defined.

(** C2 as it is stated fails on a post that is marked as published and
    whose [crosspost.devTo.url] is a mapping with a key [toString], which
    no template literal can print: the run makes no request, but it does
    not return either; it prints the first line of its note and ends with
    a [TypeError]. *)
Lemma published_post_may_not_return_counterexample :
  let w := Sample.world (Some (lit "secret"))
             [(Sample.postFile, lit "odd: hello")] Sample.created
             [Sample.slug] in
  let run := publishToDevTo Sample.dirname Sample.path_join Sample.matter
               Sample.JSON_stringify_2 Sample.slug w in
  (files w Sample.postFile = Some (lit "odd: hello") /\
   Sample.matter (lit "odd: hello") = inr (Sample.oddFrontmatter, lit "odd: hello") /\
   crosspostPublished Sample.oddFrontmatter = inr (VBool true)) /\
  Script.outcome run <> Returned tt /\
  run = ([ ExistsSync Sample.postFile;
           ReadFileSync Sample.postFile;
           ConsoleLog
             [Text (WARNING_SIGN
                    ++ lit "  This post is already published to DEV.to")] ],
         Thrown (TypeError (lit "Cannot convert object to primitive value"))).
Proof.
  intros w run. split; [repeat split|].
  assert (E : run
              = ([ ExistsSync Sample.postFile;
                   ReadFileSync Sample.postFile;
                   ConsoleLog
                     [Text (WARNING_SIGN
                            ++ lit "  This post is already published to DEV.to")] ],
                 Thrown (TypeError
                           (lit "Cannot convert object to primitive value"))))
    by (vm_compute; reflexivity).
  split; [rewrite E; discriminate | exact E].
Qed.

Lemma missing_api_key_fails_first_witness :
  let w := Sample.world None [(Sample.postFile, lit "fresh: hello")]
             Sample.created [Sample.slug] in
  truthyOpt (env w API_KEY) = false /\
  failsBeforeIO (publishToDevTo Sample.dirname Sample.path_join Sample.matter
                   Sample.JSON_stringify_2 Sample.slug w) = true /\
  failsBeforeIO (publishMain Sample.dirname Sample.path_join Sample.matter
                   Sample.JSON_stringify_2 w) = true.
Proof.
  intros w. split; [reflexivity|].
  destruct (missing_api_key_fails_first
              Sample.dirname Sample.path_join Sample.matter
              Sample.JSON_stringify_2 Sample.slug w)
    as (H1 & H2 & _); [reflexivity|].
  split; assumption.
Defined.

(** C4 as it is stated fails in five ways.  On a post that is already
    marked as cross-posted the run makes no request, not one; nor does it
    make one when the API key is not set.  A [canonicalUrl] that is
    present but empty is replaced by the URL on the site.  And the script
    applies no schema to the front matter: with [tags: javascript], one
    string and not a list, it prints its first two lines and ends with a
    [TypeError] before any request; with no title, it posts an article
    that has no [title] field. *)
Lemma publish_posts_unless_published_counterexample :
  let publish := publishToDevTo Sample.dirname Sample.path_join Sample.matter
                   Sample.JSON_stringify_2 Sample.slug in
  let posted := Sample.world (Some (lit "secret"))
                  [(Sample.postFile, lit "posted: hello")] Sample.created
                  [Sample.slug] in
  let keyless := Sample.world None
                   [(Sample.postFile, lit "fresh: hello")] Sample.created
                   [Sample.slug] in
  let blank := Sample.world (Some (lit "secret"))
                 [(Sample.postFile, lit "blank: hello")] Sample.created
                 [Sample.slug] in
  let loose := Sample.world (Some (lit "secret"))
                 [(Sample.postFile, lit "loose: hello")] Sample.created
                 [Sample.slug] in
  let untitled := Sample.world (Some (lit "secret"))
                    [(Sample.postFile, lit "untitled: hello")] Sample.created
                    [Sample.slug] in
  (files posted Sample.postFile = Some (lit "posted: hello") /\
   List.length (networkCalls (Script.trace (publish posted))) <> 1%nat) /\
  (files keyless Sample.postFile = Some (lit "fresh: hello") /\
   List.length (networkCalls (Script.trace (publish keyless))) <> 1%nat) /\
  (get Sample.blankFrontmatter (lit "canonicalUrl") = inr (VString (lit "")) /\
   exists init article,
     networkCalls (Script.trace (publish blank)) = [Fetch DEVTO_API_URL init] /\
     body init = VObject [(lit "article", article)] /\
     lookup (jsonProps article) (lit "canonical_url")
     = Some (VString (lit "https://camarneiro.com/blog/hello"))) /\
  (get Sample.looseFrontmatter (lit "tags") = inr (VString (lit "javascript")) /\
   List.length (networkCalls (Script.trace (publish loose))) <> 1%nat /\
   List.length (Script.trace (publish loose)) = 4%nat /\
   Script.outcome (publish loose)
   = Thrown (TypeError (lit "article.tags?.join is not a function"))) /\
  (get Sample.untitledFrontmatter (lit "title") = inr VUndefined /\
   exists init article,
     networkCalls (Script.trace (publish untitled)) = [Fetch DEVTO_API_URL init] /\
     body init = VObject [(lit "article", article)] /\
     lookup (jsonProps article) (lit "title") = None /\
     List.length (jsonProps article) = 4%nat).
Proof.
  intros publish posted keyless blank loose untitled.
  split; [split; [reflexivity | vm_compute; discriminate]|].
  split; [split; [reflexivity | vm_compute; discriminate]|].
  split.
  { split; [reflexivity|].
    eexists. eexists. split; [vm_compute; reflexivity|].
    split; reflexivity. }
  split.
  { split; [reflexivity|]. split; [vm_compute; discriminate|].
    split; vm_compute; reflexivity. }
  split; [reflexivity|].
  eexists. eexists. split; [vm_compute; reflexivity|].
  split; [reflexivity|]. split; reflexivity.
Qed.

Lemma publish_posts_article_once_witness :
  let w := Sample.world (Some (lit "secret"))
             [(Sample.postFile, lit "fresh: hello")] Sample.refused
             [Sample.slug] in
  env w API_KEY = Some (lit "secret") /\
  files w Sample.postFile = Some (lit "fresh: hello") /\
  Sample.matter (lit "fresh: hello")
  = inr (Sample.freshFrontmatter, lit "fresh: hello") /\
  markedPublished Sample.fresh = false /\
  networkCalls
    (Script.trace
       (publishToDevTo Sample.dirname Sample.path_join Sample.matter
          Sample.JSON_stringify_2 Sample.slug w)) =
  [ Fetch (lit "https://dev.to/api/articles")
      {| method := lit "POST";
         headers := [ (lit "Content-Type", lit "application/json");
                      (lit "api-key", lit "secret") ];
         body :=
           VObject
             [ (lit "article",
                VObject
                  [ (lit "title", VString (lit "Hello"));
                    (lit "body_markdown", VString (lit "fresh: hello"));
                    (lit "published", VBool true);
                    (lit "tags",
                     VArray [VString (lit "a"); VString (lit "b");
                             VString (lit "c"); VString (lit "d")]);
                    (lit "canonical_url",
                     VString (lit "https://camarneiro.com/blog/hello"));
                    (lit "description", VString (lit "A first post")) ]) ] |} ].
Proof.
  intros w. split; [reflexivity|]. split; [reflexivity|]. split; [reflexivity|].
  split; [reflexivity|].
  apply (publish_posts_article_once
           Sample.dirname Sample.path_join Sample.matter Sample.JSON_stringify_2
           Sample.slug w (lit "secret") (lit "fresh: hello")
           Sample.freshFrontmatter (lit "fresh: hello") Sample.fresh);
    [ reflexivity | discriminate | reflexivity | reflexivity
    | exact fresh_shaped | reflexivity ].
Defined.

Lemma submitted_article_has_at_most_four_tags_witness :
  let w := Sample.world (Some (lit "secret"))
             [(Sample.postFile, lit "fresh: hello")] Sample.created
             [Sample.slug] in
  let init := requestInit (lit "secret")
                (schemaArticle Sample.fresh (lit "fresh: hello") Sample.slug) in
  In (Fetch DEVTO_API_URL init)
     (Script.trace
        (publishToDevTo Sample.dirname Sample.path_join Sample.matter
           Sample.JSON_stringify_2 Sample.slug w)) /\
  exists article,
    body init = VObject [ (lit "article", article) ] /\
    lookup (jsonProps article) (lit "tags")
    = Some (VArray (map VString [lit "a"; lit "b"; lit "c"; lit "d"])) /\
    forall items,
      lookup (jsonProps article) (lit "tags") = Some (VArray items) ->
      (List.length items <= 4)%nat.
Proof.
  intros w init.
  assert (H : In (Fetch DEVTO_API_URL init)
                 (Script.trace
                    (publishToDevTo Sample.dirname Sample.path_join Sample.matter
                       Sample.JSON_stringify_2 Sample.slug w)))
    by (vm_compute; do 6 right; left; reflexivity).
  split; [exact H|].
  destruct (submitted_article_has_at_most_four_tags
              Sample.dirname Sample.path_join Sample.matter
              Sample.JSON_stringify_2 Sample.slug w DEVTO_API_URL init H)
    as (text & frontmatter & content & article & tags & _ & _ & Hb & _ & _ & Hmax).
  exists article. split; [exact Hb|].
  assert (E : article = schemaArticle Sample.fresh (lit "fresh: hello") Sample.slug)
    by (unfold init, requestInit in Hb; cbn [body] in Hb; congruence).
  split; [rewrite E; reflexivity | exact Hmax].
Defined.
(** ** The LinkedIn export *)

Section LinkedInFacts.
Import LinkedIn.

Lemma truncateWithWarning_run text limit label w :
  truncateWithWarning text limit label w =
  (if (Z.of_nat (List.length text) <=? limit)%Z then []
   else warning text limit label,
   Returned text).
Proof.
  unfold truncateWithWarning.
  destruct (Z.of_nat (List.length text) <=? limit)%Z; reflexivity.
Qed.

Lemma experienceLoop_keeps toUpperCase entries :
  forall lines w,
  exists out,
    Script.outcome (experienceLoop toUpperCase entries lines w) = Returned out /\
    (forall line, In line lines -> In line out) /\
    (forall exp, In exp entries -> In (roleText exp) out).
Proof.
  induction entries as [|exp entries IH]; intros lines w.
  - exists lines. split; [reflexivity|]. split; [auto | contradiction].
  - cbn [experienceLoop]. unfold experienceLines.
    rewrite bind_assoc.
    erewrite bind_returned by apply truncateWithWarning_run.
    rewrite bind_ret.
    match goal with
    | |- context [experienceLoop _ entries ?ls w] =>
        destruct (IH ls w) as (out & Hout & Hlines & Hroles)
    end.
    exists out. split; [exact Hout|]. split.
    + intros line H. apply Hlines, in_or_app. left. exact H.
    + intros exp' [<-|H]; [|apply Hroles; exact H].
      apply Hlines, in_or_app. right. simpl. tauto.
Qed.


Lemma independent_truncateWithWarning text limit label :
  worldIndependent (truncateWithWarning text limit label).
Proof. intros w1 w2. rewrite !truncateWithWarning_run. reflexivity. Qed.

Lemma independent_experienceLoop toUpperCase entries :
  forall lines, worldIndependent (experienceLoop toUpperCase entries lines).
Proof.
  induction entries as [|exp entries IH]; intros lines.
  - apply independent_ret.
  - cbn [experienceLoop]. apply independent_bind; [|intros; apply IH].
    unfold experienceLines. apply independent_bind;
      [apply independent_truncateWithWarning | intros; apply independent_ret].
Qed.

Lemma independent_generateExperience toUpperCase cv :
  worldIndependent (generateExperience toUpperCase cv).
Proof.
  unfold generateExperience. apply independent_bind;
    [apply independent_experienceLoop | intros; apply independent_ret].
Qed.


End LinkedInFacts.

(** ** Failures of the entry points *)

Section EntryPointFacts.

Variable dirname : jsstring.
Variable path_join : list jsstring -> jsstring.
Variable path_resolve : jsstring -> jsstring.
Variable JSON_parse : jsstring -> JsError + CVData.t.
Variable toUpperCase : jsstring -> jsstring.
Variable toLowerCase : jsstring -> jsstring.
Variable renderPDF : jsstring -> jsstring -> Script unit.
Variable matter : jsstring -> JsError + (JsValue * jsstring).
Variable JSON_stringify_2 : JsValue -> jsstring.

Local Abbreviation cvPath := (CV_JSON_PATH dirname path_join).
Local Abbreviation markdown := (markdownMain dirname path_join JSON_parse).
Local Abbreviation linkedin :=
  (linkedinMain dirname path_join JSON_parse toUpperCase toLowerCase).
Local Abbreviation tailored := (tailoredMain path_resolve renderPDF).
Local Abbreviation publish :=
  (publishToDevTo dirname path_join matter JSON_stringify_2).
Local Abbreviation pathOf := (postPath dirname path_join).

Ltac run_step :=
  first [ rewrite bind_assoc
        | rewrite bind_getenv | rewrite bind_process_argv
        | rewrite bind_console_log | rewrite bind_console_error
        | rewrite bind_stderr_write | rewrite bind_emit
        | rewrite bind_existsSync | rewrite bind_fetch
        | rewrite bind_ret | rewrite bind_exit | rewrite bind_throw ];
  cbv beta iota.

Lemma markdownMain_without_cv w :
  files w cvPath = None ->
  markdown w =
  ([ ExistsSync cvPath;
     StderrWrite (lit "Error: CV JSON not found at " ++ cvPath ++ LF) ],
   Exited 1%Z).
Proof.
  intros H. unfold markdownMain. run_step. cbv zeta. run_step.
  rewrite H. cbn [negb]. repeat run_step. reflexivity.
Qed.

Lemma linkedinMain_without_cv w :
  files w cvPath = None ->
  linkedin w =
  ([ ExistsSync cvPath;
     ConsoleError [Text (lit "Error: CV JSON not found at"); Text cvPath] ],
   Exited 1%Z).
Proof.
  intros H. unfold linkedinMain. run_step. cbv zeta. run_step.
  rewrite H. cbn [negb]. repeat run_step. reflexivity.
Qed.

Lemma generatePDF_without_input inputPath outputPath w :
  files w inputPath = None ->
  generatePDF renderPDF inputPath outputPath w =
  ([ ConsoleLog [Text (PAGE_SIGN ++ lit " Generating tailored CV PDF...")];
     ConsoleLog [Text (lit "   Input: " ++ inputPath)];
     ExistsSync inputPath;
     ConsoleError
       [Text (ERROR_SIGN ++ lit " Error: File not found: " ++ inputPath)] ],
   Exited 1%Z).
Proof.
  intros H. unfold generatePDF. do 3 run_step.
  rewrite H. cbn [negb]. repeat run_step. reflexivity.
Qed.

Lemma tailoredMain_with_input w first rest :
  skipn 2 (argv w) = first :: rest ->
  exists outputPath,
    tailored w = generatePDF renderPDF (path_resolve first) outputPath w.
Proof.
  intros H. unfold tailoredMain. run_step. cbv zeta. rewrite H.
  eexists. reflexivity.
Qed.

(** C6. A missing input file (the CV JSON of either exporter, the post
    of the publisher, the Markdown file of the tailored PDF generator)
    and a response to the POST that is not a success each make the
    script print an error message and exit with a non-zero status. *)
Theorem missing_input_or_refusal_reports_failure (w : World) :
  (files w cvPath = None ->
   reportsFailure (markdown w) = true /\ reportsFailure (linkedin w) = true) /\
  (forall slug,
      files w (pathOf slug) = None -> reportsFailure (publish slug w) = true) /\
  (forall inputPath outputPath,
      files w inputPath = None ->
      reportsFailure (generatePDF renderPDF inputPath outputPath w) = true) /\
  (forall first rest,
      skipn 2 (argv w) = first :: rest ->
      files w (path_resolve first) = None ->
      reportsFailure (tailored w) = true) /\
  (forall slug url init json,
      In (Fetch url init) (Script.trace (publish slug w)) ->
      network w url init = Response false json ->
      reportsFailure (publish slug w) = true).
Proof.
  split; [|split; [|split; [|split]]].
  - intros H. rewrite markdownMain_without_cv, linkedinMain_without_cv by exact H.
    split; reflexivity.
  - intros slug H.
    destruct (env w API_KEY) as [[|c k]|] eqn:Hk.
    + rewrite publish_without_key by (rewrite Hk; reflexivity). reflexivity.
    + rewrite (publish_without_file _ _ _ _ slug w c k Hk H). reflexivity.
    + rewrite publish_without_key by (rewrite Hk; reflexivity). reflexivity.
  - intros inputPath outputPath H.
    rewrite generatePDF_without_input by exact H. reflexivity.
  - intros first rest Hargs H.
    destruct (tailoredMain_with_input w first rest Hargs) as [outputPath ->].
    rewrite generatePDF_without_input by exact H. reflexivity.
  - intros slug url init json Hin Hnet.
    apply in_networkCalls in Hin; [|reflexivity].
    destruct (publish_cases dirname path_join matter JSON_stringify_2 slug w)
      as [[_ E]|[[_ E]|[(text & logs & o & _ & Hlogs & _ & E)
         |(key & text & frontmatter & content & logs & canonicalUrl & article
           & _ & _ & _ & _ & Hlogs & E)]]];
      rewrite E in Hin |- *.
    1,2: contradiction.
    + unfold Script.trace in Hin. cbn [fst] in Hin.
      rewrite networkCalls_app, (networkCalls_logs _ Hlogs) in Hin.
      contradiction.
    + unfold Script.after, Script.trace in Hin. cbn [fst] in Hin.
      rewrite !networkCalls_app, (networkCalls_logs _ Hlogs) in Hin.
      pose proof (afterFetch_quiet JSON_stringify_2 canonicalUrl
                    (network w DEVTO_API_URL (requestInit key article)) w)
        as [Hq _].
      cbv zeta in Hq. unfold Script.trace in Hq. rewrite Hq in Hin.
      destruct Hin as [Ei|[]]. injection Ei as <- <-.
      rewrite Hnet.
      destruct (afterFetch_failure JSON_stringify_2 canonicalUrl
                  (Response false json) w I) as [error ->].
      unfold reportsFailure, Script.after, Script.trace, Script.outcome.
      cbn [fst snd]. rewrite !existsb_app. cbn [existsb isErrorMessage].
      rewrite !orb_true_r. reflexivity.
Qed.

(** *** Runs on the same document *)

Ltac independent :=
  repeat first
    [ apply independent_ret
    | apply independent_emit
    | apply independent_truncateWithWarning
    | apply independent_generateExperience
    | apply independent_bind
    | match goal with
      | |- worldIndependent (if ?b then _ else _) => destruct b
      | |- forall _, _ => intro
      end ].

Lemma independent_linkedinReport section cv :
  worldIndependent (linkedinReport toUpperCase section cv).
Proof.
  unfold linkedinReport, LinkedIn.generateHeadline, LinkedIn.generateAbout,
    Node.console_log.
  independent.
Qed.

Lemma markdownMain_run w text cv :
  files w cvPath = Some text -> JSON_parse text = inr cv ->
  markdown w =
  ([ ExistsSync cvPath;
     ReadFileSync cvPath;
     StdoutWrite
       (Markdown.exportToMarkdown cv
          (arrayIncludes (skipn 2 (argv w)) (lit "--include-hidden"))) ],
   Returned tt).
Proof.
  intros Hf Hp. unfold markdownMain. run_step. cbv zeta. run_step.
  rewrite Hf. cbn [negb]. repeat run_step.
  unfold readCV. run_step. rewrite (bind_readFileSync _ _ _ _ Hf).
  cbv beta. rewrite Hp. run_step. reflexivity.
Qed.

Lemma linkedinMain_run w text cv :
  files w cvPath = Some text -> JSON_parse text = inr cv ->
  linkedin w =
  Script.after [ExistsSync cvPath; ReadFileSync cvPath]
    (linkedinReport toUpperCase
       (option_map toLowerCase (nth_error (skipn 2 (argv w)) 0)) cv w).
Proof.
  intros Hf Hp. unfold linkedinMain. run_step. cbv zeta. run_step.
  rewrite Hf. cbn [negb]. repeat run_step.
  unfold readCV. run_step. rewrite (bind_readFileSync _ _ _ _ Hf).
  cbv beta. rewrite Hp. run_step. rewrite after_after. reflexivity.
Qed.

(** C7. Two runs of an exporter on the same CV document with the same
    options do the same and print the same text, whatever else differs
    between their worlds (other arguments, environment, other files,
    network, time zone, clock); the Markdown run prints the export of
    the document and nothing else, and [generateExperience] reads nothing
    of the world. *)
Theorem exporters_deterministic (w1 w2 : World) (text1 text2 : jsstring)
                                (cv : CVData.t) :
  files w1 cvPath = Some text1 -> JSON_parse text1 = inr cv ->
  files w2 cvPath = Some text2 -> JSON_parse text2 = inr cv ->
  (arrayIncludes (skipn 2 (argv w1)) (lit "--include-hidden")
   = arrayIncludes (skipn 2 (argv w2)) (lit "--include-hidden") ->
   markdown w1 = markdown w2 /\
   stdoutTexts (Script.trace (markdown w1))
   = [ Markdown.exportToMarkdown cv
         (arrayIncludes (skipn 2 (argv w1)) (lit "--include-hidden")) ]) /\
  (nth_error (skipn 2 (argv w1)) 0 = nth_error (skipn 2 (argv w2)) 0 ->
   linkedin w1 = linkedin w2 /\
   stdoutTexts (Script.trace (linkedin w1))
   = stdoutTexts (Script.trace (linkedin w2))) /\
  worldIndependent (LinkedIn.generateExperience toUpperCase cv).
Proof.
  intros Hf1 Hp1 Hf2 Hp2. split; [|split].
  - intros Hflag.
    rewrite (markdownMain_run w1 text1 cv Hf1 Hp1),
      (markdownMain_run w2 text2 cv Hf2 Hp2), Hflag.
    split; reflexivity.
  - intros Hsection.
    assert (E : linkedin w1 = linkedin w2).
    { rewrite (linkedinMain_run w1 text1 cv Hf1 Hp1),
        (linkedinMain_run w2 text2 cv Hf2 Hp2), Hsection.
      f_equal. apply independent_linkedinReport. }
    split; [exact E | rewrite E; reflexivity].
  - apply independent_generateExperience.
Qed.

End EntryPointFacts.

(** *** The entry points on the sample worlds *)

Lemma missing_input_or_refusal_reports_failure_witness :
  let publish := publishToDevTo Sample.dirname Sample.path_join Sample.matter
                   Sample.JSON_stringify_2 Sample.slug in
  let init := requestInit (lit "secret")
                (schemaArticle Sample.fresh (lit "fresh: hello") Sample.slug) in
  (files Sample.empty Sample.cvFile = None /\
   files Sample.empty Sample.postFile = None /\
   files Sample.empty (Sample.path_resolve (lit "cv.md")) = None /\
   skipn 2 (argv Sample.empty) = [lit "cv.md"]) /\
  (In (Fetch DEVTO_API_URL init) (Script.trace (publish Sample.refusing)) /\
   network Sample.refusing DEVTO_API_URL init = Sample.refused) /\
  reportsFailure
    (markdownMain Sample.dirname Sample.path_join Sample.JSON_parse Sample.empty)
  = true /\
  reportsFailure
    (linkedinMain Sample.dirname Sample.path_join Sample.JSON_parse
       Sample.toUpperCase Sample.toLowerCase Sample.empty)
  = true /\
  reportsFailure (publish Sample.empty) = true /\
  reportsFailure
    (generatePDF Sample.renderPDF (lit "/site/cv.md") (lit "/site/cv.pdf")
       Sample.empty)
  = true /\
  reportsFailure (tailoredMain Sample.path_resolve Sample.renderPDF Sample.empty)
  = true /\
  reportsFailure (publish Sample.refusing) = true.
Proof.
  intros publish init.
  assert (Hfetch : In (Fetch DEVTO_API_URL init)
                      (Script.trace (publish Sample.refusing)))
    by (vm_compute; do 6 right; left; reflexivity).
  split; [repeat split|]. split; [split; [exact Hfetch | reflexivity]|].
  destruct (missing_input_or_refusal_reports_failure
              Sample.dirname Sample.path_join Sample.path_resolve
              Sample.JSON_parse Sample.toUpperCase Sample.toLowerCase
              Sample.renderPDF Sample.matter Sample.JSON_stringify_2
              Sample.empty)
    as (Hcv & Hpost & Hpdf & Hmain & _).
  destruct (missing_input_or_refusal_reports_failure
              Sample.dirname Sample.path_join Sample.path_resolve
              Sample.JSON_parse Sample.toUpperCase Sample.toLowerCase
              Sample.renderPDF Sample.matter Sample.JSON_stringify_2
              Sample.refusing)
    as (_ & _ & _ & _ & Hrefused).
  destruct (Hcv eq_refl) as [Hmd Hli].
  split; [exact Hmd|]. split; [exact Hli|].
  split; [exact (Hpost Sample.slug eq_refl)|].
  split; [exact (Hpdf (lit "/site/cv.md") (lit "/site/cv.pdf") eq_refl)|].
  split; [exact (Hmain (lit "cv.md") [] eq_refl eq_refl)|].
  exact (Hrefused Sample.slug DEVTO_API_URL init
           (inr (VObject [ (lit "error", VString (lit "unauthorized")) ]))
           Hfetch eq_refl).
Defined.

Lemma exporters_deterministic_witness :
  let markdown := markdownMain Sample.dirname Sample.path_join Sample.JSON_parse in
  let linkedin := linkedinMain Sample.dirname Sample.path_join Sample.JSON_parse
                    Sample.toUpperCase Sample.toLowerCase in
  (files Sample.here Sample.cvFile = Some (lit "cv") /\
   files Sample.elsewhere Sample.cvFile = Some (lit "cv") /\
   Sample.JSON_parse (lit "cv") = inr Sample.cv /\
   env Sample.here API_KEY <> env Sample.elsewhere API_KEY /\
   timeZone Sample.here <> timeZone Sample.elsewhere) /\
  markdown Sample.here = markdown Sample.elsewhere /\
  stdoutTexts (Script.trace (markdown Sample.here))
  = [Markdown.exportToMarkdown Sample.cv true] /\
  linkedin Sample.here = linkedin Sample.elsewhere.
Proof.
  intros markdown linkedin.
  split; [repeat split; discriminate|].
  destruct (exporters_deterministic
              Sample.dirname Sample.path_join Sample.JSON_parse
              Sample.toUpperCase Sample.toLowerCase
              Sample.here Sample.elsewhere (lit "cv") (lit "cv") Sample.cv
              eq_refl eq_refl eq_refl eq_refl)
    as (Hmd & Hli & _).
  destruct (Hmd eq_refl) as [Hsame Hout].
  destruct (Hli eq_refl) as [Hsame' _].
  split; [exact Hsame|]. split; [exact Hout | exact Hsame'].
Defined.

(* ================================================================= *)
(** * Further properties of the scripts *)

(** ** The date formatter on any year and month *)

Section DateEdges.
Import Markdown.

(** X1. On a date written YYYY-MM, whatever its four and two digits, the
    formatter follows [Date]: a year from 0000 to 0099 is read as 1900 to
    1999, and a month that is not one of 01 to 12 carries into the year
    ("00" is December of the year before, "13" January of the year
    after). *)
Theorem formatDate_year_month_carries (y mm : N) :
  (y <= 9999)%N -> (mm <= 99)%N ->
  let year := if (y <=? 99)%N then (1900 + Z.of_N y)%Z else Z.of_N y in
  formatDate (Some (yearMonth y mm))
  = JsDate.monthShort ((Z.of_N mm - 1) mod 12)
    ++ lit " " ++ decimal (Z.to_N (year + (Z.of_N mm - 1) / 12)).
Proof.
  intros Hy Hm year. unfold yearMonth.
  change (lit "-" ++ padStart0 2 (decimal mm))
    with (45%N :: padStart0 2 (decimal mm)).
  rewrite formatDate_parts;
    try (apply padStart0_nonempty, decimal_nonempty);
    try (apply digits_without_hyphen, padStart0_digits, decimal_digits).
  rewrite !parseInt_padded. cbn [option_map]. unfold JsDate.make.
  replace (0 <=? Z.of_N y)%Z with true by (symmetry; apply Z.leb_le; lia).
  cbn [andb].
  assert (Hyear : (if (Z.of_N y <=? 99)%Z then (1900 + Z.of_N y)%Z else Z.of_N y)
                  = year).
  { subst year. destruct (Z.leb_spec (Z.of_N y) 99); destruct (N.leb_spec y 99);
      try reflexivity; lia. }
  rewrite Hyear.
  assert (Hrange : (100 <= year <= 9999)%Z).
  { subst year. destruct (N.leb_spec y 99); lia. }
  assert (Hdiv : (-1 <= (Z.of_N mm - 1) / 12 <= 8)%Z).
  { split; [apply Z.div_le_lower_bound; lia|].
    apply Z.lt_succ_r, Z.div_lt_upper_bound; lia. }
  pose proof (Z.mod_pos_bound (Z.of_N mm - 1) 12 ltac:(lia)) as Hmod.
  unfold JsDate.inRange.
  replace (_ <=? _)%Z with true by (symmetry; apply Z.leb_le; lia).
  replace (_ <=? _)%Z with true by (symmetry; apply Z.leb_le; lia).
  cbn [andb]. unfold JsDate.toLocaleDateString_en_US_short_numeric.
  replace (1 <=? _)%Z with true by (symmetry; apply Z.leb_le; lia).
  reflexivity.
Qed.

Lemma formatDate_year_month_carries_witness :
  (50 <= 9999)%N /\ (0 <= 99)%N /\
  formatDate (Some (lit "0050-00")) = lit "Dec 1949" /\
  formatDate (Some (lit "2023-25")) = lit "Jan 2025".
Proof.
  split; [lia|]. split; [lia|]. split.
  - exact (formatDate_year_month_carries 50 0 ltac:(lia) ltac:(lia)).
  - exact (formatDate_year_month_carries 2023 25 ltac:(lia) ltac:(lia)).
Defined.

(** X3. Only the first two parts of the date count: what follows a
    second "-" (a day, say) is ignored. *)
Theorem formatDate_ignores_the_day (year month rest : jsstring) :
  ~ In 45%N year -> ~ In 45%N month ->
  formatDate (Some (year ++ lit "-" ++ month ++ lit "-" ++ rest))
  = formatDate (Some (year ++ lit "-" ++ month)).
Proof.
  intros Hy Hm.
  change (lit "-") with [45%N]. cbn [app].
  rewrite !formatDate_nonempty
    by (destruct year; discriminate).
  rewrite (split_at_separator 45%N year (month ++ 45%N :: rest) Hy).
  rewrite (split_at_separator 45%N month rest Hm).
  rewrite (split_at_separator 45%N year month Hy).
  rewrite (split_without_separator 45%N month Hm).
  reflexivity.
Qed.

Lemma formatDate_ignores_the_day_witness :
  ~ In 45%N (lit "2023") /\ ~ In 45%N (lit "12") /\
  formatDate (Some (lit "2023-12-25T10:00")) = formatDate (Some (lit "2023-12")).
Proof.
  assert (Hy : ~ In 45%N (lit "2023"))
    by (simpl; intros [E|[E|[E|[E|[]]]]]; discriminate).
  assert (Hm : ~ In 45%N (lit "12"))
    by (simpl; intros [E|[E|[]]]; discriminate).
  split; [exact Hy|]. split; [exact Hm|].
  exact (formatDate_ignores_the_day (lit "2023") (lit "12") (lit "25T10:00") Hy Hm).
Defined.

Lemma formatDate_shape_witness :
  lit "soon-ish" <> [] /\
  (formatDate (Some (lit "soon-ish")) = nth 0 (Js.split 45%N (lit "soon-ish")) [] \/
   formatDate (Some (lit "soon-ish")) = lit "Invalid Date" \/
   exists y m,
     (99 <= y)%Z /\ (0 <= m <= 11)%Z /\
     formatDate (Some (lit "soon-ish"))
     = JsDate.monthShort m ++ lit " " ++ decimal (Z.to_N y)).
Proof.
  assert (H : lit "soon-ish" <> []) by discriminate.
  split; [exact H | exact (formatDate_shape (lit "soon-ish") H)].
Defined.

End DateEdges.

(** ** What the Markdown export keeps *)

Section MarkdownKeeps.
Import Markdown.

Ltac in_export := unfold exportLines; rewrite !in_app_iff; cbn [In]; tauto.

Lemma includes_nil (s : jsstring) : includes s [] = true.
Proof. apply includes_iff. exists [], s. reflexivity. Qed.

Lemma includes_truthy (o : option jsstring) (lines : list jsstring)
                      (prefix value : jsstring) :
  o = Some value ->
  (forall c v, value = c :: v -> In (prefix ++ value) lines) ->
  includes (join LF lines) value = true.
Proof.
  intros E H. destruct value as [|c v].
  - apply includes_nil.
  - eapply includes_line; [apply (H c v eq_refl)|].
    apply includes_app_r, includes_refl.
Qed.

(** X4. Whatever the flag, the Markdown text holds the name, the title,
    the location and the e-mail address of the person, the LinkedIn and
    GitHub handles that the document gives, and the summary. *)
Theorem markdown_keeps_header (cv : CVData.t) (includeHidden : bool) :
  let markdown := exportToMarkdown cv includeHidden in
  let personal := CVData.personal cv in
  includes markdown (Personal.name personal) = true /\
  includes markdown (Personal.title personal) = true /\
  includes markdown (Personal.location personal) = true /\
  includes markdown (Personal.email personal) = true /\
  (forall linkedin, Personal.linkedin personal = Some linkedin ->
                    includes markdown linkedin = true) /\
  (forall github, Personal.github personal = Some github ->
                  includes markdown github = true) /\
  includes markdown (CVData.summary cv) = true.
Proof.
  intros markdown personal. subst markdown personal. unfold exportToMarkdown.
  repeat split.
  - apply includes_line with (line := lit "# " ++ Personal.name (CVData.personal cv));
      [in_export | apply includes_app_r, includes_refl].
  - apply includes_line
      with (line := lit "**" ++ Personal.title (CVData.personal cv) ++ lit "**");
      [in_export | apply includes_app_r, includes_app_l, includes_refl].
  - apply includes_line
      with (line := Personal.location (CVData.personal cv) ++ lit " | "
                    ++ Personal.email (CVData.personal cv));
      [in_export | apply includes_app_l, includes_refl].
  - apply includes_line
      with (line := Personal.location (CVData.personal cv) ++ lit " | "
                    ++ Personal.email (CVData.personal cv));
      [in_export | apply includes_app_r, includes_app_r, includes_refl].
  - intros linkedin E.
    apply (includes_truthy _ _ (lit "LinkedIn: ") linkedin E).
    intros c v ->. unfold exportLines. rewrite E, !in_app_iff. cbn [In]. tauto.
  - intros github E.
    apply (includes_truthy _ _ (lit "GitHub: ") github E).
    intros c v ->. unfold exportLines. rewrite E, !in_app_iff. cbn [In]. tauto.
  - apply includes_line with (line := CVData.summary cv);
      [in_export | apply includes_refl].
Qed.

Lemma markdown_keeps_header_witness :
  Personal.linkedin (CVData.personal Sample.cv) = Some (lit "linkedin.com/in/ann") /\
  includes (exportToMarkdown Sample.cv false) (lit "Ann Lee") = true /\
  includes (exportToMarkdown Sample.cv false) (lit "linkedin.com/in/ann") = true /\
  includes (exportToMarkdown Sample.cv false) (lit "Engineer who ships.") = true.
Proof.
  destruct (markdown_keeps_header Sample.cv false)
    as (Hname & _ & _ & _ & Hlinkedin & _ & Hsummary).
  split; [reflexivity|]. split; [exact Hname|].
  split; [exact (Hlinkedin (lit "linkedin.com/in/ann") eq_refl) | exact Hsummary].
Defined.

(** X5. For every experience entry that the export takes as visible, the
    Markdown text also holds its location, its description, each of its
    skills, and its two dates as [formatDate] writes them. *)
Theorem markdown_keeps_experience_details
    (cv : CVData.t) (includeHidden : bool) (exp : Experience.t) :
  In exp (CVData.experience cv) ->
  isVisible (Experience.visibility exp) includeHidden = true ->
  let markdown := exportToMarkdown cv includeHidden in
  includes markdown (Experience.location exp) = true /\
  includes markdown (Experience.description exp) = true /\
  includes markdown (formatDate (Some (Experience.startDate exp))) = true /\
  includes markdown (formatDate (Experience.endDate exp)) = true /\
  forall skill, In skill (Experience.skills exp) ->
                includes markdown skill = true.
Proof.
  intros Hin Hvis markdown. subst markdown. unfold exportToMarkdown.
  assert (Hexp : In exp (visibleExperience cv includeHidden))
    by (apply filter_In; auto).
  assert (Hline : forall line, In line (experienceLines exp) ->
                               In line (exportLines cv includeHidden))
    by (intros line; apply experience_lines_exported; exact Hexp).
  assert (Hdates : In (lit "*" ++ Experience.location exp ++ lit " | "
                       ++ (formatDate (Some (Experience.startDate exp))
                           ++ lit " - " ++ formatDate (Experience.endDate exp))
                       ++ lit "*")
                      (experienceLines exp))
    by (unfold experienceLines; right; left; reflexivity).
  repeat split.
  - eapply includes_line; [apply Hline, Hdates|].
    apply includes_app_r, includes_app_l, includes_refl.
  - eapply includes_line; [apply Hline|apply includes_refl].
    unfold experienceLines. do 3 right. left. reflexivity.
  - eapply includes_line; [apply Hline, Hdates|].
    apply includes_app_r, includes_app_r, includes_app_r, includes_app_l,
      includes_app_l, includes_refl.
  - eapply includes_line; [apply Hline, Hdates|].
    apply includes_app_r, includes_app_r, includes_app_r, includes_app_l,
      includes_app_r, includes_app_r, includes_refl.
  - intros skill Hs.
    eapply includes_line;
      [apply Hline|apply includes_app_r, includes_join; exact Hs].
    unfold experienceLines.
    destruct (Experience.skills exp) as [|s rest] eqn:E; [contradiction|].
    rewrite !in_app_iff. cbn [In]. tauto.
Qed.

Lemma markdown_keeps_experience_details_witness :
  In Sample.lead (CVData.experience Sample.cv) /\
  isVisible (Experience.visibility Sample.lead) false = true /\
  includes (exportToMarkdown Sample.cv false) (lit "Porto") = true /\
  includes (exportToMarkdown Sample.cv false) (lit "Mar 2020") = true /\
  includes (exportToMarkdown Sample.cv false) (lit "TypeScript") = true.
Proof.
  destruct (markdown_keeps_experience_details Sample.cv false Sample.lead)
    as (Hloc & _ & Hstart & _ & Hskills);
    [left; reflexivity | reflexivity |].
  split; [left; reflexivity|]. split; [reflexivity|].
  split; [exact Hloc|]. split; [exact Hstart|].
  apply Hskills. right. left. reflexivity.
Defined.

(** X6. Whatever the flag, the Markdown text holds the name of every
    technical skill category and each of its skills, each soft skill, and
    the name and the proficiency of every language. *)
Theorem markdown_keeps_skills_and_languages (cv : CVData.t) (includeHidden : bool) :
  let markdown := exportToMarkdown cv includeHidden in
  (forall category,
      In category (Skills.technical (CVData.skills cv)) ->
      includes markdown (SkillCategory.category category) = true /\
      forall skill, In skill (SkillCategory.skills category) ->
                    includes markdown skill = true) /\
  (forall soft skill,
      Skills.soft (CVData.skills cv) = Some soft -> In skill soft ->
      includes markdown skill = true) /\
  (forall languages lang,
      CVData.languages cv = Some languages -> In lang languages ->
      includes markdown (Language.name lang) = true /\
      includes markdown (Language.proficiency lang) = true).
Proof.
  intros markdown. subst markdown. unfold exportToMarkdown. split; [|split].
  - intros category Hc.
    assert (Hline : In (lit "**" ++ SkillCategory.category category ++ lit ":** "
                        ++ join (lit ", ") (SkillCategory.skills category))
                       (exportLines cv includeHidden)).
    { assert (H : In (lit "**" ++ SkillCategory.category category ++ lit ":** "
                      ++ join (lit ", ") (SkillCategory.skills category))
                     (flat_map categoryLines (Skills.technical (CVData.skills cv))))
        by (apply in_flat_map; exists category; split; [exact Hc | left; reflexivity]).
      in_export. }
    split.
    + eapply includes_line; [exact Hline|].
      apply includes_app_r, includes_app_l, includes_refl.
    + intros skill Hs. eapply includes_line; [exact Hline|].
      apply includes_app_r, includes_app_r, includes_app_r, includes_join, Hs.
  - intros soft skill E Hs.
    apply includes_line
      with (line := lit "**Soft Skills:** " ++ join (lit ", ") soft);
      [|apply includes_app_r, includes_join, Hs].
    unfold exportLines. rewrite E.
    destruct soft as [|s rest]; [contradiction|].
    cbn [nonEmptyArray]. rewrite !in_app_iff. cbn [In]. tauto.
  - intros languages lang E Hl.
    assert (Hline : In (lit "- **" ++ Language.name lang ++ lit ":** "
                        ++ Language.proficiency lang)
                       (exportLines cv includeHidden)).
    { unfold exportLines. rewrite E.
      destruct languages as [|l rest]; [contradiction|].
      cbn [nonEmptyArray].
      pose proof (in_map (fun lang => lit "- **" ++ Language.name lang
                                      ++ lit ":** " ++ Language.proficiency lang)
                         _ _ Hl) as H.
      cbv beta in H. rewrite !in_app_iff. tauto. }
    split; (eapply includes_line; [exact Hline|]).
    + apply includes_app_r, includes_app_l, includes_refl.
    + apply includes_app_r, includes_app_r, includes_app_r, includes_refl.
Qed.

Lemma markdown_keeps_skills_and_languages_witness :
  Skills.soft (CVData.skills Sample.cv) = Some [lit "Mentoring"] /\
  includes (exportToMarkdown Sample.cv false) (lit "Frontend Engineering") = true /\
  includes (exportToMarkdown Sample.cv false) (lit "CSS") = true /\
  includes (exportToMarkdown Sample.cv false) (lit "Mentoring") = true /\
  includes (exportToMarkdown Sample.cv false) (lit "Fluent") = true.
Proof.
  destruct (markdown_keeps_skills_and_languages Sample.cv false)
    as (Htech & Hsoft & Hlang).
  destruct (Htech (SkillCategory.mk (lit "Frontend Engineering")
                     [lit "React"; lit "CSS"; lit "React"]))
    as [Hname Hskills]; [left; reflexivity|].
  destruct (Hlang [Language.mk (lit "English") (lit "Fluent")]
                  (Language.mk (lit "English") (lit "Fluent")) eq_refl)
    as [_ Hprof]; [left; reflexivity|].
  split; [reflexivity|]. split; [exact Hname|].
  split; [apply Hskills; right; left; reflexivity|].
  split; [apply (Hsoft [lit "Mentoring"]); [reflexivity | left; reflexivity]|].
  exact Hprof.
Defined.

Lemma education_lines_exported cv includeHidden edu line :
  In edu (visibleEducation cv includeHidden) ->
  In line (educationLines edu) ->
  In line (exportLines cv includeHidden).
Proof.
  intros Hedu Hline.
  assert (H : In line (flat_map educationLines
                         (visibleEducation cv includeHidden)))
    by (apply in_flat_map; exists edu; auto).
  in_export.
Qed.

(** X7. For every education entry that the export takes as visible, the
    Markdown text holds its degree, institution, location, start date, end
    date and description, when the document gives them. *)
Theorem markdown_keeps_visible_education
    (cv : CVData.t) (includeHidden : bool) (edu : Education.t) :
  In edu (CVData.education cv) ->
  isVisible (Education.visibility edu) includeHidden = true ->
  let markdown := exportToMarkdown cv includeHidden in
  includes markdown (Education.degree edu) = true /\
  includes markdown (Education.institution edu) = true /\
  includes markdown (Education.location edu) = true /\
  includes markdown (Education.startDate edu) = true /\
  (forall endDate, Education.endDate edu = Some endDate ->
                   includes markdown endDate = true) /\
  (forall description, Education.description edu = Some description ->
                       includes markdown description = true).
Proof.
  intros Hin Hvis markdown. subst markdown. unfold exportToMarkdown.
  assert (Hedu : In edu (visibleEducation cv includeHidden))
    by (apply filter_In; auto).
  assert (Hline : forall line, In line (educationLines edu) ->
                               In line (exportLines cv includeHidden))
    by (intros line; apply education_lines_exported; exact Hedu).
  assert (Hsecond : In (lit "*" ++ Education.institution edu ++ lit ", "
                        ++ Education.location edu ++ lit " | "
                        ++ (Education.startDate edu ++ lit " - "
                            ++ orElse (Education.endDate edu) (lit "Present"))
                        ++ lit "*")
                       (educationLines edu))
    by (unfold educationLines; right; left; reflexivity).
  repeat split.
  - eapply includes_line; [apply Hline; left; reflexivity|].
    apply includes_app_r, includes_refl.
  - eapply includes_line; [apply Hline, Hsecond|].
    apply includes_app_r, includes_app_l, includes_refl.
  - eapply includes_line; [apply Hline, Hsecond|].
    apply includes_app_r, includes_app_r, includes_app_r, includes_app_l,
      includes_refl.
  - eapply includes_line; [apply Hline, Hsecond|].
    apply includes_app_r, includes_app_r, includes_app_r, includes_app_r,
      includes_app_r, includes_app_l, includes_app_l, includes_refl.
  - intros endDate E. destruct endDate as [|c rest]; [apply includes_nil|].
    eapply includes_line; [apply Hline, Hsecond|]. rewrite E.
    apply includes_app_r, includes_app_r, includes_app_r, includes_app_r,
      includes_app_r, includes_app_l, includes_app_r, includes_app_r,
      includes_refl.
  - intros description E.
    destruct description as [|c rest]; [apply includes_nil|].
    eapply includes_line; [apply Hline|apply includes_refl].
    unfold educationLines. rewrite E, !in_app_iff. cbn [In]. tauto.
Qed.

Lemma markdown_keeps_visible_education_witness :
  In Sample.degree (CVData.education Sample.cv) /\
  isVisible (Education.visibility Sample.degree) false = true /\
  Education.description Sample.degree = Some (lit "Thesis on parsers") /\
  includes (exportToMarkdown Sample.cv false) (lit "MSc Computer Science") = true /\
  includes (exportToMarkdown Sample.cv false) (lit "IST") = true /\
  includes (exportToMarkdown Sample.cv false) (lit "Thesis on parsers") = true.
Proof.
  destruct (markdown_keeps_visible_education Sample.cv false Sample.degree)
    as (Hdegree & Hinst & _ & _ & _ & Hdesc);
    [left; reflexivity | reflexivity |].
  split; [left; reflexivity|]. split; [reflexivity|]. split; [reflexivity|].
  split; [exact Hdegree|]. split; [exact Hinst|].
  exact (Hdesc (lit "Thesis on parsers") eq_refl).
Defined.

Lemma project_lines_exported cv includeHidden projects proj line :
  CVData.projects cv = Some projects ->
  In proj (visibleProjects projects includeHidden) ->
  In line (projectLines proj) ->
  In line (exportLines cv includeHidden).
Proof.
  intros E Hproj Hline.
  assert (H : In line (projectsSection (CVData.projects cv) includeHidden)).
  { unfold projectsSection. rewrite E.
    destruct projects as [|p ps]; [contradiction|]. cbn [nonEmptyArray].
    destruct (visibleProjects (p :: ps) includeHidden) as [|v vs] eqn:Ev;
      [contradiction|].
    apply in_or_app. right. apply in_flat_map. exists proj. auto. }
  in_export.
Qed.

(** X8. For every project that the export takes as visible, the Markdown
    text holds its name, its description, its URL and GitHub address when
    the document gives them, each of its highlights and each of its
    technologies. *)
Theorem markdown_keeps_visible_projects
    (cv : CVData.t) (includeHidden : bool)
    (projects : list Project.t) (proj : Project.t) :
  CVData.projects cv = Some projects ->
  In proj projects ->
  isVisible (Project.visibility proj) includeHidden = true ->
  let markdown := exportToMarkdown cv includeHidden in
  includes markdown (Project.name proj) = true /\
  includes markdown (Project.description proj) = true /\
  (forall url, Project.url proj = Some url -> includes markdown url = true) /\
  (forall github, Project.github proj = Some github ->
                  includes markdown github = true) /\
  (forall highlight, In highlight (Project.highlights proj) ->
                     includes markdown highlight = true) /\
  (forall technology, In technology (Project.technologies proj) ->
                      includes markdown technology = true).
Proof.
  intros E Hin Hvis markdown. subst markdown. unfold exportToMarkdown.
  assert (Hproj : In proj (visibleProjects projects includeHidden))
    by (apply filter_In; auto).
  assert (Hline : forall line, In line (projectLines proj) ->
                               In line (exportLines cv includeHidden))
    by (intros line; apply (project_lines_exported _ _ projects proj); assumption).
  repeat split.
  - eapply includes_line; [apply Hline; left; reflexivity|].
    apply includes_app_r, includes_refl.
  - eapply includes_line; [apply Hline|apply includes_refl].
    unfold projectLines. do 2 right. left. reflexivity.
  - intros url Eu. destruct url as [|c rest]; [apply includes_nil|].
    eapply includes_line; [apply Hline|apply includes_app_r, includes_refl].
    unfold projectLines. rewrite Eu, !in_app_iff. cbn [In]. tauto.
  - intros github Eg. destruct github as [|c rest]; [apply includes_nil|].
    eapply includes_line; [apply Hline|apply includes_app_r, includes_refl].
    unfold projectLines. rewrite Eg, !in_app_iff. cbn [In]. tauto.
  - intros highlight Hh.
    apply includes_line with (line := lit "- " ++ highlight);
      [apply Hline|apply includes_app_r, includes_refl].
    unfold projectLines.
    destruct (Project.highlights proj) as [|h hs] eqn:Eh; [contradiction|].
    pose proof (in_map (fun highlight => lit "- " ++ highlight) _ _ Hh) as H.
    cbv beta in H. rewrite !in_app_iff. tauto.
  - intros technology Ht.
    eapply includes_line;
      [apply Hline|apply includes_app_r, includes_join; exact Ht].
    unfold projectLines.
    destruct (Project.technologies proj) as [|t ts] eqn:Et; [contradiction|].
    rewrite !in_app_iff. cbn [In]. tauto.
Qed.

Lemma markdown_keeps_visible_projects_witness :
  CVData.projects Sample.cv = Some [Sample.tool] /\
  In Sample.tool [Sample.tool] /\
  isVisible (Project.visibility Sample.tool) true = true /\
  includes (exportToMarkdown Sample.cv true) (lit "A small tool") = true /\
  includes (exportToMarkdown Sample.cv true) (lit "https://tool.example") = true /\
  includes (exportToMarkdown Sample.cv true) (lit "Fast") = true.
Proof.
  destruct (markdown_keeps_visible_projects Sample.cv true [Sample.tool] Sample.tool)
    as (_ & Hdesc & Hurl & _ & Hhigh & _);
    [reflexivity | left; reflexivity | reflexivity |].
  split; [reflexivity|]. split; [left; reflexivity|]. split; [reflexivity|].
  split; [exact Hdesc|].
  split; [exact (Hurl (lit "https://tool.example") eq_refl)|].
  apply Hhigh. left. reflexivity.
Defined.

(** X9. The include-hidden flag only adds to the export: every line of
    the export without the flag is a line of the export with it. *)
Theorem markdown_flag_only_adds (cv : CVData.t) (line : jsstring) :
  In line (exportLines cv false) -> In line (exportLines cv true).
Proof.
  assert (Hexp : In line (flat_map experienceLines (visibleExperience cv false)) ->
                 In line (flat_map experienceLines (visibleExperience cv true))).
  { rewrite !in_flat_map. intros (exp & H & Hl). exists exp. split; [|exact Hl].
    apply filter_In in H as [H _]. apply filter_In. auto. }
  assert (Hedu : In line (flat_map educationLines (visibleEducation cv false)) ->
                 In line (flat_map educationLines (visibleEducation cv true))).
  { rewrite !in_flat_map. intros (edu & H & Hl). exists edu. split; [|exact Hl].
    apply filter_In in H as [H _]. apply filter_In. auto. }
  assert (Hproj : In line (projectsSection (CVData.projects cv) false) ->
                  In line (projectsSection (CVData.projects cv) true)).
  { unfold projectsSection.
    destruct (nonEmptyArray (CVData.projects cv)) as [projects|]; [|auto].
    destruct (visibleProjects projects false) as [|v vs] eqn:Ev; [contradiction|].
    assert (Hsub : forall proj, In proj (visibleProjects projects false) ->
                                In proj (visibleProjects projects true)).
    { intros proj H. apply filter_In in H as [H _]. apply filter_In. auto. }
    rewrite Ev in Hsub.
    destruct (visibleProjects projects true) as [|v' vs'] eqn:Ev'.
    - destruct (Hsub v (or_introl eq_refl)).
    - rewrite !in_app_iff, !in_flat_map.
      intros [H|(proj & H & Hl)]; [left; exact H|].
      right. exists proj. split; [apply Hsub, H | exact Hl]. }
  unfold exportLines. rewrite !in_app_iff. tauto.
Qed.

Lemma markdown_flag_only_adds_witness :
  In (lit "### Lead Engineer at Acme") (exportLines Sample.cv false) /\
  In (lit "### Lead Engineer at Acme") (exportLines Sample.cv true).
Proof.
  assert (H : In (lit "### Lead Engineer at Acme") (exportLines Sample.cv false))
    by (vm_compute; do 12 right; left; reflexivity).
  split; [exact H | exact (markdown_flag_only_adds Sample.cv _ H)].
Defined.

End MarkdownKeeps.

(** ** The LinkedIn export: skills, hidden entries, sections *)

Section LinkedInMore.
Import LinkedIn.

(** The order of [sort], as a relation. *)
Local Abbreviation before := (fun a b : jsstring => leb a b = true).

Lemma leb_total (a b : jsstring) : leb a b = false -> leb b a = true.
Proof.
  revert b; induction a as [|x a IH]; intros [|y b]; simpl; try discriminate;
    try reflexivity.
  destruct (N.ltb_spec x y) as [Hxy|Hxy]; [discriminate|].
  destruct (N.ltb_spec y x) as [Hyx|Hyx]; [reflexivity|].
  apply IH.
Qed.

Lemma insertSorted_permutation s sorted :
  Permutation (insertSorted s sorted) (s :: sorted).
Proof.
  induction sorted as [|t rest IH]; simpl; [reflexivity|].
  destruct (leb s t); [reflexivity|].
  rewrite IH. apply perm_swap.
Qed.

Lemma sort_permutation xs : Permutation (sort xs) xs.
Proof.
  induction xs as [|x xs IH]; simpl; [reflexivity|].
  rewrite insertSorted_permutation. constructor. exact IH.
Qed.

Lemma insertSorted_sorted s sorted :
  Sorted before sorted -> Sorted before (insertSorted s sorted).
Proof.
  induction 1 as [|t rest Hrest IH Hhd]; simpl; [repeat constructor|].
  destruct (leb s t) eqn:E.
  - constructor; [constructor; assumption | constructor; exact E].
  - constructor; [exact IH|].
    apply leb_total in E.
    destruct rest as [|u rest]; simpl; [constructor; exact E|].
    destruct (leb s u); constructor; [exact E|].
    inversion Hhd; assumption.
Qed.

Lemma sort_sorted xs : Sorted before (sort xs).
Proof.
  induction xs as [|x xs IH]; simpl; [constructor | apply insertSorted_sorted, IH].
Qed.

Lemma leb_trans (a b c : jsstring) :
  leb a b = true -> leb b c = true -> leb a c = true.
Proof.
  revert b c; induction a as [|x a IH]; intros [|y b] [|z c]; simpl;
    try discriminate; try reflexivity.
  destruct (N.ltb_spec x y) as [Hxy|Hxy].
  - intros _.
    destruct (N.ltb_spec y z) as [Hyz|Hyz].
    + intros _. replace (x <? z)%N with true by (symmetry; apply N.ltb_lt; lia).
      reflexivity.
    + destruct (N.ltb_spec z y) as [Hzy|Hzy]; [discriminate|]. intros _.
      replace (x <? z)%N with true by (symmetry; apply N.ltb_lt; lia).
      reflexivity.
  - destruct (N.ltb_spec y x) as [Hyx|Hyx]; [discriminate|].
    intros Hab. assert (x = y) by lia. subst y.
    destruct (N.ltb_spec x z) as [Hxz|Hxz]; [reflexivity|].
    destruct (N.ltb_spec z x) as [Hzx|Hzx]; [discriminate|].
    apply IH. exact Hab.
Qed.

Lemma sort_strongly_sorted xs : StronglySorted before (sort xs).
Proof.
  apply Sorted_StronglySorted; [|apply sort_sorted].
  intros a b c. apply leb_trans.
Qed.

Lemma unique_spec xs :
  forall seen,
    NoDup (unique seen xs) /\
    forall s, In s (unique seen xs) <-> In s xs /\ ~ In s seen.
Proof.
  induction xs as [|x xs IH]; intros seen; simpl.
  - split; [constructor | tauto].
  - destruct (arrayIncludes seen x) eqn:E.
    + apply arrayIncludes_In in E. destruct (IH seen) as [Hnd Hin].
      split; [exact Hnd|]. intros s. rewrite Hin.
      split; [tauto|]. intros [[<-|H] Hs]; [contradiction | tauto].
    + assert (Hx : ~ In x seen)
        by (intros H; apply arrayIncludes_In in H; congruence).
      destruct (IH (x :: seen)) as [Hnd Hin]. split.
      * constructor; [|exact Hnd]. rewrite Hin. simpl. tauto.
      * intros s. simpl. rewrite Hin. simpl. split.
        -- intros [<-|[H Hs]]; tauto.
        -- intros [[<-|H] Hs]; [tauto|].
           destruct (list_eq_dec N.eq_dec x s) as [<-|Hne]; [tauto|]. tauto.
Qed.

(** X11. The skills that [generateSkills] lists are the skills of the
    technical categories, each once, in the order of [Array.prototype.sort]
    (code unit by code unit): each listed skill is before all the later
    ones, none is listed twice, and the list holds exactly the skills of
    the document. *)
Theorem generateSkills_sorted_unique_complete (cv : CVData.t) :
  let allSkills := flat_map SkillCategory.skills
                            (Skills.technical (CVData.skills cv)) in
  exists listed,
    generateSkills cv
    = join LF [ lit "SKILLS FOR LINKEDIN";
                Js.repeat DOUBLE_LINE 50;
                lit "Copy these to your LinkedIn Skills section:";
                [];
                join LF listed ] /\
    StronglySorted (fun a b => leb a b = true) listed /\
    NoDup listed /\
    forall skill, In skill listed <-> In skill allSkills.
Proof.
  intros allSkills. exists (sort (unique [] allSkills)).
  destruct (unique_spec allSkills []) as [Hnd Hin].
  split; [reflexivity|]. split; [apply sort_strongly_sorted|]. split.
  - eapply Permutation_NoDup; [symmetry; apply sort_permutation | exact Hnd].
  - intros skill.
    assert (Hu : In skill (unique [] allSkills) <-> In skill allSkills)
      by (rewrite Hin; simpl; tauto).
    rewrite <- Hu. split.
    + apply Permutation_in, sort_permutation.
    + apply Permutation_in. symmetry. apply sort_permutation.
Qed.

Lemma generateSkills_sorted_unique_complete_witness :
  exists listed,
    generateSkills Sample.cv
    = join LF [ lit "SKILLS FOR LINKEDIN";
                Js.repeat DOUBLE_LINE 50;
                lit "Copy these to your LinkedIn Skills section:";
                [];
                join LF listed ] /\
    NoDup listed /\
    (In (lit "React") listed <->
     In (lit "React") [lit "React"; lit "CSS"; lit "React"]).
Proof.
  destruct (generateSkills_sorted_unique_complete Sample.cv)
    as (listed & Htext & _ & Hnd & Hin).
  exists listed. split; [exact Htext|]. split; [exact Hnd|].
  exact (Hin (lit "React")).
Defined.

Lemma filter_twice {A} (f : A -> bool) (l : list A) :
  filter f (filter f l) = filter f l.
Proof.
  induction l as [|x l IH]; simpl; [reflexivity|].
  destruct (f x) eqn:E; simpl; rewrite ?E, IH; reflexivity.
Qed.

(** X12. The LinkedIn export has no include-hidden option: its
    experience and education texts are those of the document cut down to
    the entries with no visibility field or with ["all"] in their list, so
    that a hidden entry changes nothing of what is printed, warnings
    included. *)
Theorem linkedin_ignores_hidden_entries
    (toUpperCase : jsstring -> jsstring) (cv : CVData.t) (w : World) :
  generateExperience toUpperCase cv w
  = generateExperience toUpperCase (withoutHidden cv) w /\
  generateEducation cv = generateEducation (withoutHidden cv).
Proof.
  unfold generateExperience, generateEducation, withoutHidden.
  cbn [CVData.experience CVData.education].
  change (fun exp => isVisible (Experience.visibility exp))
    with (fun exp => shownByDefaultb (Experience.visibility exp)).
  change (fun edu => isVisible (Education.visibility edu))
    with (fun edu => shownByDefaultb (Education.visibility edu)).
  rewrite !filter_twice. split; reflexivity.
Qed.

(** X14. [generateHeadline] prints its warning exactly when the title of
    the person is longer than 146 code units: the rest of the headline
    takes 74 of the 220. *)
Theorem generateHeadline_warns_over_146 (cv : CVData.t) (w : World) :
  (Script.trace (generateHeadline cv w) = [] <->
   (List.length (Personal.title (CVData.personal cv)) <= 146)%nat) /\
  ((146 < List.length (Personal.title (CVData.personal cv)))%nat ->
   exists first second,
     Script.trace (generateHeadline cv w)
     = [ConsoleError [Text first]; ConsoleError [Text second]]).
Proof.
  unfold generateHeadline. rewrite truncateWithWarning_run.
  unfold headlineText, Script.trace. cbn [fst].
  rewrite length_app.
  change (List.length (lit " | React, Next.js, TypeScript | Building high-performance web applications"))
    with 74%nat.
  destruct (Z.leb_spec
              (Z.of_nat (List.length (Personal.title (CVData.personal cv)) + 74))
              220) as [H|H].
  - split; [split; [lia | reflexivity] | lia].
  - split; [split; [discriminate | lia]|].
    intros _. unfold warning. do 2 eexists. reflexivity.
Qed.

Lemma generateHeadline_warns_over_146_witness :
  (List.length (Personal.title (CVData.personal Sample.cv)) <= 146)%nat /\
  Script.trace (generateHeadline Sample.cv Sample.here) = [].
Proof.
  assert (H : (List.length (Personal.title (CVData.personal Sample.cv)) <= 146)%nat)
    by (vm_compute; lia).
  split; [exact H|].
  apply (generateHeadline_warns_over_146 Sample.cv Sample.here). exact H.
Defined.

Lemma experienceLoop_lines toUpperCase entries :
  forall lines w,
  exists out,
    Script.outcome (experienceLoop toUpperCase entries lines w) = Returned out /\
    (forall line, In line lines -> In line out) /\
    (forall exp, In exp entries ->
                 In (toUpperCase (Experience.title exp)) out /\
                 In (Experience.company exp ++ lit " " ++ BULLET ++ lit " "
                     ++ Experience.location exp) out).
Proof.
  induction entries as [|exp entries IH]; intros lines w.
  - exists lines. split; [reflexivity|]. split; [auto | contradiction].
  - cbn [experienceLoop]. unfold experienceLines.
    rewrite bind_assoc.
    erewrite bind_returned by apply truncateWithWarning_run.
    rewrite bind_ret.
    match goal with
    | |- context [experienceLoop _ entries ?ls w] =>
        destruct (IH ls w) as (out & Hout & Hlines & Hheads)
    end.
    exists out. split; [exact Hout|]. split.
    + intros line H. apply Hlines, in_or_app. left. exact H.
    + intros exp' [<-|H]; [|apply Hheads; exact H].
      split; apply Hlines, in_or_app; right; simpl; tauto.
Qed.

(** X15. For every experience entry with no visibility field or with
    ["all"] in its list, the LinkedIn experience text holds the title in
    upper case, the company, the location, the description, each
    achievement and each skill. *)
Theorem linkedin_keeps_visible_experience
    (toUpperCase : jsstring -> jsstring) (cv : CVData.t) (w : World)
    (exp : Experience.t) :
  In exp (CVData.experience cv) ->
  isVisible (Experience.visibility exp) = true ->
  exists text,
    Script.outcome (generateExperience toUpperCase cv w) = Returned text /\
    includes text (toUpperCase (Experience.title exp)) = true /\
    includes text (Experience.company exp) = true /\
    includes text (Experience.location exp) = true /\
    includes text (Experience.description exp) = true /\
    (forall achievement, In achievement (Experience.achievements exp) ->
                         includes text achievement = true) /\
    (forall skill, In skill (Experience.skills exp) ->
                   includes text skill = true).
Proof.
  intros Hin Hvis.
  assert (Hexp : In exp (filter (fun exp => isVisible (Experience.visibility exp))
                                (CVData.experience cv)))
    by (apply filter_In; auto).
  unfold generateExperience. cbv zeta.
  match goal with
  | |- context [experienceLoop _ ?es []] =>
      destruct (experienceLoop_keeps toUpperCase es [] w)
        as (lines & Hout & _ & Hroles);
      destruct (experienceLoop_lines toUpperCase es [] w)
        as (lines' & Hout' & _ & Hheads);
      destruct (experienceLoop toUpperCase es [] w) as [t o] eqn:Hrun
  end.
  unfold Script.outcome in Hout, Hout'. cbn [snd] in Hout, Hout'. subst o.
  assert (lines' = lines) by congruence. subst lines'.
  exists (join LF lines).
  split; [erewrite bind_returned by exact Hrun; reflexivity|].
  destruct (Hheads exp Hexp) as [Htitle Hcompany].
  pose proof (Hroles exp Hexp) as Hrole.
  assert (Hdesc : In (Experience.description exp)
                     ([Experience.description exp; []]
                      ++ (match Experience.achievements exp with
                          | [] => []
                          | achievements =>
                              [lit "Key Achievements:"]
                              ++ map (fun achievement =>
                                        BULLET ++ lit " " ++ achievement)
                                     achievements
                          end)
                      ++ (match Experience.skills exp with
                          | [] => []
                          | skills =>
                              [[]; lit "Technologies: " ++ join (lit ", ") skills]
                          end)))
    by (left; reflexivity).
  split; [apply includes_join, Htitle|].
  split; [eapply includes_line; [exact Hcompany|];
          apply includes_app_l, includes_refl|].
  split; [eapply includes_line; [exact Hcompany|];
          apply includes_app_r, includes_app_r, includes_app_r, includes_app_r,
            includes_refl|].
  split; [eapply includes_line; [exact Hrole|];
          unfold roleText; apply includes_join, Hdesc|].
  split.
  - intros achievement Ha.
    eapply includes_line; [exact Hrole|]. unfold roleText.
    apply includes_line with (line := BULLET ++ lit " " ++ achievement);
      [|apply includes_app_r, includes_app_r, includes_refl].
    destruct (Experience.achievements exp) as [|a rest] eqn:E; [contradiction|].
    pose proof (in_map (fun achievement => BULLET ++ lit " " ++ achievement)
                       _ _ Ha) as H.
    cbv beta in H. rewrite !in_app_iff. tauto.
  - intros skill Hs.
    eapply includes_line; [exact Hrole|]. unfold roleText.
    apply includes_line
      with (line := lit "Technologies: "
                    ++ join (lit ", ") (Experience.skills exp));
      [|apply includes_app_r, includes_join, Hs].
    destruct (Experience.skills exp) as [|s rest] eqn:E; [contradiction|].
    rewrite !in_app_iff. cbn [In]. tauto.
Qed.

Lemma linkedin_keeps_visible_experience_witness :
  In Sample.lead (CVData.experience Sample.cv) /\
  isVisible (Experience.visibility Sample.lead) = true /\
  exists text,
    Script.outcome (generateExperience Sample.toUpperCase Sample.cv Sample.here)
    = Returned text /\
    includes text (lit "LEAD ENGINEER") = true /\
    includes text (lit "Acme") = true.
Proof.
  destruct (linkedin_keeps_visible_experience
              Sample.toUpperCase Sample.cv Sample.here Sample.lead)
    as (text & Hrun & Htitle & Hcompany & _);
    [left; reflexivity | reflexivity |].
  split; [left; reflexivity|]. split; [reflexivity|].
  exists text. split; [exact Hrun|]. split; [exact Htitle | exact Hcompany].
Defined.

End LinkedInMore.

(** ** The exporters' entry points on odd inputs *)

Section ExporterEdges.

Variable dirname : jsstring.
Variable path_join : list jsstring -> jsstring.
Variable JSON_parse : jsstring -> JsError + CVData.t.
Variable toUpperCase : jsstring -> jsstring.
Variable toLowerCase : jsstring -> jsstring.

Local Abbreviation cvPath := (CV_JSON_PATH dirname path_join).
Local Abbreviation markdown := (markdownMain dirname path_join JSON_parse).
Local Abbreviation linkedin :=
  (linkedinMain dirname path_join JSON_parse toUpperCase toLowerCase).

Ltac run_step :=
  first [ rewrite bind_assoc
        | rewrite bind_getenv | rewrite bind_process_argv
        | rewrite bind_console_log | rewrite bind_console_error
        | rewrite bind_stderr_write | rewrite bind_emit
        | rewrite bind_existsSync | rewrite bind_fetch
        | rewrite bind_ret | rewrite bind_exit | rewrite bind_throw ];
  cbv beta iota.

(** X10. When the CV file is there but [JSON.parse] throws on its
    text, either exporter ends with that error uncaught, having printed
    nothing at all: no banner, no partial export, no message of its
    own. *)
Theorem exporters_on_unparsable_cv (w : World) (text : jsstring) (e : JsError) :
  files w cvPath = Some text ->
  JSON_parse text = inl e ->
  markdown w = ([ExistsSync cvPath; ReadFileSync cvPath], Thrown e) /\
  linkedin w = ([ExistsSync cvPath; ReadFileSync cvPath], Thrown e).
Proof.
  intros Hf Hp. split.
  - unfold markdownMain. run_step. cbv zeta. run_step.
    rewrite Hf. cbn [negb]. repeat run_step.
    unfold readCV. run_step. rewrite (bind_readFileSync _ _ _ _ Hf).
    cbv beta. rewrite Hp. run_step. reflexivity.
  - unfold linkedinMain. run_step. cbv zeta. run_step.
    rewrite Hf. cbn [negb]. repeat run_step.
    unfold readCV. run_step. rewrite (bind_readFileSync _ _ _ _ Hf).
    cbv beta. rewrite Hp. run_step. reflexivity.
Qed.

Lemma wanted_unknown (s : jsstring) (names : list string) :
  s <> [] -> ~ In s (map lit names) -> wanted (Some s) names = false.
Proof.
  intros Hne Hno. destruct s as [|c s]; [contradiction|]. cbn [wanted].
  apply not_true_is_false. intros H. apply existsb_exists in H as (n & Hn & E).
  apply eqb_eq in E. apply Hno. rewrite E. apply in_map. exact Hn.
Qed.

(** X13. A section name that is none of the six that the LinkedIn export
    knows is not reported: the run prints the banner and the closing tip,
    no section and no warning, and ends normally. *)
Theorem linkedin_unknown_section_prints_no_section
    (w : World) (text : jsstring) (cv : CVData.t) (first : jsstring) :
  files w cvPath = Some text ->
  JSON_parse text = inr cv ->
  nth_error (skipn 2 (argv w)) 0 = Some first ->
  toLowerCase first <> [] ->
  ~ In (toLowerCase first)
       (map lit ["headline"; "summary"; "about"; "experience"; "skills";
                 "education"]%string) ->
  linkedin w =
  ([ ExistsSync cvPath;
     ReadFileSync cvPath;
     ConsoleLog [Text BANNER_TOP];
     ConsoleLog [Text BANNER_MIDDLE];
     ConsoleLog [Text BANNER_BOTTOM];
     ConsoleLog [Text []];
     ConsoleLog [Text []];
     ConsoleLog [Text (Js.repeat LinkedIn.DOUBLE_LINE 50)];
     ConsoleLog [Text (LinkedIn.LIGHT_BULB ++ lit " Tip: Use specific sections with:")];
     ConsoleLog [Text (lit "   npm run cv:linkedin headline")];
     ConsoleLog [Text (lit "   npm run cv:linkedin about")];
     ConsoleLog [Text (lit "   npm run cv:linkedin experience")];
     ConsoleLog [Text (lit "   npm run cv:linkedin skills")];
     ConsoleLog [Text (lit "   npm run cv:linkedin education")] ],
   Returned tt).
Proof.
  intros Hf Hp Hfirst Hne Hno.
  rewrite (linkedinMain_run dirname path_join JSON_parse toUpperCase toLowerCase
             w text cv Hf Hp).
  rewrite Hfirst. cbn [option_map]. unfold linkedinReport.
  rewrite !(wanted_unknown (toLowerCase first)) by
    (try exact Hne; intros H; apply Hno; simpl in H |- *; tauto).
  repeat run_step. reflexivity.
Qed.

End ExporterEdges.

Lemma exporters_on_unparsable_cv_witness :
  let w := Sample.world None [(Sample.cvFile, lit "{")] Sample.created [] in
  files w Sample.cvFile = Some (lit "{") /\
  Sample.JSON_parse (lit "{") = inl (HostError (lit "Unexpected token")) /\
  Script.outcome (markdownMain Sample.dirname Sample.path_join Sample.JSON_parse w)
  = Thrown (HostError (lit "Unexpected token")) /\
  stdoutTexts
    (Script.trace
       (linkedinMain Sample.dirname Sample.path_join Sample.JSON_parse
          Sample.toUpperCase Sample.toLowerCase w)) = [].
Proof.
  intros w.
  destruct (exporters_on_unparsable_cv
              Sample.dirname Sample.path_join Sample.JSON_parse
              Sample.toUpperCase Sample.toLowerCase
              w (lit "{") (HostError (lit "Unexpected token")) eq_refl eq_refl)
    as [Hmd Hli].
  split; [reflexivity|]. split; [reflexivity|].
  split; [rewrite Hmd | rewrite Hli]; reflexivity.
Defined.

Lemma linkedin_unknown_section_prints_no_section_witness :
  let w := Sample.world None [(Sample.cvFile, lit "cv")] Sample.created
             [lit "Projects"] in
  (files w Sample.cvFile = Some (lit "cv") /\
   Sample.toLowerCase (lit "Projects") = lit "projects") /\
  List.length
    (Script.trace
       (linkedinMain Sample.dirname Sample.path_join Sample.JSON_parse
          Sample.toUpperCase Sample.toLowerCase w)) = 14%nat /\
  Script.outcome
    (linkedinMain Sample.dirname Sample.path_join Sample.JSON_parse
       Sample.toUpperCase Sample.toLowerCase w) = Returned tt.
Proof.
  intros w. split; [split; reflexivity|].
  rewrite (linkedin_unknown_section_prints_no_section
             Sample.dirname Sample.path_join Sample.JSON_parse
             Sample.toUpperCase Sample.toLowerCase
             w (lit "cv") Sample.cv (lit "Projects") eq_refl eq_refl eq_refl);
    [split; reflexivity | discriminate |].
  simpl. intros [E|[E|[E|[E|[E|[E|[]]]]]]]; discriminate.
Defined.

(** ** The publisher: what it asks of the network and of the files *)

Section PublisherMore.

Variable dirname : jsstring.
Variable path_join : list jsstring -> jsstring.
Variable matter : jsstring -> JsError + (JsValue * jsstring).
Variable JSON_stringify_2 : JsValue -> jsstring.

Local Abbreviation publish :=
  (publishToDevTo dirname path_join matter JSON_stringify_2).
Local Abbreviation pathOf := (postPath dirname path_join).
Local Abbreviation cases :=
  (publish_cases dirname path_join matter JSON_stringify_2).

(** X16. Whatever the world and whatever the front matter, a run of the
    publisher makes at most one network call, and that call is a POST to
    the article API that carries the API key of the environment in its
    [api-key] header: nothing is ever sent elsewhere. *)
Theorem publish_calls_only_the_article_api slug w :
  (List.length (networkCalls (Script.trace (publish slug w))) <= 1)%nat /\
  forall url init,
    In (Fetch url init) (Script.trace (publish slug w)) ->
    url = lit "https://dev.to/api/articles" /\
    method init = lit "POST" /\
    exists key,
      env w API_KEY = Some key /\
      headers init = [ (lit "Content-Type", lit "application/json");
                       (lit "api-key", key) ].
Proof.
  destruct (cases slug w)
    as [[_ E]|[[_ E]|[(text & logs & o & _ & Hlogs & _ & E)
       |(key & text & frontmatter & content & logs & canonicalUrl & article
         & Hk & _ & _ & _ & Hlogs & E)]]];
    rewrite E.
  1,2: split; [cbn; lia|]; intros url init H; simpl in H;
       repeat destruct H as [H|H]; try discriminate; contradiction.
  - assert (Hn : networkCalls
                   (Script.trace
                      ([ExistsSync (pathOf slug); ReadFileSync (pathOf slug)]
                       ++ logs, o)) = []).
    { unfold Script.trace. cbn [fst].
      rewrite networkCalls_app, (networkCalls_logs _ Hlogs). reflexivity. }
    split; [rewrite Hn; cbn; lia|].
    intros url init H. apply in_networkCalls in H; [|reflexivity].
    rewrite Hn in H. contradiction.
  - pose proof (afterFetch_quiet JSON_stringify_2 canonicalUrl
                  (network w DEVTO_API_URL (requestInit key article)) w)
      as [Hq _].
    cbv zeta in Hq. unfold Script.trace in Hq.
    assert (Hn : networkCalls
                   (Script.trace
                      (Script.after
                         ([ExistsSync (pathOf slug); ReadFileSync (pathOf slug)]
                          ++ logs
                          ++ [Fetch DEVTO_API_URL (requestInit key article)])
                         (Script.caught
                            (afterFetch JSON_stringify_2 canonicalUrl
                               (network w DEVTO_API_URL
                                  (requestInit key article)) w)
                            onError w)))
                 = [Fetch DEVTO_API_URL (requestInit key article)]).
    { unfold Script.after, Script.trace. cbn [fst].
      rewrite !networkCalls_app, (networkCalls_logs _ Hlogs), Hq.
      reflexivity. }
    split; [rewrite Hn; cbn; lia|].
    intros url init H. apply in_networkCalls in H; [|reflexivity].
    rewrite Hn in H. destruct H as [Ei|[]]. injection Ei as <- <-.
    split; [reflexivity|]. split; [reflexivity|].
    exists key. split; [exact Hk | reflexivity].
Qed.

(** X20. The only file that a run of the publisher touches is the post
    of the slug, which it reads only when it exists. *)
Theorem publish_touches_only_the_post slug w e :
  In e (Script.trace (publish slug w)) ->
  isFileAccess e = true ->
  e = ExistsSync (pathOf slug) \/
  (e = ReadFileSync (pathOf slug) /\ files w (pathOf slug) <> None).
Proof.
  intros Hin He.
  assert (Hi : In e (filter isFileAccess (Script.trace (publish slug w))))
    by (apply filter_In; auto).
  clear Hin.
  destruct (cases slug w)
    as [[_ E]|[[_ E]|[(text & logs & o & Hf & Hlogs & _ & E)
       |(key & text & frontmatter & content & logs & canonicalUrl & article
         & _ & Hf & _ & _ & Hlogs & E)]]];
    rewrite E in Hi.
  - contradiction.
  - destruct Hi as [<-|[]]. left. reflexivity.
  - unfold Script.trace in Hi. cbn [fst] in Hi.
    rewrite filter_app, (fileAccess_logs _ Hlogs) in Hi.
    destruct Hi as [<-|[<-|[]]]; [left; reflexivity|].
    right. split; [reflexivity | rewrite Hf; discriminate].
  - pose proof (afterFetch_quiet JSON_stringify_2 canonicalUrl
                  (network w DEVTO_API_URL (requestInit key article)) w)
      as [_ Hq].
    cbv zeta in Hq. unfold Script.trace in Hq.
    unfold Script.after, Script.trace in Hi. cbn [fst] in Hi.
    rewrite !filter_app, (fileAccess_logs _ Hlogs), Hq in Hi.
    destruct Hi as [<-|[<-|[]]]; [left; reflexivity|].
    right. split; [reflexivity | rewrite Hf; discriminate].
Qed.

(** X17. A run of the publisher returns normally only in two
    situations: the front matter marks the post as published already, or
    the request was made and the article API accepted it; the key is set
    and the post exists and can be parsed in both.  On a front matter of
    the shape of the schema these are the only conditions: the run
    returns normally exactly when the post is marked as published or the
    API accepts the article of the schema. *)
Theorem publish_succeeds_exactly_when slug w :
  (Script.outcome (publish slug w) = Returned tt ->
   exists key text frontmatter content,
     env w API_KEY = Some key /\ key <> [] /\
     files w (pathOf slug) = Some text /\
     matter text = inr (frontmatter, content) /\
     ((exists published,
          crosspostPublished frontmatter = inr published /\
          truthyValue published = true) \/
      (exists init,
          In (Fetch DEVTO_API_URL init) (Script.trace (publish slug w)) /\
          accepted (network w DEVTO_API_URL init) = true))) /\
  (forall key text value content frontmatter,
      env w API_KEY = Some key -> key <> [] ->
      files w (pathOf slug) = Some text ->
      matter text = inr (value, content) ->
      shaped value frontmatter ->
      (Script.outcome (publish slug w) = Returned tt <->
       markedPublished frontmatter = true \/
       accepted (network w DEVTO_API_URL
                   (requestInit key (schemaArticle frontmatter content slug)))
       = true)).
Proof.
  assert (Hafter : forall canonicalUrl answer,
             Script.outcome
               (Script.caught
                  (afterFetch JSON_stringify_2 canonicalUrl answer w) onError w)
             = if accepted answer then Returned tt else Exited 1%Z).
  { intros canonicalUrl answer. unfold afterFetch, response_json, property, accepted.
    destruct answer as [e|[|] [e|result]]; try reflexivity.
    cbn [negb Script.lift]. rewrite bind_ret, bind_console_log, bind_lift.
    unfold printable.
    destruct (get result (lit "id")) as [e|id]; [reflexivity|].
    cbn [andThen].
    destruct (toString id) as [e|idText];
      [destruct (get result (lit "url")); reflexivity|].
    rewrite bind_console_log, bind_lift.
    destruct (get result (lit "url")) as [e|url]; [reflexivity|].
    cbn [andThen]. destruct (toString url); reflexivity. }
  split.
  - destruct (env w API_KEY) as [[|c k]|] eqn:Hk;
      try (rewrite publish_without_key by (rewrite Hk; reflexivity);
           discriminate).
    destruct (files w (pathOf slug)) as [text|] eqn:Hf;
      [|rewrite (publish_without_file _ _ _ _ slug w c k Hk Hf); discriminate].
    rewrite (publish_reads _ _ _ _ slug w c k text Hk Hf).
    destruct (matter text) as [e|[frontmatter content]] eqn:Hm; [discriminate|].
    destruct (crosspostPublished frontmatter) as [e|published] eqn:Hp;
      [discriminate|].
    destruct (truthyValue published) eqn:Ht.
    + intros _. exists (c :: k), text, frontmatter, content.
      split; [reflexivity|]. split; [discriminate|]. split; [reflexivity|].
      split; [first [exact Hm | reflexivity]|].
      left. exists published. split; [exact Hp | exact Ht].
    + destruct (announce frontmatter content slug w)
        as [logs [[canonicalUrl article]|code|e]]; try discriminate.
      cbv zeta. unfold Script.outcome, Script.after. cbn [snd].
      fold (Script.outcome
              (Script.caught
                 (afterFetch JSON_stringify_2 canonicalUrl
                    (network w DEVTO_API_URL (requestInit (c :: k) article)) w)
                 onError w)).
      rewrite Hafter.
      destruct (accepted (network w DEVTO_API_URL
                            (requestInit (c :: k) article))) eqn:Ha;
        [|discriminate].
      intros _. exists (c :: k), text, frontmatter, content.
      split; [reflexivity|]. split; [discriminate|]. split; [reflexivity|].
      split; [first [exact Hm | reflexivity]|].
      right. exists (requestInit (c :: k) article). split; [|exact Ha].
      unfold Script.trace. cbn [fst].
      apply in_or_app. right. apply in_or_app. left.
      apply in_or_app. right. left. reflexivity.
  - intros key text value content frontmatter Hk Hne Hf Hm Hs.
    destruct key as [|c k]; [contradiction|].
    destruct (markedPublished frontmatter) eqn:Hp.
    + rewrite (publish_reads _ _ _ _ slug w c k text Hk Hf), Hm.
      destruct (shaped_published value frontmatter Hs) as (published & -> & ->).
      rewrite Hp.
      destruct (shaped_url value frontmatter Hs Hp) as [url Hu].
      unfold notice. rewrite bind_console_log, bind_lift, Hu.
      rewrite bind_console_log, bind_console_log.
      split; [intros _; left; reflexivity | intros _; reflexivity].
    + rewrite (publish_submits_once _ _ _ _ slug w c k text value content
                 frontmatter Hk Hf Hm Hs Hp).
      unfold Script.outcome, Script.after. cbn [snd].
      fold (Script.outcome
              (Script.caught
                 (afterFetch JSON_stringify_2 (schemaCanonical frontmatter slug)
                    (network w DEVTO_API_URL
                       (requestInit (c :: k)
                          (schemaArticle frontmatter content slug))) w)
                 onError w)).
      rewrite Hafter.
      destruct (accepted _).
      * split; [intros _; right; reflexivity | reflexivity].
      * split; [discriminate | intros [H|H]; discriminate H].
Qed.

(** X18. When a request is made and the article API answers [ok] with
    the body [null], the publisher first announces success and then
    fails: reading [result.id] throws inside the [try] block, so the error
    message follows, with the [TypeError] of the language, and the process
    exits with status 1. *)
Theorem publish_null_body_announces_success_then_fails slug w url init :
  In (Fetch url init) (Script.trace (publish slug w)) ->
  network w url init = Response true (inr VNull) ->
  exists before,
    Script.trace (publish slug w)
    = before ++
      [ Fetch url init;
        ConsoleLog [Text (CHECK_MARK ++ lit " Successfully published to DEV.to!")];
        ConsoleError
          [ Text (CROSS_MARK ++ lit " Error publishing to DEV.to:");
            Caught
              (TypeError
                 (lit "Cannot read properties of null (reading 'id')")) ] ] /\
    Script.outcome (publish slug w) = Exited 1%Z.
Proof.
  intros Hin Hnet. apply in_networkCalls in Hin; [|reflexivity].
  destruct (cases slug w)
    as [[_ E]|[[_ E]|[(text & logs & o & _ & Hlogs & _ & E)
       |(key & text & frontmatter & content & logs & canonicalUrl & article
         & _ & _ & _ & _ & Hlogs & E)]]];
    rewrite E in Hin |- *.
  1,2: contradiction.
  - unfold Script.trace in Hin. cbn [fst] in Hin.
    rewrite networkCalls_app, (networkCalls_logs _ Hlogs) in Hin.
    contradiction.
  - unfold Script.after, Script.trace in Hin. cbn [fst] in Hin.
    rewrite !networkCalls_app, (networkCalls_logs _ Hlogs) in Hin.
    pose proof (afterFetch_quiet JSON_stringify_2 canonicalUrl
                  (network w DEVTO_API_URL (requestInit key article)) w)
      as [Hq _].
    cbv zeta in Hq. unfold Script.trace in Hq. rewrite Hq in Hin.
    destruct Hin as [Ei|[]]. injection Ei as <- <-.
    rewrite Hnet.
    exists ([ExistsSync (pathOf slug); ReadFileSync (pathOf slug)] ++ logs).
    split; [|reflexivity].
    unfold Script.after, Script.trace. cbn [fst].
    rewrite <- !app_assoc. reflexivity.
Qed.

Lemma besidesNetwork_app t t' :
  besidesNetwork (t ++ t') = besidesNetwork t ++ besidesNetwork t'.
Proof. apply filter_app. Qed.

(** X19. The API key reaches nothing but the request.  Two runs on the
    same post whose keys differ, and to which the API answers alike,
    print the same lines, touch the same files and end alike. *)
Theorem publish_output_hides_the_key slug w1 w2 :
  truthyOpt (env w1 API_KEY) = true ->
  truthyOpt (env w2 API_KEY) = true ->
  files w1 (pathOf slug) = files w2 (pathOf slug) ->
  (forall key1 key2 content,
      network w1 DEVTO_API_URL (requestInit key1 content)
      = network w2 DEVTO_API_URL (requestInit key2 content)) ->
  besidesNetwork (Script.trace (publish slug w1))
  = besidesNetwork (Script.trace (publish slug w2)) /\
  Script.outcome (publish slug w1) = Script.outcome (publish slug w2).
Proof.
  intros H1 H2 Hf Hn.
  destruct (env w1 API_KEY) as [[|c1 k1]|] eqn:Hk1; try discriminate.
  destruct (env w2 API_KEY) as [[|c2 k2]|] eqn:Hk2; try discriminate.
  destruct (files w2 (pathOf slug)) as [text|] eqn:Hf2.
  2: { rewrite (publish_without_file _ _ _ _ slug w1 c1 k1 Hk1 Hf),
               (publish_without_file _ _ _ _ slug w2 c2 k2 Hk2 Hf2).
       split; reflexivity. }
  rewrite (publish_reads _ _ _ _ slug w1 c1 k1 text Hk1 Hf),
          (publish_reads _ _ _ _ slug w2 c2 k2 text Hk2 Hf2).
  destruct (matter text) as [e|[frontmatter content]]; [split; reflexivity|].
  destruct (crosspostPublished frontmatter) as [e|published];
    [split; reflexivity|].
  destruct (truthyValue published).
  - rewrite (independent_notice frontmatter w1 w2). split; reflexivity.
  - rewrite (independent_announce frontmatter content slug w1 w2).
    destruct (announce frontmatter content slug w2)
      as [logs [[canonicalUrl article]|code|e]]; try (split; reflexivity).
    cbv zeta.
    rewrite (Hn (c1 :: k1) (c2 :: k2)).
    rewrite (afterFetch_any_world JSON_stringify_2 _ _ w1 w2).
    unfold Script.after, Script.trace, Script.outcome. cbn [fst snd].
    rewrite !besidesNetwork_app. split; reflexivity.
Qed.

End PublisherMore.

Lemma publish_calls_only_the_article_api_witness :
  let init := requestInit (lit "secret")
                (schemaArticle Sample.fresh (lit "fresh: hello") Sample.slug) in
  let run := publishToDevTo Sample.dirname Sample.path_join Sample.matter
               Sample.JSON_stringify_2 Sample.slug Sample.refusing in
  In (Fetch DEVTO_API_URL init) (Script.trace run) /\
  exists key,
    env Sample.refusing API_KEY = Some key /\
    headers init = [ (lit "Content-Type", lit "application/json");
                     (lit "api-key", key) ].
Proof.
  intros init run.
  assert (H : In (Fetch DEVTO_API_URL init) (Script.trace run))
    by (vm_compute; do 6 right; left; reflexivity).
  split; [exact H|].
  destruct (publish_calls_only_the_article_api
              Sample.dirname Sample.path_join Sample.matter
              Sample.JSON_stringify_2 Sample.slug Sample.refusing)
    as [_ Hcall].
  destruct (Hcall DEVTO_API_URL init H) as (_ & _ & Hkey). exact Hkey.
Defined.

Lemma publish_touches_only_the_post_witness :
  let run := publishToDevTo Sample.dirname Sample.path_join Sample.matter
               Sample.JSON_stringify_2 Sample.slug Sample.refusing in
  In (ReadFileSync Sample.postFile) (Script.trace run) /\
  isFileAccess (ReadFileSync Sample.postFile) = true /\
  (ReadFileSync Sample.postFile = ExistsSync Sample.postFile \/
   (ReadFileSync Sample.postFile = ReadFileSync Sample.postFile /\
    files Sample.refusing Sample.postFile <> None)).
Proof.
  intros run.
  assert (H : In (ReadFileSync Sample.postFile) (Script.trace run))
    by (vm_compute; right; left; reflexivity).
  split; [exact H|]. split; [reflexivity|].
  exact (publish_touches_only_the_post
           Sample.dirname Sample.path_join Sample.matter Sample.JSON_stringify_2
           Sample.slug Sample.refusing _ H eq_refl).
Defined.

Lemma publish_succeeds_exactly_when_witness :
  let w := Sample.world (Some (lit "secret"))
             [(Sample.postFile, lit "fresh: hello")] Sample.created
             [Sample.slug] in
  (env w API_KEY = Some (lit "secret") /\
   files w Sample.postFile = Some (lit "fresh: hello") /\
   accepted Sample.created = true) /\
  Script.outcome
    (publishToDevTo Sample.dirname Sample.path_join Sample.matter
       Sample.JSON_stringify_2 Sample.slug w)
  = Returned tt.
Proof.
  intros w. split; [repeat split|].
  apply (proj2 (publish_succeeds_exactly_when
                  Sample.dirname Sample.path_join Sample.matter
                  Sample.JSON_stringify_2 Sample.slug w)
           (lit "secret") (lit "fresh: hello") Sample.freshFrontmatter
           (lit "fresh: hello") Sample.fresh
           eq_refl ltac:(discriminate) eq_refl eq_refl fresh_shaped).
  right. reflexivity.
Defined.

Lemma publish_null_body_announces_success_then_fails_witness :
  let w := Sample.world (Some (lit "secret"))
             [(Sample.postFile, lit "fresh: hello")]
             (Response true (inr VNull)) [Sample.slug] in
  let run := publishToDevTo Sample.dirname Sample.path_join Sample.matter
               Sample.JSON_stringify_2 Sample.slug w in
  let init := requestInit (lit "secret")
                (schemaArticle Sample.fresh (lit "fresh: hello") Sample.slug) in
  In (Fetch DEVTO_API_URL init) (Script.trace run) /\
  exists before,
    Script.trace run
    = before ++
      [ Fetch DEVTO_API_URL init;
        ConsoleLog [Text (CHECK_MARK ++ lit " Successfully published to DEV.to!")];
        ConsoleError
          [ Text (CROSS_MARK ++ lit " Error publishing to DEV.to:");
            Caught
              (TypeError
                 (lit "Cannot read properties of null (reading 'id')")) ] ] /\
    Script.outcome run = Exited 1%Z.
Proof.
  intros w run init.
  assert (H : In (Fetch DEVTO_API_URL init) (Script.trace run))
    by (vm_compute; do 6 right; left; reflexivity).
  split; [exact H|].
  exact (publish_null_body_announces_success_then_fails
           Sample.dirname Sample.path_join Sample.matter Sample.JSON_stringify_2
           Sample.slug w DEVTO_API_URL init H eq_refl).
Defined.

Lemma publish_output_hides_the_key_witness :
  let files := [(Sample.postFile, lit "fresh: hello")] in
  let w1 := Sample.world (Some (lit "secret")) files Sample.refused [Sample.slug] in
  let w2 := Sample.world (Some (lit "another")) files Sample.refused [] in
  let run := publishToDevTo Sample.dirname Sample.path_join Sample.matter
               Sample.JSON_stringify_2 Sample.slug in
  besidesNetwork (Script.trace (run w1)) = besidesNetwork (Script.trace (run w2)) /\
  Script.outcome (run w1) = Script.outcome (run w2).
Proof.
  intros files w1 w2 run.
  apply (publish_output_hides_the_key
           Sample.dirname Sample.path_join Sample.matter Sample.JSON_stringify_2
           Sample.slug w1 w2); reflexivity.
Defined.
(** ** The tailored PDF generator: where the PDF goes *)

Section TailoredMore.

Variable path_resolve : jsstring -> jsstring.
Variable renderPDF : jsstring -> jsstring -> Script unit.

Local Abbreviation tailored := (tailoredMain path_resolve renderPDF).

Lemma replaceMdSuffix_md stem :
  replaceMdSuffix (stem ++ lit ".md") = stem ++ lit ".pdf".
Proof.
  induction stem as [|c stem IH]; [reflexivity|].
  cbn [app replaceMdSuffix].
  destruct (Js.eqb (c :: stem ++ lit ".md") (lit ".md")) eqn:E.
  - apply eqb_eq in E. apply (f_equal (@List.length N)) in E.
    cbn [List.length] in E. rewrite length_app in E. cbn in E. lia.
  - rewrite IH. reflexivity.
Qed.

Lemma replaceMdSuffix_other path :
  (forall stem, path <> stem ++ lit ".md") -> replaceMdSuffix path = path.
Proof.
  induction path as [|c path IH]; intros H; [reflexivity|].
  cbn [replaceMdSuffix].
  destruct (Js.eqb (c :: path) (lit ".md")) eqn:E.
  - apply eqb_eq in E. exfalso. apply (H []). exact E.
  - rewrite IH; [reflexivity|].
    intros stem E'. apply (H (c :: stem)). rewrite E'. reflexivity.
Qed.

(** X21. The default name of the output replaces a final [.md] of the
    path, and only that: [.md] elsewhere in the path stays, and a path
    that does not end in [.md] (in lower case) is returned as it is. *)
Theorem replaceMdSuffix_only_at_the_end :
  (forall stem, replaceMdSuffix (stem ++ lit ".md") = stem ++ lit ".pdf") /\
  (forall path,
      (forall stem, path <> stem ++ lit ".md") -> replaceMdSuffix path = path).
Proof. split; [exact replaceMdSuffix_md | exact replaceMdSuffix_other]. Qed.

(** X22. With the Markdown file as its only argument, the tailored PDF
    generator writes next to the input, with [.pdf] for [.md]; when the
    resolved input path does not end in [.md], the output path is the
    input path itself, so the PDF is written over the input file. *)
Theorem tailored_single_argument w first :
  skipn 2 (argv w) = [first] ->
  (forall stem,
      path_resolve first = stem ++ lit ".md" ->
      tailored w
      = generatePDF renderPDF (stem ++ lit ".md") (stem ++ lit ".pdf") w) /\
  ((forall stem, path_resolve first <> stem ++ lit ".md") ->
   tailored w
   = generatePDF renderPDF (path_resolve first) (path_resolve first) w).
Proof.
  intros H.
  assert (E : tailored w
              = generatePDF renderPDF (path_resolve first)
                  (replaceMdSuffix (path_resolve first)) w).
  { unfold tailoredMain. rewrite bind_process_argv. cbv beta zeta.
    rewrite H. reflexivity. }
  split.
  - intros stem Hs. rewrite E, Hs, replaceMdSuffix_md. reflexivity.
  - intros Hs. rewrite E, replaceMdSuffix_other by exact Hs. reflexivity.
Qed.

(** A second argument names the output: the generator then writes
    the PDF there, whatever the name of the input.  An empty second
    argument counts as none. *)
Theorem tailored_second_argument w first second rest :
  skipn 2 (argv w) = first :: second :: rest ->
  tailored w
  = generatePDF renderPDF (path_resolve first)
      (if truthy second then path_resolve second
       else replaceMdSuffix (path_resolve first)) w.
Proof.
  intros H. unfold tailoredMain. rewrite bind_process_argv. cbv beta zeta.
  rewrite H. destruct second; reflexivity.
Qed.

End TailoredMore.

Lemma replaceMdSuffix_only_at_the_end_witness :
  replaceMdSuffix (lit "cv.md.MD") = lit "cv.md.MD".
Proof.
  apply replaceMdSuffix_only_at_the_end.
  intros stem E. apply (f_equal (@rev N)) in E. rewrite rev_app_distr in E.
  discriminate E.
Defined.

Lemma tailored_single_argument_witness :
  let w := Sample.world None [] Sample.created [lit "notes.txt"] in
  skipn 2 (argv w) = [lit "notes.txt"] /\
  tailoredMain Sample.path_resolve Sample.renderPDF w
  = generatePDF Sample.renderPDF (lit "/site/notes.txt") (lit "/site/notes.txt") w.
Proof.
  intros w. split; [reflexivity|].
  apply (tailored_single_argument Sample.path_resolve Sample.renderPDF w
           (lit "notes.txt") eq_refl).
  intros stem E. apply (f_equal (@rev N)) in E. rewrite rev_app_distr in E.
  discriminate E.
Defined.

Lemma tailored_second_argument_witness :
  let w := Sample.world None [] Sample.created [lit "cv.md"; lit "out.pdf"] in
  tailoredMain Sample.path_resolve Sample.renderPDF w
  = generatePDF Sample.renderPDF (lit "/site/cv.md") (lit "/site/out.pdf") w.
Proof.
  intros w.
  exact (tailored_second_argument Sample.path_resolve Sample.renderPDF w
           (lit "cv.md") (lit "out.pdf") [] eq_refl).
Defined.

(** ** Looking for the browser *)

Section BrowserFacts.
Import Node.

Lemma firstExisting_none candidates w :
  (forall q, In q candidates -> q <> [] -> present w q = false) ->
  Chrome.firstExisting candidates w
  = (map ExistsSync (filter truthy candidates), Returned None).
Proof.
  induction candidates as [|q rest IH]; intros H; [reflexivity|].
  assert (Hrest : forall q', In q' rest -> q' <> [] -> present w q' = false)
    by (intros q' Hq'; apply H; right; exact Hq').
  specialize (IH Hrest).
  cbn [Chrome.firstExisting filter].
  destruct q as [|c q]; cbn [truthy]; [exact IH|].
  rewrite bind_existsSync.
  assert (Hq : present w (c :: q) = false)
    by (apply H; [left; reflexivity | discriminate]).
  unfold present in Hq. rewrite Hq, IH. reflexivity.
Qed.

Lemma firstExisting_some before p after w :
  (forall q, In q before -> q <> [] -> present w q = false) ->
  p <> [] -> present w p = true ->
  Chrome.firstExisting (before ++ p :: after) w
  = (map ExistsSync (filter truthy before ++ [p]), Returned (Some p)).
Proof.
  intros H Hp Hw.
  induction before as [|q rest IH].
  - cbn [app Chrome.firstExisting filter].
    destruct p as [|c p]; [congruence|]. cbn [truthy].
    rewrite bind_existsSync. unfold present in Hw. rewrite Hw. reflexivity.
  - assert (Hrest : forall q', In q' rest -> q' <> [] -> present w q' = false)
      by (intros q' Hq'; apply H; right; exact Hq').
    specialize (IH Hrest).
    cbn [app Chrome.firstExisting filter].
    destruct q as [|c q]; cbn [truthy]; [exact IH|].
    rewrite bind_existsSync.
    assert (Hq : present w (c :: q) = false)
      by (apply H; [left; reflexivity | discriminate]).
    unfold present in Hq. rewrite Hq, IH. reflexivity.
Qed.

(** Either no candidate is present, or there is a first one. *)
Lemma candidates_split candidates w :
  (forall q, In q candidates -> q <> [] -> present w q = false) \/
  exists before p after,
    candidates = before ++ p :: after /\
    (forall q, In q before -> q <> [] -> present w q = false) /\
    p <> [] /\ present w p = true.
Proof.
  induction candidates as [|q rest IH].
  - left. intros q [].
  - destruct (truthy q && present w q) eqn:E.
    + right. exists [], q, rest. apply andb_true_iff in E as [Et Ep].
      split; [reflexivity|]. split; [intros q' []|].
      split; [destruct q; [discriminate Et | discriminate] | exact Ep].
    + destruct IH as [IH|(before & p & after & -> & Hb & Hp & Hw)].
      * left. intros q' [<-|Hq'] Hne; [|apply IH; assumption].
        destruct q; [congruence|]. exact E.
      * right. exists (q :: before), p, after.
        split; [reflexivity|]. split; [|split; assumption].
        intros q' [<-|Hq'] Hne; [|apply Hb; assumption].
        destruct q; [congruence|]. exact E.
Qed.

Section Search.

Variable paths : list (jsstring * list jsstring).
Variables command message platform : jsstring.
Variable execSync : jsstring -> JsError + jsstring.

Local Abbreviation candidates := (Chrome.platformPaths paths platform).
Local Abbreviation search :=
  (Chrome.search paths command message platform execSync).

Lemma search_first_existing before p after w :
  candidates = before ++ p :: after ->
  (forall q, In q before -> q <> [] -> present w q = false) ->
  p <> [] -> present w p = true ->
  search w = (map ExistsSync (filter truthy before ++ [p]), Returned p).
Proof.
  intros E Hb Hp Hw. unfold Chrome.search.
  erewrite bind_returned;
    [|rewrite E; apply firstExisting_some; assumption].
  unfold Script.after, Script.ret. cbn [fst snd]. rewrite app_nil_r.
  reflexivity.
Qed.

Lemma search_no_candidate w :
  (forall q, In q candidates -> q <> [] -> present w q = false) ->
  search w
  = (map ExistsSync (filter truthy candidates),
     if Js.eqb platform (lit "win32") then Thrown (Error message)
     else match execSync command with
          | inr output =>
              match trim output with
              | [] => Thrown (Error message)
              | result => Returned result
              end
          | inl _ => Thrown (Error message)
          end).
Proof.
  intros H. unfold Chrome.search.
  erewrite bind_returned; [|apply firstExisting_none; exact H].
  cbv zeta. unfold Script.after.
  destruct (Js.eqb platform (lit "win32")).
  - cbn. rewrite app_nil_r. reflexivity.
  - destruct (execSync command) as [e|output].
    + cbn. rewrite app_nil_r. reflexivity.
    + destruct (trim output); cbn; rewrite app_nil_r; reflexivity.
Qed.

Lemma search_sound w p :
  Script.outcome (search w) = Returned p ->
  p <> [] /\
  ((In p candidates /\ present w p = true) \/
   (platform <> lit "win32" /\
    exists output, execSync command = inr output /\ trim output = p)).
Proof.
  destruct (candidates_split candidates w)
    as [H|(before & q & after & E & Hb & Hq & Hw)].
  - rewrite (search_no_candidate w H). unfold Script.outcome. cbn [snd].
    destruct (Js.eqb platform (lit "win32")) eqn:Ew; [discriminate|].
    destruct (execSync command) as [e|output]; [discriminate|].
    destruct (trim output) as [|c r] eqn:Et; [discriminate|].
    intros [= <-]. split; [discriminate|]. right. split.
    + intros ->. rewrite eqb_refl in Ew. discriminate.
    + exists output. split; [reflexivity | exact Et].
  - rewrite (search_first_existing before q after w E Hb Hq Hw).
    intros [= <-]. split; [exact Hq|]. left. split; [|exact Hw].
    rewrite E. apply in_or_app. right. left. reflexivity.
Qed.

Lemma search_throws w e :
  Script.outcome (search w) = Thrown e <->
  e = Error message /\
  (forall q, In q candidates -> q <> [] -> present w q = false) /\
  whichFindsNothing command platform execSync.
Proof.
  unfold whichFindsNothing.
  destruct (candidates_split candidates w)
    as [H|(before & q & after & E & Hb & Hq & Hw)].
  - rewrite (search_no_candidate w H). unfold Script.outcome. cbn [snd].
    destruct (Js.eqb platform (lit "win32")) eqn:Ew.
    + apply eqb_eq in Ew. split.
      * intros [= <-]. auto.
      * intros (-> & _). reflexivity.
    + assert (Hne : platform <> lit "win32")
        by (intros ->; rewrite eqb_refl in Ew; discriminate).
      destruct (execSync command) as [e'|output].
      * split; [intros [= <-]; eauto 6 | intros (-> & _); reflexivity].
      * destruct (trim output) as [|c r] eqn:Et.
        -- split; [intros [= <-]; eauto 8 | intros (-> & _); reflexivity].
        -- split; [discriminate|].
           intros (_ & _ & [Hp|[(e' & He)|(o & Ho & Htrim)]]);
             [contradiction | discriminate|].
           injection Ho as <-. congruence.
  - rewrite (search_first_existing before q after w E Hb Hq Hw).
    split; [discriminate|]. intros (_ & H & _).
    rewrite (H q) in Hw; [discriminate | | exact Hq].
    rewrite E. apply in_or_app. right. left. reflexivity.
Qed.

End Search.

End BrowserFacts.

Section FindChromePath.
Import Node.

Variable platform : jsstring.
Variable execSync : jsstring -> JsError + jsstring.

Local Abbreviation tailoredCandidates :=
  (Chrome.platformPaths TailoredPdf.paths platform).
Local Abbreviation pageCandidates w :=
  (Chrome.platformPaths (GeneratePdf.paths (env w (lit "LOCALAPPDATA"))) platform).
Local Abbreviation tailoredWhich := (lit "which google-chrome || which chromium").
Local Abbreviation pageWhich :=
  (lit "which google-chrome || which chromium || which chromium-browser").

Ltac nonempty_candidate H :=
  repeat destruct H as [<-|H]; try contradiction;
  intros E; apply (f_equal (@List.length N)) in E;
  rewrite ?length_app in E; cbn in E; lia.

Lemma tailored_candidates_nonempty q : In q tailoredCandidates -> q <> [].
Proof.
  unfold TailoredPdf.paths. cbn [Chrome.platformPaths].
  destruct (Js.eqb (lit "darwin") platform); [intros H; nonempty_candidate H|].
  destruct (Js.eqb (lit "linux") platform); [intros H; nonempty_candidate H|].
  destruct (Js.eqb (lit "win32") platform); [intros H; nonempty_candidate H|].
  intros [].
Qed.

Lemma page_candidates_nonempty w q : In q (pageCandidates w) -> q <> [].
Proof.
  unfold GeneratePdf.paths. cbn [Chrome.platformPaths].
  destruct (Js.eqb (lit "darwin") platform); [intros H; nonempty_candidate H|].
  destruct (Js.eqb (lit "linux") platform); [intros H; nonempty_candidate H|].
  destruct (Js.eqb (lit "win32") platform); [intros H; nonempty_candidate H|].
  intros [].
Qed.

Lemma filter_truthy_nonempty l :
  (forall q, In q l -> q <> []) -> filter truthy l = l.
Proof.
  induction l as [|q l IH]; intros H; [reflexivity|].
  cbn [filter]. destruct q as [|c q].
  - exfalso. apply (H []); [left|]; reflexivity.
  - cbn [truthy]. rewrite IH; [reflexivity|].
    intros q' Hq'. apply H. right. exact Hq'.
Qed.

(** X23. A path that [findChromePath] returns, in either script, is
    never empty, and it is the value of [CHROME_PATH], or a path of the
    table of the platform that exists, or the trimmed output of the
    [which] command on a platform other than Windows. *)
Theorem findChromePath_returns_a_found_browser w p :
  (Script.outcome (TailoredPdf.findChromePath platform execSync w) = Returned p ->
   foundBy tailoredCandidates tailoredWhich platform execSync w p) /\
  (Script.outcome (GeneratePdf.findChromePath platform execSync w) = Returned p ->
   foundBy (pageCandidates w) pageWhich platform execSync w p).
Proof.
  unfold foundBy, TailoredPdf.findChromePath, GeneratePdf.findChromePath.
  rewrite !bind_getenv.
  destruct (env w (lit "CHROME_PATH")) as [[|c k]|] eqn:Hc.
  2: { split; intros [= <-]; (split; [discriminate | left; reflexivity]). }
  all: rewrite bind_getenv; split; intros H; apply search_sound in H;
    destruct H as [Hp H]; (split; [exact Hp | right; exact H]).
Qed.

(** X24. Without [CHROME_PATH], the paths of the table of the platform
    are probed in the order of the table, and the first one that exists
    is returned: nothing after it is probed, and the [which] command has
    no say. *)
Theorem findChromePath_takes_the_first_present_candidate w before p after :
  truthyOpt (env w (lit "CHROME_PATH")) = false ->
  (forall q, In q before -> present w q = false) ->
  present w p = true ->
  (tailoredCandidates = before ++ p :: after ->
   TailoredPdf.findChromePath platform execSync w
   = (map ExistsSync (before ++ [p]), Returned p)) /\
  (pageCandidates w = before ++ p :: after ->
   GeneratePdf.findChromePath platform execSync w
   = (map ExistsSync (before ++ [p]), Returned p)).
Proof.
  intros Hc Hb Hp.
  unfold TailoredPdf.findChromePath, GeneratePdf.findChromePath.
  rewrite !bind_getenv.
  destruct (env w (lit "CHROME_PATH")) as [[|c k]|]; try discriminate Hc.
  all: rewrite bind_getenv; split; intros E.
  all: assert (Hne : forall q, In q (before ++ p :: after) -> q <> [])
         by (rewrite <- E;
             first [apply tailored_candidates_nonempty
                   | apply page_candidates_nonempty]).
  all: rewrite (search_first_existing _ _ _ _ _ before p after w E);
         [ rewrite filter_truthy_nonempty; [reflexivity|];
           intros q Hq; apply Hne, in_or_app; left; exact Hq
         | intros q Hq _; apply Hb; exact Hq
         | apply Hne, in_or_app; right; left; reflexivity
         | exact Hp ].
Qed.

(** X25. [findChromePath] throws exactly when nothing is found:
    [CHROME_PATH] is unset or empty, no path of the table of the platform
    exists, and the [which] command is not run (on Windows), fails, or
    prints nothing but white space.  The error is the one of the script,
    and the process is never left from here. *)
Theorem findChromePath_throws_exactly_when_nothing_is_found w e :
  (Script.outcome (TailoredPdf.findChromePath platform execSync w) = Thrown e <->
   e = Error (lit "Chrome not found. Set CHROME_PATH environment variable.") /\
   truthyOpt (env w (lit "CHROME_PATH")) = false /\
   (forall q, In q tailoredCandidates -> present w q = false) /\
   whichFindsNothing tailoredWhich platform execSync) /\
  (Script.outcome (GeneratePdf.findChromePath platform execSync w) = Thrown e <->
   e = Error (lit "Chrome/Chromium not found. Please install Chrome or set CHROME_PATH environment variable.") /\
   truthyOpt (env w (lit "CHROME_PATH")) = false /\
   (forall q, In q (pageCandidates w) -> present w q = false) /\
   whichFindsNothing pageWhich platform execSync).
Proof.
  unfold TailoredPdf.findChromePath, GeneratePdf.findChromePath.
  rewrite !bind_getenv.
  destruct (env w (lit "CHROME_PATH")) as [[|c k]|] eqn:Hc.
  2: { split; (split; [discriminate | intros (_ & H & _); discriminate H]). }
  all: rewrite bind_getenv; split; rewrite search_throws; cbn [truthyOpt truthy].
  all: split;
    [ intros (-> & H & Hw); repeat split; try exact Hw;
      intros q Hq; apply H; [exact Hq|];
      first [ exact (tailored_candidates_nonempty q Hq)
            | exact (page_candidates_nonempty w q Hq) ]
    | intros (-> & _ & H & Hw); repeat split; try exact Hw;
      intros q Hq _; apply H; exact Hq ].
Qed.

Lemma search_nothing paths command message w :
  (forall q, In q (Chrome.platformPaths paths platform) -> q <> []) ->
  (forall q, In q (Chrome.platformPaths paths platform) -> present w q = false) ->
  whichFindsNothing command platform execSync ->
  Chrome.search paths command message platform execSync w
  = (map ExistsSync (Chrome.platformPaths paths platform), Thrown (Error message)).
Proof.
  intros Hne Hc Hw.
  rewrite search_no_candidate by (intros q Hq _; apply Hc; exact Hq).
  rewrite filter_truthy_nonempty by exact Hne. f_equal.
  destruct Hw as [Hp|[(e & He)|(output & Ho & Ht)]].
  - rewrite Hp. reflexivity.
  - rewrite He. destruct (Js.eqb platform (lit "win32")); reflexivity.
  - rewrite Ho, Ht. destruct (Js.eqb platform (lit "win32")); reflexivity.
Qed.

Section Page.

Variable dirname : jsstring.
Variable path_join : list jsstring -> jsstring.
Variable printPage : jsstring -> Script unit.

Local Abbreviation html := (GeneratePdf.CV_HTML_PATH dirname path_join).
Local Abbreviation generatePage :=
  (GeneratePdf.generatePDF dirname path_join platform execSync printPage).

(** X26. When the built CV page is missing, the PDF generator says so on
    [console.error], with the path it expected, and exits with status 1:
    it has not looked for a browser by then, and starts none. *)
Theorem generatePDF_without_the_built_page w :
  present w html = false ->
  generatePage w
  = ([ ConsoleLog [Text (GeneratePdf.PAGE_FACING_UP ++ lit " Generating CV PDF...")];
       ExistsSync html;
       ConsoleError
         [Text (CROSS_MARK ++ lit " Error: CV HTML not found. Run " ++ [34%N]
                ++ lit "npm run build" ++ [34%N] ++ lit " first.")];
       ConsoleError [Text (lit "   Expected: " ++ html)] ],
     Exited 1%Z).
Proof.
  unfold present. intros H. unfold GeneratePdf.generatePDF.
  rewrite bind_console_log, bind_existsSync.
  destruct (files w html); [discriminate H|]. cbn [negb].
  rewrite bind_assoc, bind_console_error. cbv beta.
  rewrite bind_assoc, bind_console_error. cbv beta.
  rewrite bind_exit. reflexivity.
Qed.

(** X27. When the page is there and no browser is found, the error of
    [findChromePath] leaves [generatePDF] uncaught: the run ends with the
    thrown error after the probes of the table, without a message on
    [console.error], without the line that names the browser, and
    without a browser run. *)
Theorem generatePDF_without_a_browser w :
  present w html = true ->
  truthyOpt (env w (lit "CHROME_PATH")) = false ->
  (forall q, In q (pageCandidates w) -> present w q = false) ->
  whichFindsNothing pageWhich platform execSync ->
  generatePage w
  = (ConsoleLog [Text (GeneratePdf.PAGE_FACING_UP ++ lit " Generating CV PDF...")]
     :: ExistsSync html
     :: map ExistsSync (pageCandidates w),
     Thrown (Error (lit "Chrome/Chromium not found. Please install Chrome or set CHROME_PATH environment variable."))).
Proof.
  unfold present at 1. intros H Hc Hq Hw. unfold GeneratePdf.generatePDF.
  rewrite bind_console_log, bind_existsSync.
  destruct (files w html); [|discriminate H]. cbn [negb].
  rewrite bind_ret.
  unfold Script.bind at 1.
  assert (E : GeneratePdf.findChromePath platform execSync w
              = (map ExistsSync (pageCandidates w),
                 Thrown (Error (lit "Chrome/Chromium not found. Please install Chrome or set CHROME_PATH environment variable.")))).
  { unfold GeneratePdf.findChromePath. rewrite bind_getenv.
    destruct (env w (lit "CHROME_PATH")) as [[|c k]|]; try discriminate Hc.
    all: rewrite bind_getenv;
      apply search_nothing;
      [intros q; apply page_candidates_nonempty | exact Hq | exact Hw]. }
  rewrite E. reflexivity.
Qed.

End Page.

End FindChromePath.

Lemma findChromePath_returns_a_found_browser_witness :
  let noWhich := fun _ : jsstring => @inl JsError jsstring (HostError (lit "Command failed")) in
  let w := Sample.world None [(lit "/usr/bin/chromium", lit "ELF")]
             Sample.created [] in
  Script.outcome (TailoredPdf.findChromePath (lit "linux") noWhich w)
  = Returned (lit "/usr/bin/chromium") /\
  foundBy (Chrome.platformPaths TailoredPdf.paths (lit "linux"))
          (lit "which google-chrome || which chromium")
          (lit "linux") noWhich w (lit "/usr/bin/chromium").
Proof.
  intros noWhich w. split; [reflexivity|].
  exact (proj1 (findChromePath_returns_a_found_browser (lit "linux") noWhich w
                  (lit "/usr/bin/chromium")) eq_refl).
Defined.

Lemma findChromePath_takes_the_first_present_candidate_witness :
  let noWhich := fun _ : jsstring => @inl JsError jsstring (HostError (lit "Command failed")) in
  let w := Sample.world None
             [ (lit "/usr/bin/chromium", lit "ELF");
               (lit "/usr/bin/chromium-browser", lit "ELF") ]
             Sample.created [] in
  TailoredPdf.findChromePath (lit "linux") noWhich w
  = (map ExistsSync [ lit "/usr/bin/google-chrome";
                      lit "/usr/bin/google-chrome-stable";
                      lit "/usr/bin/chromium" ],
     Returned (lit "/usr/bin/chromium")).
Proof.
  intros noWhich w.
  refine (proj1 (findChromePath_takes_the_first_present_candidate
                   (lit "linux") noWhich w
                   [lit "/usr/bin/google-chrome"; lit "/usr/bin/google-chrome-stable"]
                   (lit "/usr/bin/chromium") [lit "/usr/bin/chromium-browser"]
                   eq_refl _ eq_refl) eq_refl).
  intros q [<-|[<-|[]]]; reflexivity.
Defined.

Lemma findChromePath_throws_exactly_when_nothing_is_found_witness :
  Script.outcome
    (GeneratePdf.findChromePath (lit "win32")
       (fun _ => inr (lit "/usr/bin/chromium"))
       (Sample.world None [] Sample.created []))
  = Thrown (Error (lit "Chrome/Chromium not found. Please install Chrome or set CHROME_PATH environment variable.")).
Proof.
  apply (proj2 (findChromePath_throws_exactly_when_nothing_is_found _ _ _ _)).
  split; [reflexivity|]. split; [reflexivity|]. split.
  - intros q _. reflexivity.
  - left. reflexivity.
Defined.

Lemma generatePDF_without_the_built_page_witness :
  let noWhich := fun _ : jsstring => @inl JsError jsstring (HostError (lit "Command failed")) in
  reportsFailure
    (GeneratePdf.generatePDF Sample.dirname Sample.path_join (lit "linux") noWhich
       (fun _ => Script.ret tt) Sample.empty)
  = true.
Proof.
  intros noWhich.
  rewrite (generatePDF_without_the_built_page (lit "linux") noWhich
             Sample.dirname Sample.path_join (fun _ => Script.ret tt)
             Sample.empty eq_refl).
  reflexivity.
Defined.

Lemma generatePDF_without_a_browser_witness :
  let noWhich := fun _ : jsstring => @inl JsError jsstring (HostError (lit "Command failed")) in
  let w := Sample.world None
             [(GeneratePdf.CV_HTML_PATH Sample.dirname Sample.path_join, lit "<html>")]
             Sample.created [] in
  Script.outcome
    (GeneratePdf.generatePDF Sample.dirname Sample.path_join (lit "linux") noWhich
       (fun _ => Script.ret tt) w)
  = Thrown (Error (lit "Chrome/Chromium not found. Please install Chrome or set CHROME_PATH environment variable.")).
Proof.
  intros noWhich w.
  rewrite (generatePDF_without_a_browser (lit "linux") noWhich
             Sample.dirname Sample.path_join (fun _ => Script.ret tt) w).
  - reflexivity.
  - reflexivity.
  - reflexivity.
  - intros q Hq. cbn in Hq.
    repeat destruct Hq as [<-|Hq]; try contradiction; reflexivity.
  - right. left. eexists. reflexivity.
Defined.

(** ** The groups of skills in the PDF *)

Section Merge.
Import GeneratePdf.

Lemma skills_pushIfAny name skills :
  flat_map Category.skills (pushIfAny name skills) = skills.
Proof. destruct skills; [reflexivity|]. cbn. rewrite app_nil_r. reflexivity. Qed.

Lemma in_skillsOf names categories s :
  In s (skillsOf names categories) <->
  exists c, In c categories /\ In (Category.name c) (map lit names) /\
            In s (Category.skills c).
Proof.
  unfold skillsOf. rewrite in_flat_map. split.
  - intros (c & Hc & Hs). apply filter_In in Hc as [Hc Hn].
    apply arrayIncludes_In in Hn. eauto.
  - intros (c & Hc & Hn & Hs). exists c. split; [|exact Hs].
    apply filter_In. split; [exact Hc|]. apply arrayIncludes_In. exact Hn.
Qed.

Lemma find_app {A} (f : A -> bool) l1 l2 :
  find f (l1 ++ l2)
  = match find f l1 with Some x => Some x | None => find f l2 end.
Proof.
  induction l1 as [|x l1 IH]; [reflexivity|].
  cbn [app find]. destruct (f x); [reflexivity | exact IH].
Qed.

(** X28. The merge of the skill categories gives at most the four groups
    Frontend, Testing, DevOps & Cloud and Leadership & Other, in this
    order and each at most once; no group is empty; and the skills of the
    groups are those of the categories with one of the seven merged
    names, together with those of the first category named
    Testing & Quality. *)
Theorem mergedCategories_groups categories :
  (exists keep,
      map Category.name (mergedCategories categories) = filter keep GROUPS) /\
  Forall (fun group => Category.skills group <> [])
         (mergedCategories categories) /\
  (forall s,
      In s (flat_map Category.skills (mergedCategories categories)) <->
      (exists c, In c categories /\ In (Category.name c) MERGED /\
                 In s (Category.skills c)) \/
      (exists c, find isTesting categories = Some c /\
                 In s (Category.skills c))).
Proof.
  unfold mergedCategories.
  set (frontend := skillsOf _ categories).
  set (devops := skillsOf ["DevOps & Tools"; "Cloud & Monitoring"]%string categories).
  set (leadership := skillsOf ["Leadership & Collaboration"; "Emerging Tech"]%string
                       categories).
  set (testing := match find _ categories with Some c => Category.skills c | None => [] end).
  split; [|split].
  - exists (fun name =>
              arrayIncludes
                (map Category.name
                   (pushIfAny "Frontend" frontend ++ pushIfAny "Testing" testing
                    ++ pushIfAny "DevOps & Cloud" devops
                    ++ pushIfAny "Leadership & Other" leadership)) name).
    destruct frontend, testing, devops, leadership; reflexivity.
  - destruct frontend, testing, devops, leadership; cbn;
      repeat constructor; discriminate.
  - intros s. rewrite !flat_map_app, !skills_pushIfAny, !in_app_iff.
    subst frontend devops leadership. rewrite !in_skillsOf.
    change (find isTesting categories)
      with (find (fun c => Js.eqb (Category.name c) (lit "Testing & Quality"))
                 categories).
    subst testing.
    destruct (find (fun c => Js.eqb (Category.name c) (lit "Testing & Quality"))
                   categories) as [first|].
    + split.
      * intros [(c & Hc & Hn & Hs)|[Hs|[(c & Hc & Hn & Hs)|(c & Hc & Hn & Hs)]]].
        -- left. exists c. repeat split; try assumption.
           unfold MERGED. cbn in Hn |- *. tauto.
        -- right. exists first. split; [reflexivity | exact Hs].
        -- left. exists c. repeat split; try assumption.
           unfold MERGED. cbn in Hn |- *. tauto.
        -- left. exists c. repeat split; try assumption.
           unfold MERGED. cbn in Hn |- *. tauto.
      * intros [(c & Hc & Hn & Hs)|(c & [= <-] & Hs)]; [|tauto].
        unfold MERGED in Hn. cbn [map In] in Hn.
        destruct Hn as [Hn|[Hn|[Hn|[Hn|[Hn|[Hn|[Hn|[]]]]]]]].
        1-3: left; exists c; repeat split; try assumption;
             cbn [map In]; tauto.
        1-2: right; right; left; exists c; repeat split; try assumption;
             cbn [map In]; tauto.
        1-2: right; right; right; exists c; repeat split; try assumption;
             cbn [map In]; tauto.
    + split.
      * intros [(c & Hc & Hn & Hs)|[[]|[(c & Hc & Hn & Hs)|(c & Hc & Hn & Hs)]]].
        all: left; exists c; repeat split; try assumption;
             unfold MERGED; cbn in Hn |- *; tauto.
      * intros [(c & Hc & Hn & Hs)|(c & [=] & _)].
        unfold MERGED in Hn. cbn [map In] in Hn.
        destruct Hn as [Hn|[Hn|[Hn|[Hn|[Hn|[Hn|[Hn|[]]]]]]]].
        1-3: left; exists c; repeat split; try assumption;
             cbn [map In]; tauto.
        1-2: right; right; left; exists c; repeat split; try assumption;
             cbn [map In]; tauto.
        1-2: right; right; right; exists c; repeat split; try assumption;
             cbn [map In]; tauto.
Qed.

(** X29. A category of the page whose name is none of the eight that
    the merge knows is left out of the PDF with all its skills, and so
    is every category named Testing & Quality after the first. *)
Theorem mergedCategories_drops before c after :
  ~ In (Category.name c) (TESTING :: MERGED) \/
  (Category.name c = TESTING /\ exists first, In first before /\ isTesting first = true) ->
  mergedCategories (before ++ c :: after) = mergedCategories (before ++ after).
Proof.
  intros H.
  assert (Hm : ~ In (Category.name c) MERGED).
  { destruct H as [H|[-> _]].
    - intros Hin. apply H. right. exact Hin.
    - unfold MERGED, TESTING. cbn [map In]. intros Hin.
      repeat destruct Hin as [Hin|Hin]; try discriminate Hin. exact Hin. }
  assert (Hs : forall names,
             incl (map lit names) MERGED ->
             skillsOf names (before ++ c :: after) = skillsOf names (before ++ after)).
  { intros names Hincl. unfold skillsOf. rewrite !filter_app. cbn [filter].
    destruct (arrayIncludes (map lit names) (Category.name c)) eqn:E; [|reflexivity].
    apply arrayIncludes_In in E. exfalso. apply Hm, Hincl, E. }
  assert (Hf : find (fun c => Js.eqb (Category.name c) (lit "Testing & Quality"))
                    (before ++ c :: after)
               = find (fun c => Js.eqb (Category.name c) (lit "Testing & Quality"))
                      (before ++ after)).
  { rewrite !find_app. cbn [find].
    destruct H as [H|(Hn & first & Hin & Hfirst)].
    - destruct (Js.eqb (Category.name c) (lit "Testing & Quality")) eqn:E;
        [|reflexivity].
      apply eqb_eq in E. exfalso. apply H. left. symmetry. exact E.
    - destruct (find (fun c => Js.eqb (Category.name c) (lit "Testing & Quality"))
                     before) eqn:E; [reflexivity|].
      exfalso. apply (find_none _ _ E) in Hin.
      unfold isTesting, TESTING in Hfirst. congruence. }
  unfold mergedCategories. rewrite Hf.
  rewrite !Hs; [reflexivity| | |];
    unfold MERGED; cbn [map]; intros n Hn; cbn [In] in Hn |- *; tauto.
Qed.

End Merge.

Lemma mergedCategories_drops_witness :
  GeneratePdf.mergedCategories
    [ GeneratePdf.Category.mk (lit "Frontend Engineering") [lit "React"];
      GeneratePdf.Category.mk (lit "Languages") [lit "Rust"];
      GeneratePdf.Category.mk (lit "Emerging Tech") [lit "LLMs"] ]
  = [ GeneratePdf.Category.mk (lit "Frontend") [lit "React"];
      GeneratePdf.Category.mk (lit "Leadership & Other") [lit "LLMs"] ].
Proof.
  refine (eq_trans
            (mergedCategories_drops
               [GeneratePdf.Category.mk (lit "Frontend Engineering") [lit "React"]]
               (GeneratePdf.Category.mk (lit "Languages") [lit "Rust"])
               [GeneratePdf.Category.mk (lit "Emerging Tech") [lit "LLMs"]] _)
            eq_refl).
  left. intros H. cbn in H.
  repeat destruct H as [H|H]; try discriminate H. exact H.
Defined.
